(** * WispHub CustomerCare MCP server: access layer, cache, normalizer
      and write-verification protocol

    A shallow embedding of the TypeScript sources
    - [src/clients/wisphub-client.ts]  ([WispHubClient], [CacheManager]),
    - [src/utils/data-transformer.ts]  ([DataTransformer]),
    - [src/services/cliente.service.ts] ([ClienteService]),
    - [src/services/ticket.service.ts]  ([TicketService]),
    - the actualizar_cliente tool ([handler] and
      [formatClienteUpdateResponse], second half of
      [src/tools/clientes/obtener-cliente.ts]),
    - [src/utils/error-handler.ts]      ([ErrorHandler]),
    followed by the properties established about them.

    Conventions of the embedding.
    - JSON data is the type [value]; a number is an integer or [NaN]
      (no property below reads a fractional number).
    - A string is the sequence of the bytes of its UTF-8 encoding.
    - [Date.now()] readings are explicit arguments.
    - The transport (axios adapter plus the upstream API) is a script
      giving the outcome of the k-th call; every call is recorded.
    - Logging and the [timestamp]/[duration] fields of results, which
      depend only on the wall clock, are left out.
    - Functions of the JavaScript runtime that the sources call but do
      not define ([JSON.stringify], [parseFloat], [Intl.NumberFormat],
      date parsing and formatting) are the fields of the class
      [Runtime]; Unicode normalization is the field of [Unicode].
    - The services reach the HTTP client through the classes
      [HttpClient] (GET, PUT, cache clearing, pauses) and [HttpWriter]
      (POST, PATCH); [WispHub_http] and [WispHub_writer] are the real
      client. *)

From Stdlib Require Import ZArith List String Ascii Bool Lia DecimalString.
From Stdlib Require DecimalPos DecimalZ.
From stdpp Require Import gmap strings.
Import ListNotations.

Open Scope Z_scope.
Open Scope string_scope.

(* ================================================================== *)
(** ** JavaScript values *)
(* ================================================================== *)

Module Js.

#[local] Set Warnings "-register-all".

Inductive value : Type :=
  | VUndefined
  | VNull
  | VBool (b : bool)
  | VNum (n : Z)
  | VNaN
  | VStr (s : string)
  | VArr (items : list value)
  | VObj (fields : list (string * value)).

(** [!!v] *)
Definition truthy (v : value) : bool :=
  match v with
  | VUndefined | VNull | VNaN => false
  | VBool b => b
  | VNum n => negb (n =? 0)%Z
  | VStr s => negb (String.eqb s "")
  | VArr _ | VObj _ => true
  end.

(** [a || b] *)
Definition or (a b : value) : value := if truthy a then a else b.

(** [a === b]; two arrays or objects that come from different JSON
    documents are never the same reference. *)
Definition strict_eq (a b : value) : bool :=
  match a, b with
  | VUndefined, VUndefined => true
  | VNull, VNull => true
  | VBool x, VBool y => Bool.eqb x y
  | VNum x, VNum y => (x =? y)%Z
  | VStr x, VStr y => String.eqb x y
  | _, _ => false
  end.

Definition is_array (v : value) : bool :=
  match v with VArr _ => true | _ => false end.

(** [typeof v === 'object'] *)
Definition typeof_object (v : value) : bool :=
  match v with VNull | VArr _ | VObj _ => true | _ => false end.

(** [typeof v === 'string'] *)
Definition typeof_string (v : value) : bool :=
  match v with VStr _ => true | _ => false end.

(** *** Objects as ordered lists of bindings *)

Fixpoint obj_lookup (k : string) (fs : list (string * value)) : option value :=
  match fs with
  | [] => None
  | (k', v) :: rest => if String.eqb k k' then Some v else obj_lookup k rest
  end.

(** [o[k] = v]: an existing key keeps its place, a new key goes last. *)
Fixpoint obj_set (k : string) (v : value) (fs : list (string * value))
  : list (string * value) :=
  match fs with
  | [] => [(k, v)]
  | (k', v') :: rest =>
      if String.eqb k k' then (k', v) :: rest else (k', v') :: obj_set k v rest
  end.

(** [delete o[k]] *)
Definition obj_delete (k : string) (fs : list (string * value))
  : list (string * value) :=
  List.filter (fun kv => negb (String.eqb k (fst kv))) fs.

(** [{...a, ...b}] on the bindings *)
Definition obj_spread (a b : list (string * value)) : list (string * value) :=
  fold_left (fun acc kv => obj_set (fst kv) (snd kv) acc) b a.

Definition has_key (k : string) (fs : list (string * value)) : bool :=
  match obj_lookup k fs with Some _ => true | None => false end.

Definition keys (fs : list (string * value)) : list string := map fst fs.

(** [v.k] for a [v] that is neither [null] nor [undefined]; a missing
    property reads [undefined]. *)
Definition prop (v : value) (k : string) : value :=
  match v with
  | VObj fs => match obj_lookup k fs with Some x => x | None => VUndefined end
  | _ => VUndefined
  end.

(** [v?.k] *)
Definition prop_opt (v : value) (k : string) : value :=
  match v with
  | VUndefined | VNull => VUndefined
  | _ => prop v k
  end.

(** ['k' in v] for an object [v] *)
Definition in_obj (k : string) (v : value) : bool :=
  match v with VObj fs => has_key k fs | _ => false end.

(** *** Strings

    A string is the sequence of the bytes of its UTF-8 encoding. *)

Definition string_of_Z (z : Z) : string :=
  NilZero.string_of_int (Z.to_int z).

(** [trim] strips the white space and line terminator code points of
    ECMAScript, met here by the bytes of their UTF-8 encoding:
    U+0009 to U+000D and U+0020 (one byte each), U+00A0 ([C2 A0]),
    U+1680 ([E1 9A 80]), U+2000 to U+200A, U+2028, U+2029 and U+202F
    ([E2 80 80..8A], [E2 80 A8], [E2 80 A9], [E2 80 AF]), U+205F
    ([E2 81 9F]), U+3000 ([E3 80 80]) and U+FEFF ([EF BB BF]). *)
Definition byte_is (c : ascii) (n : nat) : bool := Nat.eqb (nat_of_ascii c) n.

Definition is_ws (c : ascii) : bool :=
  let n := nat_of_ascii c in
  (Nat.eqb n 32 || (Nat.leb 9 n && Nat.leb n 13))%bool.

Definition is_ws2 (a b : ascii) : bool :=
  (byte_is a 194 && byte_is b 160)%bool.

Definition is_ws3 (a b c : ascii) : bool :=
  let z := nat_of_ascii c in
  ((byte_is a 225 && byte_is b 154 && byte_is c 128) ||
   (byte_is a 226 && byte_is b 128 &&
      ((Nat.leb 128 z && Nat.leb z 138) ||
       Nat.eqb z 168 || Nat.eqb z 169 || Nat.eqb z 175)) ||
   (byte_is a 226 && byte_is b 129 && byte_is c 159) ||
   (byte_is a 227 && byte_is b 128 && byte_is c 128) ||
   (byte_is a 239 && byte_is b 187 && byte_is c 191))%bool.

(** What follows the white space code point that [s] starts with;
    [None] when it starts with none. *)
Definition ws_prefix (s : string) : option string :=
  match s with
  | String a r =>
      if is_ws a then Some r else
      match r with
      | String b r' =>
          if is_ws2 a b then Some r' else
          match r' with
          | String c r'' => if is_ws3 a b c then Some r'' else None
          | EmptyString => None
          end
      | EmptyString => None
      end
  | EmptyString => None
  end.

Fixpoint trim_left (s : string) : string :=
  match s with
  | EmptyString => EmptyString
  | String a r =>
      if is_ws a then trim_left r else
      match r with
      | EmptyString => s
      | String b r' =>
          if is_ws2 a b then trim_left r' else
          match r' with
          | EmptyString => s
          | String c r'' => if is_ws3 a b c then trim_left r'' else s
          end
      end
  end.

(** [s] is white space throughout. *)
Definition blank (s : string) : bool := String.eqb (trim_left s) "".

(** The string without the white space that ends it. *)
Fixpoint trim_right (s : string) : string :=
  match s with
  | EmptyString => EmptyString
  | String c r => if blank s then EmptyString else String c (trim_right r)
  end.

(** [s.trim()] *)
Definition trim (s : string) : string := trim_right (trim_left s).

(** [hay.includes(needle)] *)
Fixpoint includes (needle hay : string) : bool :=
  (String.prefix needle hay ||
   match hay with
   | EmptyString => false
   | String _ r => includes needle r
   end)%bool.

Definition is_digit (c : ascii) : bool :=
  let n := nat_of_ascii c in (Nat.leb 48 n && Nat.leb n 57)%bool.

Fixpoint all_digits (s : string) : bool :=
  match s with
  | EmptyString => true
  | String c r => (is_digit c && all_digits r)%bool
  end.

(** [/^\d+$/.test(s)] *)
Definition digits_only (s : string) : bool :=
  (negb (String.eqb s "") && all_digits s)%bool.

Definition lower_ascii (c : ascii) : ascii :=
  let n := nat_of_ascii c in
  if (Nat.leb 65 n && Nat.leb n 90)%bool then ascii_of_nat (n + 32) else c.

(** [s.toLowerCase()], on the ASCII letters *)
Fixpoint toLowerCase (s : string) : string :=
  match s with
  | EmptyString => EmptyString
  | String c r => String (lower_ascii c) (toLowerCase r)
  end.

(** [String(v)], as used by template literals and property keys *)
Fixpoint to_string (v : value) : string :=
  match v with
  | VUndefined => "undefined"
  | VNull => "null"
  | VBool true => "true"
  | VBool false => "false"
  | VNum n => string_of_Z n
  | VNaN => "NaN"
  | VStr s => s
  | VArr items =>
      let elt (x : value) : string :=
        match x with
        | VUndefined | VNull => ""
        | _ => to_string x
        end in
      (fix join (l : list value) : string :=
         match l with
         | [] => ""
         | [x] => elt x
         | x :: r => elt x +:+ "," +:+ join r
         end) items
  | VObj _ => "[object Object]"
  end.

(** [typeof v] *)
Definition typeof (v : value) : string :=
  match v with
  | VUndefined => "undefined"
  | VNull | VArr _ | VObj _ => "object"
  | VBool _ => "boolean"
  | VNum _ | VNaN => "number"
  | VStr _ => "string"
  end.

(** [parseInt(s, 10)] for a string of decimal digits *)
Definition parseInt_digits (s : string) : Z :=
  fold_left (fun acc c => 10 * acc + Z.of_nat (nat_of_ascii c - 48))
            (list_ascii_of_string s) 0.

(** The line feed character *)
Definition LF : string := String (ascii_of_nat 10) "".

(** The double quote character *)
Definition DQ : string := String (ascii_of_nat 34) "".

(** [items.join(sep)] for an array of strings *)
Fixpoint join (sep : string) (items : list string) : string :=
  match items with
  | [] => ""
  | [x] => x
  | x :: rest => x +:+ sep +:+ join sep rest
  end.

(** The own enumerable bindings that [{...v}] copies; those of a
    string are its characters, one per byte for a string in ASCII. *)
Definition own_entries (v : value) : list (string * value) :=
  match v with
  | VObj fs => fs
  | VArr items =>
      map (fun p => (string_of_Z (Z.of_nat (fst p)), snd p))
          (combine (seq 0 (List.length items)) items)
  | VStr s =>
      map (fun p => (string_of_Z (Z.of_nat (fst p)), VStr (String (snd p) "")))
          (combine (seq 0 (String.length s)) (list_ascii_of_string s))
  | _ => []
  end.

(** The property names that every object literal inherits from
    [Object.prototype]. *)
Definition Object_prototype_names : list string :=
  ["constructor"; "__defineGetter__"; "__defineSetter__"; "hasOwnProperty";
   "__lookupGetter__"; "__lookupSetter__"; "isPrototypeOf";
   "propertyIsEnumerable"; "toString"; "valueOf"; "__proto__";
   "toLocaleString"].

(** The comparison of [Array.prototype.includes]: [===], except that
    [NaN] equals itself. *)
Definition same_value_zero (a b : value) : bool :=
  match a, b with
  | VNaN, VNaN => true
  | _, _ => strict_eq a b
  end.

(** [items.includes(v)] *)
Definition array_includes (items : list value) (v : value) : bool :=
  existsb (same_value_zero v) items.

(** *** Errors and completions *)

(** A thrown [Error] object: the constructor that built it, its
    [message], and any further own properties. *)
Record error : Type := mkError {
  ctor : string;
  message : string;
  props : list (string * value)
}.

(** [new Error(msg)] *)
Definition Error (msg : string) : error :=
  {| ctor := "Error"; message := msg; props := [] |}.

(** The same error object with another [message]. *)
Definition with_message (msg : string) (e : error) : error :=
  {| ctor := ctor e; message := msg; props := props e |}.

(** The [TypeError] raised by calling a method that the receiver does
    not have. *)
Definition TypeError (msg : string) : error :=
  {| ctor := "TypeError"; message := msg; props := [] |}.

(** Outcome of an awaited promise or of a call that may throw. *)
Inductive completion (A : Type) : Type :=
  | Resolved (a : A)
  | Rejected (e : error).
Arguments Resolved {A} a.
Arguments Rejected {A} e.

End Js.

Import Js.

(* ================================================================== *)
(** ** The JavaScript runtime *)
(* ================================================================== *)

(** Built-in and library functions that the sources call. *)
Class Runtime : Type := {
  (** [JSON.stringify(v)]: a string, or [undefined] *)
  JSON_stringify : value -> value;
  (** [JSON.stringify(v, null, 2)] *)
  JSON_stringify_pretty : value -> value;
  (** [parseFloat(v)] *)
  parseFloat : value -> value;
  (** [new Intl.NumberFormat('es-MX', {style:'currency', currency:'MXN'}).format(v)] *)
  Intl_format_MXN : value -> string;
  (** date-fns [parse(v, fmt, new Date()).toISOString()]; [None] when
      [toISOString] throws on an invalid date *)
  parse_toISOString : value -> string -> option string;
  (** [new Date(v).toISOString()]; [None] when it throws *)
  Date_toISOString : value -> option string;
  (** [new Date().toISOString()] *)
  now_toISOString : string;
  (** [new Date(s).getTime()] in milliseconds; [None] for an invalid
      date, whose time value is [NaN] *)
  Date_getTime : string -> option Z;
  (** [new Date().toLocaleString('es-MX', ...)], [toLocaleDateString]
      and [toLocaleTimeString] with the options of [actualizarTicket] *)
  now_toLocaleString : string;
  now_toLocaleDateString : string;
  now_toLocaleTimeString : string
}.

(** Unicode normalization, which the sources call on search text. *)
Class Unicode : Type := {
  (** [s.normalize('NFD')], on the UTF-8 bytes of [s] *)
  normalize_NFD : string -> string
}.

(* ================================================================== *)
(** ** CacheManager (src/utils/cache.ts) *)
(* ================================================================== *)

Module CacheManager.

Record CacheEntry : Type := mkEntry {
  entry_value : value;
  expires : Z
}.

Record Stats : Type := mkStats {
  hits : Z;
  misses : Z;
  sets : Z;
  deletes : Z;
  clears : Z
}.

Record t : Type := mkCache {
  cache : gmap string CacheEntry;
  stats : Stats
}.

(** [new CacheManager()] *)
Definition new : t :=
  {| cache := ∅; stats := mkStats 0 0 0 0 0 |}.

Definition count_hit (s : Stats) : Stats :=
  mkStats (hits s + 1) (misses s) (sets s) (deletes s) (clears s).
Definition count_miss (s : Stats) : Stats :=
  mkStats (hits s) (misses s + 1) (sets s) (deletes s) (clears s).
Definition count_set (s : Stats) : Stats :=
  mkStats (hits s) (misses s) (sets s + 1) (deletes s) (clears s).
Definition count_deletes (n : Z) (s : Stats) : Stats :=
  mkStats (hits s) (misses s) (sets s) (deletes s + n) (clears s).
Definition count_clear (s : Stats) : Stats :=
  mkStats (hits s) (misses s) (sets s) (deletes s) (clears s + 1).

(** [set(key, value, ttl)], called when [Date.now()] reads [now] *)
Definition set (key : string) (v : value) (ttl : Z) (now : Z) (c : t) : t :=
  {| cache := <[key := mkEntry v (now + ttl)]> (cache c);
     stats := count_set (stats c) |}.

(** [get(key)], called when [Date.now()] reads [now]; [null] is the
    answer for an absent or expired entry. *)
Definition get (key : string) (now : Z) (c : t) : value * t :=
  match cache c !! key with
  | None =>
      (VNull, {| cache := cache c; stats := count_miss (stats c) |})
  | Some entry =>
      if (expires entry <? now)%Z then
        (VNull, {| cache := base.delete key (cache c);
                   stats := count_deletes 1 (count_miss (stats c)) |})
      else
        (entry_value entry,
         {| cache := cache c; stats := count_hit (stats c) |})
  end.

(** [delete(key)] *)
Definition delete (key : string) (c : t) : bool * t :=
  match cache c !! key with
  | Some _ =>
      (true, {| cache := base.delete key (cache c);
                stats := count_deletes 1 (stats c) |})
  | None => (false, c)
  end.

(** [clear()] *)
Definition clear (c : t) : t :=
  {| cache := ∅; stats := count_clear (stats c) |}.

(** [cleanup()], called when [Date.now()] reads [now] *)
Definition cleanup (now : Z) (c : t) : Z * t :=
  let kept := filter (fun kv => (now <= expires (snd kv))%Z) (cache c) in
  let cleanedCount := Z.of_nat (size (cache c)) - Z.of_nat (size kept) in
  (cleanedCount,
   {| cache := kept; stats := count_deletes cleanedCount (stats c) |}).

(** [size()] *)
Definition size (c : t) : nat := base.size (cache c).

(** One call on a cache, with the reading of [Date.now()] for the
    methods that take one. *)
Inductive call : Type :=
  | CallSet (key : string) (v : value) (ttl now : Z)
  | CallGet (key : string) (now : Z)
  | CallDelete (key : string)
  | CallClear
  | CallCleanup (now : Z).

(** The cache after one call. *)
Definition after (c : t) (k : call) : t :=
  match k with
  | CallSet key v ttl now => set key v ttl now c
  | CallGet key now => snd (get key now c)
  | CallDelete key => snd (delete key c)
  | CallClear => clear c
  | CallCleanup now => snd (cleanup now c)
  end.

(** A new cache after a sequence of calls, oldest first. *)
Definition history (calls : list call) : t := fold_left after calls new.

Definition is_get (k : call) : bool :=
  match k with CallGet _ _ => true | _ => false end.
Definition is_set (k : call) : bool :=
  match k with CallSet _ _ _ _ => true | _ => false end.
Definition is_clear (k : call) : bool :=
  match k with CallClear => true | _ => false end.

End CacheManager.

(* ================================================================== *)
(** ** WispHubClient (src/clients/wisphub-client.ts) *)
(* ================================================================== *)

Module WispHubClient.

(** The part of [ServerConfig] that the access layer and the services
    read (src/config/server-config.ts). *)
Record ServerConfig : Type := mkConfig {
  retryAttempts : Z;
  cache_clientes : Z;
  cache_tickets : Z;
  cache_saldos : Z
}.

Definition defaultConfig : ServerConfig :=
  {| retryAttempts := 3;
     cache_clientes := 300000;
     cache_tickets := 300000;
     cache_saldos := 60000 |}.

Record AxiosResponse : Type := mkResponse {
  status : Z;
  data : value
}.

(** An [AxiosError]: [response] is absent when nothing was received,
    [code] is e.g. ['ECONNABORTED'] on a timeout. *)
Record AxiosError : Type := mkAxiosError {
  response : option AxiosResponse;
  code : option string;
  error_message : string
}.

(** What axios settles one transport attempt to: fulfilled for a 2xx
    answer, rejected otherwise. *)
Inductive attempt : Type :=
  | Fulfilled (r : AxiosResponse)
  | Failed (e : AxiosError).

(** The request configuration, with the two fields that the response
    interceptor adds to it; axios hands the same fields back in
    [error.config] when the re-issued request fails. *)
Record RequestConfig : Type := mkRequest {
  method : string;
  url : string;
  params : value;
  body : value;
  _retry : bool;
  _retryCount : option Z
}.

Definition request (m u : string) (p b : value) : RequestConfig :=
  {| method := m; url := u; params := p; body := b;
     _retry := false; _retryCount := None |}.

(** The client: its cache, and the trace of what it did on the wire. *)
Record t : Type := mkClient {
  cache : CacheManager.t;
  sent : list RequestConfig;   (* every transport attempt, oldest first *)
  delays : list Z              (* every [delay(ms)], oldest first *)
}.

Definition new : t :=
  {| cache := CacheManager.new; sent := []; delays := [] |}.

Definition with_cache (c : CacheManager.t) (st : t) : t :=
  {| cache := c; sent := sent st; delays := delays st |}.

Definition record_attempt (cfg : RequestConfig) (st : t) : t :=
  {| cache := cache st; sent := (sent st ++ [cfg])%list; delays := delays st |}.

Definition record_delay (ms : Z) (st : t) : t :=
  {| cache := cache st; sent := sent st; delays := (delays st ++ [ms])%list |}.

(** [originalRequest._retryCount || 0] *)
Definition retryCount (cfg : RequestConfig) : Z :=
  match _retryCount cfg with
  | Some n => n
  | None => 0
  end.

(** The request after [originalRequest._retry = true] and
    [originalRequest._retryCount = (originalRequest._retryCount || 0) + 1]. *)
Definition retried (cfg : RequestConfig) : RequestConfig :=
  {| method := method cfg; url := url cfg;
     params := params cfg; body := body cfg;
     _retry := true;
     _retryCount := Some (retryCount cfg + 1) |}.

(** [shouldRetry(error)] *)
Definition shouldRetry (e : AxiosError) : bool :=
  match response e with
  | None => true
  | Some r => (500 <=? status r)%Z
  end.

(** [error.response?.data] is truthy *)
Definition has_body (e : AxiosError) : bool :=
  match response e with
  | Some r => truthy (data r)
  | None => false
  end.

(** [error.code === 'ECONNABORTED'] *)
Definition is_timeout (e : AxiosError) : bool :=
  match code e with
  | Some c => String.eqb c "ECONNABORTED"
  | None => false
  end.

Section Client.

Context {RT : Runtime}.
Variable config : ServerConfig.
(** The outcome of the k-th transport attempt (k counts from 0). *)
Variable transport : nat -> attempt.

(** The [errorMessage] of [formatError]: the first truthy one of the
    body's [message], [error] and [detail], of its serialization and of
    a fixed text. *)
Definition errorMessage (apiError : value) : value :=
  Js.or (prop apiError "message")
    (Js.or (prop apiError "error")
       (Js.or (prop apiError "detail")
          (Js.or (JSON_stringify apiError) (VStr "Unknown API error")))).

(** [formatError(error)] *)
Definition formatError (e : AxiosError) : Js.error :=
  let no_body :=
    if is_timeout e
    then Error "Request timeout - WispHub API is not responding"
    else Error ("Network error: " +:+ error_message e) in
  match response e with
  | Some r =>
      if truthy (data r) then
        Error ("WispHub API Error (" +:+ to_string (VNum (status r)) +:+ "): "
               +:+ to_string (errorMessage (data r)))
      else no_body
  | None => no_body
  end.

(** [this.http(config)]: one transport attempt followed by the response
    interceptors. The error interceptor re-issues the request through
    [this.http], hence the recursion; [fuel] bounds its depth. *)
Fixpoint http (fuel : nat) (cfg : RequestConfig) (st : t)
  : option (completion AxiosResponse * t) :=
  match fuel with
  | O => None
  | S fuel' =>
      let st1 := record_attempt cfg st in
      match transport (List.length (sent st)) with
      | Fulfilled r => Some (Resolved r, st1)
      | Failed e =>
          if (negb (_retry cfg) && shouldRetry e)%bool then
            let retryDelay := 2 ^ retryCount cfg * 1000 in
            let st2 := record_delay retryDelay st1 in
            let originalRequest := retried cfg in
            if (retryCount originalRequest <=? retryAttempts config)%Z then
              http fuel' originalRequest st2
            else Some (Rejected (formatError e), st2)
          else Some (Rejected (formatError e), st1)
      end
  end.

(** Enough fuel for the first attempt and [retryAttempts] re-issues. *)
Definition enough_fuel : nat := S (S (Z.to_nat (retryAttempts config))).

(** A request through the axios instance, returning [response.data]. *)
Definition send (cfg : RequestConfig) (st : t) : completion value * t :=
  match http enough_fuel cfg st with
  | Some (Resolved r, st') => (Resolved (data r), st')
  | Some (Rejected e, st') => (Rejected e, st')
  | None => (Rejected (Error "Maximum call stack size exceeded"), st)
  end.

(** [getCacheKey(method, endpoint, params)] *)
Definition getCacheKey (m endpoint : string) (p : value) : string :=
  let paramString := if truthy p then JSON_stringify p else VStr "" in
  m +:+ ":" +:+ endpoint +:+ ":" +:+ to_string paramString.

Definition caching (cacheTtl : option Z) : bool :=
  match cacheTtl with
  | Some ttl => (negb (ttl =? 0) && (0 <? ttl))%Z%bool
  | None => false
  end.

(** [get(endpoint, params, cacheTtl)]; [Date.now()] reads [now] at the
    cache lookup and [later] when the response is stored. *)
Definition get (endpoint : string) (p : value) (cacheTtl : option Z)
    (now later : Z) (st : t) : completion value * t :=
  let cacheKey := getCacheKey "GET" endpoint p in
  let fetch (st0 : t) : completion value * t :=
    match send (request "GET" endpoint p VUndefined) st0 with
    | (Resolved d, st1) =>
        match cacheTtl with
        | Some ttl =>
            if caching cacheTtl then
              (Resolved d,
               with_cache
                 (CacheManager.set cacheKey d ttl later (cache st1)) st1)
            else (Resolved d, st1)
        | None => (Resolved d, st1)
        end
    | (Rejected e, st1) => (Rejected e, st1)
    end in
  if caching cacheTtl then
    let '(cached, c) := CacheManager.get cacheKey now (cache st) in
    if truthy cached then (Resolved cached, with_cache c st)
    else fetch (with_cache c st)
  else fetch st.

(** [post], [put], [patch], [delete]: no caching *)
Definition post (endpoint : string) (d : value) (st : t) :=
  send (request "POST" endpoint VUndefined d) st.
Definition put (endpoint : string) (d : value) (st : t) :=
  send (request "PUT" endpoint VUndefined d) st.
Definition patch (endpoint : string) (d : value) (st : t) :=
  send (request "PATCH" endpoint VUndefined d) st.
Definition delete (endpoint : string) (st : t) :=
  send (request "DELETE" endpoint VUndefined VUndefined) st.

(** [clearCache()] *)
Definition clearCache (st : t) : t :=
  with_cache (CacheManager.clear (cache st)) st.

End Client.

End WispHubClient.

(* ================================================================== *)
(** ** DataTransformer (src/utils/data-transformer.ts) *)
(* ================================================================== *)

Module DataTransformer.

(** The canonical vocabularies (src/types/wisphub.types.ts). *)
Inductive EstadoCliente : Type := activo | suspendido | cancelado.
Inductive EstadoTicket : Type := nuevo | en_progreso | resuelto | cerrado.
Inductive PrioridadTicket : Type := baja | normal | alta | muy_alta.

(** The string that stands for each canonical value at run time. *)
Definition EstadoCliente_str (e : EstadoCliente) : string :=
  match e with
  | activo => "activo"
  | suspendido => "suspendido"
  | cancelado => "cancelado"
  end.

Definition EstadoTicket_str (e : EstadoTicket) : string :=
  match e with
  | nuevo => "nuevo"
  | en_progreso => "en_progreso"
  | resuelto => "resuelto"
  | cerrado => "cerrado"
  end.

Definition PrioridadTicket_str (p : PrioridadTicket) : string :=
  match p with
  | baja => "baja"
  | normal => "normal"
  | alta => "alta"
  | muy_alta => "muy_alta"
  end.

(** The six lookup tables, as the object literals of the source. *)
Definition ESTADO_CLIENTE_MAP : value :=
  VObj [("Activo", VStr "activo");
        ("Suspendido", VStr "suspendido");
        ("Cancelado", VStr "cancelado");
        ("Cortado", VStr "suspendido");
        ("Inactivo", VStr "cancelado")].

Definition ESTADO_CLIENTE_REVERSE_MAP : value :=
  VObj [("activo", VStr "Activo");
        ("suspendido", VStr "Suspendido");
        ("cancelado", VStr "Cancelado")].

Definition ESTADO_TICKET_MAP : value :=
  VObj [("1", VStr "nuevo");
        ("2", VStr "en_progreso");
        ("3", VStr "resuelto");
        ("4", VStr "cerrado")].

Definition ESTADO_TICKET_REVERSE_MAP : value :=
  VObj [("nuevo", VNum 1);
        ("en_progreso", VNum 2);
        ("resuelto", VNum 3);
        ("cerrado", VNum 4)].

Definition PRIORIDAD_TICKET_MAP : value :=
  VObj [("1", VStr "baja");
        ("2", VStr "normal");
        ("3", VStr "alta");
        ("4", VStr "muy_alta")].

Definition PRIORIDAD_TICKET_REVERSE_MAP : value :=
  VObj [("baja", VNum 1);
        ("normal", VNum 2);
        ("alta", VNum 3);
        ("muy_alta", VNum 4)].

(** [table[key]]: the key is converted to a property name. Properties
    inherited from [Object.prototype] are not part of the tables. *)
Definition index (table key : value) : value := prop table (to_string key).

Definition estadoClienteStringToEnum (estado : value) : value :=
  Js.or (index ESTADO_CLIENTE_MAP estado) (VStr "cancelado").

Definition estadoTicketToString (estado : value) : value :=
  Js.or (index ESTADO_TICKET_MAP estado) (VStr "abierto").

Definition prioridadTicketToString (prioridad : value) : value :=
  Js.or (index PRIORIDAD_TICKET_MAP prioridad) (VStr "media").

Definition estadoClienteEnumToString (estado : value) : value :=
  Js.or (index ESTADO_CLIENTE_REVERSE_MAP estado) (VStr "Activo").

Definition estadoTicketToNumber (estado : value) : value :=
  Js.or (index ESTADO_TICKET_REVERSE_MAP estado) (VNum 1).

Definition prioridadTicketToNumber (prioridad : value) : value :=
  Js.or (index PRIORIDAD_TICKET_REVERSE_MAP prioridad) (VNum 2).

(** [isValidServicioId(id)] for a numeric [id] *)
Definition isValidServicioId (id : Z) : bool := (0 <? id)%Z.

(** [isValidEstadoCliente], [isValidEstadoTicket],
    [isValidPrioridadTicket] *)
Definition isValidEstadoCliente (estado : value) : bool :=
  array_includes [VStr "activo"; VStr "suspendido"; VStr "cancelado"] estado.

Definition isValidEstadoTicket (estado : value) : bool :=
  array_includes [VStr "abierto"; VStr "en_proceso"; VStr "cerrado"] estado.

Definition isValidPrioridadTicket (prioridad : value) : bool :=
  array_includes [VStr "baja"; VStr "media"; VStr "alta"; VStr "critica"]
                 prioridad.

Section Transform.

Context {RT : Runtime}.

(** [dateApiToISO(dateStr)] *)
Definition dateApiToISO (dateStr : value) : string :=
  match parse_toISOString dateStr "dd/MM/yyyy HH:mm" with
  | Some iso => iso
  | None =>
      match parse_toISOString dateStr "dd/MM/yyyy" with
      | Some iso => iso
      | None =>
          match Date_toISOString dateStr with
          | Some iso => iso
          | None => now_toISOString
          end
      end
  end.

(** [formatMoney(amount)] with the default currency *)
Definition formatMoney (amount : value) : string := Intl_format_MXN amount.

(** [clienteToUserFriendly(apiCliente)]. Reading a property of [null]
    or [undefined], and [.trim()] on a name that is not a string,
    throw. *)
Definition clienteToUserFriendly (apiCliente : value) : completion value :=
  match apiCliente with
  | VUndefined | VNull =>
      Rejected (TypeError "Cannot read properties of null or undefined")
  | _ =>
      let f := prop apiCliente in
      match Js.or (f "nombre") (VStr "") with
      | VStr nombre =>
          Resolved (VObj [
            ("id_servicio", f "id_servicio");
            ("usuario", f "usuario");
            ("nombre_completo", VStr (trim nombre));
            ("email", Js.or (f "email") (VStr ""));
            ("telefono", Js.or (f "telefono") (VStr ""));
            ("direccion", Js.or (f "direccion") (VStr ""));
            ("localidad", Js.or (f "localidad") (VStr ""));
            ("ciudad", Js.or (f "ciudad") (VStr ""));
            ("zona", Js.or (prop_opt (f "zona") "id") (VNum 0));
            ("zona_nombre", Js.or (prop_opt (f "zona") "nombre") (VStr ""));
            ("plan", Js.or (prop_opt (f "plan_internet") "nombre") (VStr ""));
            ("precio_plan",
              VStr (formatMoney
                      (parseFloat (Js.or (f "precio_plan") (VStr "0")))));
            ("estado", estadoClienteStringToEnum (f "estado"));
            ("estado_facturas", Js.or (f "estado_facturas") (VStr ""));
            ("fecha_instalacion", VStr (dateApiToISO (f "fecha_instalacion")));
            ("fecha_corte", VStr (dateApiToISO (f "fecha_corte")));
            ("fecha_ultimo_cambio", VStr (dateApiToISO (f "ultimo_cambio")));
            ("saldo_formateado",
              VStr (formatMoney (parseFloat (Js.or (f "saldo") (VStr "0")))));
            ("saldo_numerico", parseFloat (Js.or (f "saldo") (VStr "0")));
            ("configuracion_red", VObj [
               ("ip", Js.or (f "ip") (VStr ""));
               ("ip_local", Js.or (f "ip_local") VUndefined);
               ("mac", Js.or (f "mac_cpe") (VStr ""));
               ("interfaz_lan", Js.or (f "interfaz_lan") (VStr ""));
               ("router_nombre",
                 Js.or (prop_opt (f "router") "nombre") (VStr ""));
               ("router_wifi", VObj [
                  ("modelo", Js.or (f "modelo_router_wifi") (VStr ""));
                  ("ip", Js.or (f "ip_router_wifi") VUndefined);
                  ("mac", Js.or (f "mac_router_wifi") (VStr ""));
                  ("ssid", Js.or (f "ssid_router_wifi") (VStr ""))])]);
            ("tecnico", VObj [
               ("id", Js.or (prop_opt (f "tecnico") "id") (VNum 0));
               ("nombre", Js.or (prop_opt (f "tecnico") "nombre") (VStr ""))]);
            ("comentarios", Js.or (f "comentarios") (VStr ""));
            ("coordenadas", Js.or (f "coordenadas") (VStr ""))])
      | _ => Rejected (TypeError "(apiCliente.nombre || '').trim is not a function")
      end
  end.

(** [ticketToUserFriendly(apiTicket)] *)
Definition ticketToUserFriendly (apiTicket : value) : completion value :=
  match apiTicket with
  | VUndefined | VNull =>
      Rejected (TypeError "Cannot read properties of null or undefined")
  | _ =>
      let f := prop apiTicket in
      Resolved (VObj [
        ("id", f "id");
        ("servicio", f "servicio");
        ("asunto", f "asunto");
        ("descripcion", f "descripcion");
        ("estado", estadoTicketToString (f "estado"));
        ("prioridad", prioridadTicketToString (f "prioridad"));
        ("tecnico", f "tecnico");
        ("fecha_creacion", VStr (dateApiToISO (f "fecha_creacion")));
        ("fecha_cierre",
          if truthy (f "fecha_cierre")
          then VStr (dateApiToISO (f "fecha_cierre"))
          else VUndefined)])
  end.

(** *** Balances

    The balance types below keep the fields from which the overdue
    days and the two tiers are computed; the amounts and their currency
    formatting are not part of them. *)

(** A JavaScript number, as far as the overdue days need one. *)
Inductive num : Type :=
  | Int (z : Z)
  | NaN.

(** [n || 0] *)
Definition or_zero (n : num) : Z :=
  match n with
  | Int z => z
  | NaN => 0
  end.

(** [n <= k]; every comparison with [NaN] is false. *)
Definition num_le (n : num) (k : Z) : bool :=
  match n with
  | Int z => (z <=? k)%Z
  | NaN => false
  end.

(** [ApiFacturaPendiente]; a field that upstream omitted is [None]. *)
Record ApiFacturaPendiente : Type := mkApiFactura {
  api_id_factura : option Z;
  api_id : option Z;
  api_fecha_vencimiento : option string;
  api_dias_vencido : option num
}.

(** [ApiSaldo], with the two names under which the invoices arrive. *)
Record ApiSaldo : Type := mkApiSaldo {
  api_facturas_pendientes : option (list ApiFacturaPendiente);
  api_facturas : option (list ApiFacturaPendiente)
}.

Inductive EstadoCuenta : Type := al_corriente | con_atraso | muy_atrasado.
Inductive EstadoVencimiento : Type := vigente | vencida | muy_vencida.

Record FacturaPendiente : Type := mkFactura {
  id_factura : Z;
  dias_vencido : num;
  estado_vencimiento : EstadoVencimiento
}.

Record SaldoDetalle : Type := mkSaldo {
  estado_cuenta : EstadoCuenta;
  cantidad : nat;
  facturas : list FacturaPendiente
}.

Definition MS_PER_DAY : Z := 1000 * 60 * 60 * 24.

(** [Math.ceil(a / b)] for integers [a] and [b > 0] *)
Definition ceil_div (a b : Z) : Z := - ((- a) / b).

(** The body of the [facturas.map] callback of [saldoToUserFriendly]:
    the overdue days of one invoice, [hoy] being [new Date().getTime()]. *)
Definition diasVencido (hoy : Z) (factura : ApiFacturaPendiente) : num :=
  let supplied := match api_dias_vencido factura with
                  | Some n => or_zero n
                  | None => 0
                  end in
  let due := match api_fecha_vencimiento factura with
             | Some s => if String.eqb s "" then None else Some s
             | None => None
             end in
  match due with
  | Some s =>
      if (supplied =? 0)%Z then
        match Date_getTime s with
        | Some fechaVencimiento =>
            let diffTime := hoy - fechaVencimiento in
            let diffDays := ceil_div diffTime MS_PER_DAY in
            Int (Z.max 0 diffDays)
        | None => NaN
        end
      else Int supplied
  | None => Int supplied
  end.

(** [determinarEstadoCuenta(facturas)], on the overdue days of the
    invoices *)
Definition determinarEstadoCuenta (dias : list num) : EstadoCuenta :=
  match map or_zero dias with
  | [] => al_corriente
  | d :: ds =>
      let maxDiasVencido := fold_left Z.max ds d in
      if (maxDiasVencido <=? 0)%Z then al_corriente
      else if (maxDiasVencido <=? 30)%Z then con_atraso
      else muy_atrasado
  end.

(** [determinarEstadoVencimiento(diasVencido)] *)
Definition determinarEstadoVencimiento (dias : num) : EstadoVencimiento :=
  if num_le dias 0 then vigente
  else if num_le dias 30 then vencida
  else muy_vencida.

(** [apiSaldo.facturas_pendientes || apiSaldo.facturas || []] *)
Definition invoices_of (apiSaldo : ApiSaldo) : list ApiFacturaPendiente :=
  match api_facturas_pendientes apiSaldo with
  | Some l => l
  | None =>
      match api_facturas apiSaldo with
      | Some l => l
      | None => []
      end
  end.

(** [saldoToUserFriendly(apiSaldo)] *)
Definition saldoToUserFriendly (hoy : Z) (apiSaldo : ApiSaldo) : SaldoDetalle :=
  let facturas := invoices_of apiSaldo in
  let facturasWithVencimiento :=
    map (fun factura =>
           (match api_id_factura factura, api_id factura with
            | Some i, Some j => if (i =? 0)%Z then j else i
            | Some i, None => i
            | None, Some j => j
            | None, None => 0
            end,
            diasVencido hoy factura)) facturas in
  let estadoCuenta :=
    determinarEstadoCuenta (map snd facturasWithVencimiento) in
  {| estado_cuenta := estadoCuenta;
     cantidad := List.length facturasWithVencimiento;
     facturas :=
       map (fun f =>
              {| id_factura := fst f;
                 dias_vencido := snd f;
                 estado_vencimiento := determinarEstadoVencimiento (snd f) |})
           facturasWithVencimiento |}.

(** [s.replace(/[\u0300-\u036f]/g, '')] on the UTF-8 bytes of [s]: the
    combining marks U+0300 to U+036F are the two-byte sequences
    [0xCC 0x80..0xBF] and [0xCD 0x80..0xAF]. *)
Definition is_combining_mark (a b : ascii) : bool :=
  let x := nat_of_ascii a in
  let y := nat_of_ascii b in
  ((Nat.eqb x 204 && Nat.leb 128 y && Nat.leb y 191) ||
   (Nat.eqb x 205 && Nat.leb 128 y && Nat.leb y 175))%bool.

Fixpoint strip_combining_marks (s : string) : string :=
  match s with
  | EmptyString => EmptyString
  | String a r =>
      match r with
      | String b r' =>
          if is_combining_mark a b then strip_combining_marks r'
          else String a (strip_combining_marks r)
      | EmptyString => s
      end
  end.

(** [prepareSearchQuery(search)] *)
Definition prepareSearchQuery {UC : Unicode} (search : string) : string :=
  strip_combining_marks (normalize_NFD (toLowerCase (trim search))).

End Transform.

End DataTransformer.

(* ================================================================== *)
(** ** Service plumbing: async code that may throw *)
(* ================================================================== *)

Module Async.

(** A computation over a state [S] that resolves or throws. *)
Definition M (S A : Type) : Type := S -> completion A * S.

Definition ret {S A : Type} (a : A) : M S A := fun s => (Resolved a, s).

Definition throw {S A : Type} (e : Js.error) : M S A :=
  fun s => (Rejected e, s).

Definition bind {S A B : Type} (m : M S A) (k : A -> M S B) : M S B :=
  fun s =>
    match m s with
    | (Resolved a, s') => k a s'
    | (Rejected e, s') => (Rejected e, s')
    end.

(** [try { m } catch (e) { h e }] *)
Definition try_catch {S A : Type} (m : M S A) (h : Js.error -> M S A)
  : M S A :=
  fun s =>
    match m s with
    | (Resolved a, s') => (Resolved a, s')
    | (Rejected e, s') => h e s'
    end.

(** A pure call that may throw. *)
Definition lift {S A : Type} (c : completion A) : M S A := fun s => (c, s).

(** A state change that cannot throw. *)
Definition modify {S : Type} (f : S -> S) : M S unit :=
  fun s => (Resolved tt, f s).

End Async.

Import Async.

Declare Scope async_scope.
Delimit Scope async_scope with async.
Notation "x <- m ;; k" := (bind m (fun x => k))
  (at level 100, m at next level, right associativity) : async_scope.
Notation "m ;;; k" := (bind m (fun _ => k))
  (at level 100, right associativity) : async_scope.

(** What the services need from the HTTP client. *)
Class HttpClient (S : Type) : Type := {
  http_get : string -> value -> option Z -> M S value;
  http_put : string -> value -> M S value;
  http_clearCache : S -> S;
  (** [await new Promise(resolve => setTimeout(resolve, ms))] *)
  sleep : Z -> S -> S
}.

(** The calls of the services that write by POST or PATCH. *)
Class HttpWriter (S : Type) : Type := {
  http_post : string -> value -> M S value;
  http_patch : string -> value -> M S value
}.

(** [items.map(f)] for a callback [f] that may throw. *)
Fixpoint map_completion {A B : Type} (f : A -> completion B) (items : list A)
  : completion (list B) :=
  match items with
  | [] => Resolved []
  | x :: rest =>
      match f x with
      | Rejected e => Rejected e
      | Resolved y =>
          match map_completion f rest with
          | Rejected e => Rejected e
          | Resolved ys => Resolved (y :: ys)
          end
      end
  end.

(** [ToolResponse] without its [timestamp]; an absent [data], [error]
    or [debugInfo] is [undefined] / [None]. *)
Record ToolResponse : Type := mkToolResponse {
  success : bool;
  data : value;
  error : option string;
  debugInfo : value
}.

(** The candidate record of a response that may be an array, a
    paginated envelope or a single object: [None] when the response has
    no candidate. *)
Definition first_match (response : value) : option value :=
  match response with
  | VArr items =>
      match items with
      | x :: _ => Some x
      | [] => None
      end
  | VObj fs =>
      match prop response "results" with
      | VArr items =>
          match items with
          | x :: _ => Some x
          | [] => None
          end
      | _ => Some response
      end
  | _ => None
  end.

(** [x.length > 0 ? x[0] : null] over the same three shapes; [dflt] is
    the value the variable holds when no branch assigns it. *)
Definition first_record (dflt : value) (response : value) : value :=
  match response with
  | VArr _ =>
      match first_match response with Some x => x | None => VNull end
  | VObj _ =>
      match first_match response with Some x => x | None => VNull end
  | _ => dflt
  end.

(* ================================================================== *)
(** ** ClienteService (src/services/cliente.service.ts) *)
(* ================================================================== *)

Module ClienteService.

Import DataTransformer.

Record ActualizarClienteInput : Type := mkActualizarCliente {
  id_servicio : Z;
  email : option string;
  telefono : option string;
  direccion : option string;
  localidad : option string;
  ciudad : option string;
  comentarios : option string;
  notificacion_sms : option bool;
  notificaciones_push : option bool
}.

Section Service.

Context {RT : Runtime} {S : Type} {HC : HttpClient S}.
Variable config : WispHubClient.ServerConfig.

Local Open Scope async_scope.

(** [error instanceof Error ? error.message : String(error)] *)
Definition error_text (e : Js.error) : string := message e.

(** *** obtenerClienteWithRetry *)

(** The endpoint and the search parameters of one lookup; an all-digit
    identifier that is not a valid service id throws. ([parseInt] is
    exact for the identifiers below 2^53.) *)
Definition lookup_target (clienteId : string)
  : completion (string * value) :=
  if digits_only clienteId then
    let id := parseInt_digits clienteId in
    if negb (isValidServicioId id) then
      Rejected (Error "ID de servicio inválido")
    else Resolved ("/api/clientes/" +:+ string_of_Z id +:+ "/", VObj [])
  else if includes "@" clienteId then
    Resolved ("/api/clientes/", VObj [("email", VStr clienteId)])
  else
    Resolved ("/api/clientes/", VObj [("search", VStr clienteId)]).

(** The normalized first match of a lookup response, [null] without
    one. *)
Definition first_cliente (response : value) : completion value :=
  match first_match response with
  | Some raw => clienteToUserFriendly raw
  | None => Resolved VNull
  end.

(** [!!useCache] *)
Definition used_cache (useCache : option Z) : bool :=
  match useCache with
  | Some ttl => negb (ttl =? 0)%Z
  | None => false
  end.

(** How one round of the [for] loop ends. *)
Inductive round : Type :=
  | Return (r : ToolResponse)
  | Continue (attempts : list value) (lastError : option Js.error)
  | Break (attempts : list value) (lastError : option Js.error).

(** The body of the [for] loop for one value of [attempt]. *)
Definition attempt_round (clienteId : string) (maxRetries : Z)
    (attempt : Z) (attempts : list value) (lastError : option Js.error)
  : M S round :=
  try_catch
    ( target <- lift (lookup_target clienteId) ;;
      let endpoint := fst target in
      let searchParams := snd target in
      let useCache :=
        if (attempt =? 1)%Z then Some (WispHubClient.cache_clientes config) else None in
      response <- http_get endpoint searchParams useCache ;;
      cliente <- lift (first_cliente response) ;;
      let recorded :=
        (attempts ++
         [VObj [("attempt", VNum attempt);
                ("success", VBool true);
                ("hasData", VBool (truthy cliente));
                ("endpoint", VStr endpoint);
                ("searchParams", searchParams);
                ("usedCache", VBool (used_cache useCache))]])%list in
      if truthy cliente then
        ret (Return
          {| success := true;
             data := cliente;
             error := None;
             debugInfo := VObj [("attempts", VArr recorded);
                                ("successfulAttempt", VNum attempt);
                                ("clienteId", VStr clienteId);
                                ("endpoint", VStr endpoint);
                                ("searchParams", searchParams)] |})
      else if (attempt =? maxRetries)%Z then
        ret (Return
          {| success := true;
             data := VUndefined;
             error := None;
             debugInfo := VObj [("attempts", VArr recorded);
                                ("clienteId", VStr clienteId);
                                ("endpoint", VStr endpoint);
                                ("searchParams", searchParams);
                                ("noDataFound", VBool true)] |})
      else
        ret (Continue
          (recorded ++
           [VObj [("attempt", VNum attempt);
                  ("success", VBool true);
                  ("hasData", VBool false);
                  ("endpoint", VStr endpoint);
                  ("searchParams", searchParams);
                  ("usedCache", VBool (used_cache useCache))]])%list
          lastError) )
    (fun e =>
       let recorded :=
         (attempts ++
          [VObj [("attempt", VNum attempt);
                 ("success", VBool false);
                 ("error", VStr (error_text e))]])%list in
       if (attempt =? maxRetries)%Z then ret (Break recorded (Some e))
       else
         modify (sleep (1000 * attempt)) ;;;
         ret (Continue recorded (Some e))).

(** The result after the loop: every path that leaves the loop without
    returning ends here. *)
Definition all_attempts_failed (clienteId : string) (maxRetries : Z)
    (attempts : list value) (lastError : option Js.error) : ToolResponse :=
  {| success := false;
     data := VUndefined;
     error := Some ("Error obteniendo cliente después de "
                    +:+ string_of_Z maxRetries +:+ " intentos: "
                    +:+ match lastError with
                        | Some e => error_text e
                        | None => "null"
                        end);
     debugInfo := VObj [("attempts", VArr attempts);
                        ("clienteId", VStr clienteId);
                        ("maxRetries", VNum maxRetries);
                        ("allAttemptsFailed", VBool true)] |}.

(** [for (let attempt = 1; attempt <= maxRetries; attempt++)], over the
    values that [attempt] takes. *)
Fixpoint attempt_loop (clienteId : string) (maxRetries : Z)
    (todo : list Z) (attempts : list value) (lastError : option Js.error)
  : M S ToolResponse :=
  match todo with
  | [] => ret (all_attempts_failed clienteId maxRetries attempts lastError)
  | attempt :: rest =>
      r <- attempt_round clienteId maxRetries attempt attempts lastError ;;
      match r with
      | Return resp => ret resp
      | Continue attempts' lastError' =>
          attempt_loop clienteId maxRetries rest attempts' lastError'
      | Break attempts' lastError' =>
          ret (all_attempts_failed clienteId maxRetries attempts' lastError')
      end
  end.

(** The values [1 .. maxRetries] *)
Definition attempt_numbers (maxRetries : Z) : list Z :=
  map Z.of_nat (seq 1 (Z.to_nat maxRetries)).

Definition obtenerClienteWithRetry (clienteId : string) (maxRetries : Z)
  : M S ToolResponse :=
  attempt_loop clienteId maxRetries (attempt_numbers maxRetries) [] None.

(** [obtenerCliente(clienteId)] *)
Definition obtenerCliente (clienteId : string) : M S ToolResponse :=
  obtenerClienteWithRetry clienteId 3.

(** *** actualizarCliente *)

(** The outbound payload: only the fields that were provided. *)
Definition apiData (params : ActualizarClienteInput) : list (string * value) :=
  let str (k : string) (o : option string) :=
    match o with Some s => [(k, VStr (trim s))] | None => [] end in
  let flag (k : string) (o : option bool) :=
    match o with Some b => [(k, VBool b)] | None => [] end in
  (str "email" (email params) ++
   str "telefono" (telefono params) ++
   str "direccion" (direccion params) ++
   str "localidad" (localidad params) ++
   str "ciudad" (ciudad params) ++
   str "comentarios" (comentarios params) ++
   flag "notificacion_sms" (notificacion_sms params) ++
   flag "notificaciones_push" (notificaciones_push params))%list.

Definition endpointsToTry (id : Z) : list string :=
  let n := string_of_Z id in
  ["/api/clientes/" +:+ n +:+ "/";
   "/api/clients/" +:+ n +:+ "/";
   "/api/usuarios/" +:+ n +:+ "/";
   "/api/contactos/" +:+ n +:+ "/"].

(** [for (const endpoint of endpointsToTry)]: the first endpoint whose
    PUT resolves gives [response] and [usedEndpoint]; the error of the
    endpoint that equals the last one is rethrown. *)
Fixpoint try_endpoints (payload : value) (last : string)
    (endpoints : list string) : M S (value * string) :=
  match endpoints with
  | [] => ret (VNull, "")
  | endpoint :: rest =>
      try_catch
        ( response <- http_put endpoint payload ;;
          ret (response, endpoint) )
        (fun endpointError =>
           if String.eqb endpoint last then throw endpointError
           else try_endpoints payload last rest)
  end.

(** The [try] block that re-reads the client: [Some] result when the
    function returns from inside it. *)
Definition verify_cliente (id : Z) (payload response : value)
    (usedEndpoint : string) : M S (option ToolResponse) :=
  try_catch
    ( verifyResponse <-
        http_get ("/api/clientes/" +:+ string_of_Z id +:+ "/")
                 VUndefined None ;;
      let verifiedCliente := first_record VNull verifyResponse in
      if truthy verifiedCliente then
        cliente <- lift (clienteToUserFriendly verifiedCliente) ;;
        ret (Some
          {| success := true;
             data := cliente;
             error := None;
             debugInfo := VObj [("method", VStr "PUT");
                                ("endpoint", VStr usedEndpoint);
                                ("sentToAPI", payload);
                                ("apiResponse", response);
                                ("verifiedCliente", verifiedCliente);
                                ("transformedCliente", cliente)] |})
      else ret None )
    (fun verifyError => ret None).

Definition actualizarCliente (params : ActualizarClienteInput)
  : M S ToolResponse :=
  try_catch
    ( if negb (isValidServicioId (id_servicio params)) then
        throw (Error "ID de servicio inválido")
      else
        let payload := VObj (apiData params) in
        if Nat.eqb (List.length (keys (apiData params))) 0 then
          throw (Error "Debe proporcionar al menos un campo para actualizar")
        else
          let endpoints := endpointsToTry (id_servicio params) in
          put <- try_endpoints payload (List.last endpoints "") endpoints ;;
          let response := fst put in
          let usedEndpoint := snd put in
          if negb (truthy response) then
            throw (Error "La API no devolvió datos del cliente actualizado")
          else
            verified <-
              verify_cliente (id_servicio params) payload response
                             usedEndpoint ;;
            match verified with
            | Some result => ret result
            | None =>
                cliente <- lift (clienteToUserFriendly response) ;;
                ret {| success := true;
                       data := cliente;
                       error := None;
                       debugInfo :=
                         VObj [("method", VStr "PUT");
                               ("endpoint", VStr usedEndpoint);
                               ("sentToAPI", payload);
                               ("apiResponse", response);
                               ("verifiedCliente", VNull);
                               ("transformedCliente", cliente);
                               ("verificationFailed", VBool true)] |}
            end )
    (fun e =>
       ret {| success := false;
              data := VUndefined;
              error := Some ("Error actualizando cliente: " +:+ error_text e);
              debugInfo := VUndefined |}).

End Service.

(** [ActivarServicioInput] and [DesactivarServicioInput] *)
Module ServicioInput.
Record t : Type := mk {
  id_servicio : Z;
  motivo : option string
}.
End ServicioInput.

Module ConsultarClientesInput.
Record t : Type := mk {
  estado : option string;
  zona : option Z;
  plan : option string;
  search : option string;
  limit : option Z;
  offset : option Z
}.
End ConsultarClientesInput.

(** An optional string that is present and not empty, as [if (x)]
    tests it. *)
Definition given (o : option string) : option string :=
  match o with
  | Some s => if String.eqb s "" then None else Some s
  | None => None
  end.

(** The elements to transform:
    [Array.isArray(response) ? response : response.results || []];
    [.map] needs an array. *)
Definition listed (response : value) : completion (list value) :=
  match response with
  | VArr items => Resolved items
  | VUndefined | VNull =>
      Rejected (TypeError "Cannot read properties of null or undefined")
  | _ =>
      match Js.or (prop response "results") (VArr []) with
      | VArr items => Resolved items
      | _ => Rejected (TypeError "clientes.map is not a function")
      end
  end.

Section Actions.

Context {RT : Runtime} {UC : Unicode} {S : Type}
        {HC : HttpClient S} {HW : HttpWriter S}.
Variable config : WispHubClient.ServerConfig.

Local Open Scope async_scope.

(** *** consultarClientes *)

Definition apiParams (params : ConsultarClientesInput.t)
  : list (string * value) :=
  ([("limit",
     VNum match ConsultarClientesInput.limit params with
          | Some n => if (n =? 0)%Z then 20 else n
          | None => 20
          end);
    ("offset",
     VNum match ConsultarClientesInput.offset params with
          | Some n => n
          | None => 0
          end)] ++
   match given (ConsultarClientesInput.estado params) with
   | Some e => [("estado", estadoClienteEnumToString (VStr e))]
   | None => []
   end ++
   match ConsultarClientesInput.zona params with
   | Some z => if (z =? 0)%Z then [] else [("zona", VNum z)]
   | None => []
   end ++
   match given (ConsultarClientesInput.plan params) with
   | Some p => [("plan", VStr p)]
   | None => []
   end ++
   match given (ConsultarClientesInput.search params) with
   | Some q => [("search", VStr (prepareSearchQuery q))]
   | None => []
   end)%list.

Definition consultarClientes (params : ConsultarClientesInput.t)
  : M S ToolResponse :=
  try_catch
    ( response <- http_get "/api/clientes/" (VObj (apiParams params))
                    (Some (WispHubClient.cache_clientes config)) ;;
      clientes <- lift (listed response) ;;
      transformedClientes <-
        lift (map_completion clienteToUserFriendly clientes) ;;
      ret {| success := true;
             data := VArr transformedClientes;
             error := None;
             debugInfo := VUndefined |} )
    (fun e =>
       ret {| success := false;
              data := VUndefined;
              error := Some ("Error consultando clientes: " +:+ error_text e);
              debugInfo := VUndefined |}).

(** *** activarServicio, desactivarServicio, cancelarServicio *)

(** The [data] of a state change that went through. *)
Definition action_data (params : ServicioInput.t) (accion resultado : string)
  : value :=
  VObj [("id_servicio", VNum (ServicioInput.id_servicio params));
        ("accion", VStr accion);
        ("motivo", match ServicioInput.motivo params with
                   | Some m => VStr m
                   | None => VUndefined
                   end);
        ("resultado", VStr resultado)].

Definition action_failed (label : string) (e : Js.error) : ToolResponse :=
  {| success := false;
     data := VUndefined;
     error := Some (label +:+ error_text e);
     debugInfo := VUndefined |}.

Definition activarServicio (params : ServicioInput.t) : M S ToolResponse :=
  try_catch
    ( if negb (isValidServicioId (ServicioInput.id_servicio params)) then
        throw (Error "ID de servicio inválido")
      else
        let apiData :=
          VObj (("estado", VStr "Activo") ::
                match given (ServicioInput.motivo params) with
                | Some m => [("comentarios", VStr m)]
                | None => []
                end) in
        response <-
          http_patch ("/api/clientes/" +:+
                      string_of_Z (ServicioInput.id_servicio params) +:+ "/")
                     apiData ;;
        ret {| success := true;
               data := action_data params "activar"
                         "Servicio activado exitosamente";
               error := None;
               debugInfo := VUndefined |} )
    (fun e => ret (action_failed "Error activando servicio: " e)).

(** [!params.motivo || params.motivo.trim().length === 0] *)
Definition motivo_missing (params : ServicioInput.t) : bool :=
  match given (ServicioInput.motivo params) with
  | Some m => Nat.eqb (String.length (trim m)) 0
  | None => true
  end.

(** [params.motivo.trim()], once the reason is known to be present *)
Definition motivo_trimmed (params : ServicioInput.t) : string :=
  match ServicioInput.motivo params with
  | Some m => trim m
  | None => ""
  end.

Definition desactivarServicio (params : ServicioInput.t) : M S ToolResponse :=
  try_catch
    ( if negb (isValidServicioId (ServicioInput.id_servicio params)) then
        throw (Error "ID de servicio inválido")
      else if motivo_missing params then
        throw (Error "Motivo es obligatorio para desactivar servicio")
      else
        let apiData :=
          VObj [("estado", VStr "Suspendido");
                ("comentarios", VStr (motivo_trimmed params))] in
        let endpoint :=
          "/api/clientes/" +:+
          string_of_Z (ServicioInput.id_servicio params) +:+ "/" in
        response <- http_patch endpoint apiData ;;
        modify http_clearCache ;;;
        verifiedClienteResult <-
          obtenerCliente config
            (string_of_Z (ServicioInput.id_servicio params)) ;;
        let verifiedCliente :=
          if success verifiedClienteResult
          then data verifiedClienteResult else VNull in
        ret {| success := true;
               data := action_data params "desactivar"
                         "Servicio desactivado exitosamente";
               error := None;
               debugInfo :=
                 VObj [("method", VStr "PATCH");
                       ("endpoint", VStr endpoint);
                       ("sentToAPI", apiData);
                       ("apiResponse", response);
                       ("verifiedCliente", verifiedCliente);
                       ("verificationWorked", VBool (truthy verifiedCliente));
                       ("statusChanged",
                        VBool (if truthy verifiedCliente
                               then strict_eq (prop verifiedCliente "estado")
                                              (VStr "suspendido")
                               else false))] |} )
    (fun e => ret (action_failed "Error desactivando servicio: " e)).

Definition cancelarServicio (params : ServicioInput.t) : M S ToolResponse :=
  try_catch
    ( if negb (isValidServicioId (ServicioInput.id_servicio params)) then
        throw (Error "ID de servicio inválido")
      else if motivo_missing params then
        throw (Error "Motivo es obligatorio para cancelar servicio")
      else
        let apiData :=
          VObj [("estado", VStr "Cancelado");
                ("comentarios", VStr (motivo_trimmed params))] in
        response <-
          http_patch ("/api/clientes/" +:+
                      string_of_Z (ServicioInput.id_servicio params) +:+ "/")
                     apiData ;;
        ret {| success := true;
               data := action_data params "cancelar"
                         "Servicio cancelado exitosamente";
               error := None;
               debugInfo := VUndefined |} )
    (fun e => ret (action_failed "Error cancelando servicio: " e)).

End Actions.

End ClienteService.

(* ================================================================== *)
(** ** TicketService (src/services/ticket.service.ts) *)
(* ================================================================== *)

Module TicketService.

Import DataTransformer.

(** The [updates] argument of [actualizarTicket]. *)
Record Updates : Type := mkUpdates {
  estado : option string;
  prioridad : option string;
  tecnico : option string;
  notas : option string
}.

(** A string option that is present and not empty, as [if (updates.x)]
    tests it. *)
Definition provided (o : option string) : option string :=
  match o with
  | Some s => if String.eqb s "" then None else Some s
  | None => None
  end.

Definition asuntoMap : list (string * string) :=
  [("internet", "Internet Lento");
   ("lento", "Internet Lento");
   ("velocidad", "Internet Lento");
   ("no internet", "No Tiene Internet");
   ("sin internet", "No Tiene Internet");
   ("conexion", "No Tiene Internet");
   ("intermitente", "Internet Intermitente");
   ("cortes", "Internet Intermitente");
   ("desconexion", "Internet Intermitente");
   ("antena", "Antena Desalineada");
   ("router", "No Responde el Router Wifi");
   ("wifi", "No Responde el Router Wifi");
   ("cable", "Cable UTP Dañado");
   ("poe", "PoE Dañado");
   ("conector", "Conector Dañado");
   ("fibra", "Cable Fibra Dañado");
   ("jumper", "Jumper Dañado");
   ("cambio", "Cambio de Domicilio");
   ("domicilio", "Cambio de Domicilio");
   ("mudanza", "Cambio de Domicilio");
   ("reconexion", "Reconexion");
   ("reactivar", "Reconexion");
   ("cancelacion", "Cancelación");
   ("cancelar", "Cancelación");
   ("baja", "Desconexión");
   ("recoleccion", "Recolección De Equipos")].

(** [getDefaultAsunto(asunto)]; [asunto.toLowerCase()] throws unless
    [asunto] is a string. *)
Definition getDefaultAsunto (asunto : value) : completion string :=
  match asunto with
  | VStr a =>
      let asuntoLower := toLowerCase a in
      Resolved
        match List.find (fun kw => includes (fst kw) asuntoLower) asuntoMap with
        | Some kw => snd kw
        | None => "Otro Asunto"
        end
  | _ => Rejected (TypeError "asunto.toLowerCase is not a function")
  end.

Definition razonMap : value :=
  VObj [("nuevo", VStr "");
        ("en_progreso", VStr "Internet Intermitente");
        ("resuelto", VStr "Otro");
        ("cerrado", VStr "Otro")].

Definition estadoMap : value :=
  VObj [("Nuevo", VNum 1);
        ("En Progreso", VNum 2);
        ("Resuelto", VNum 3);
        ("Cerrado", VNum 4)].

(** The fields removed from the current record before it is sent
    back. *)
Definition stripped_fields : list string :=
  ["tickets_mensual"; "tickets_anual"; "vencimiento"; "archivo_ticket";
   "respuestas"].

(** The changes requested by the caller, in upstream format. *)
Definition apiData (updates : Updates) : list (string * value) :=
  let d0 : list (string * value) := [] in
  let d1 :=
    match provided (estado updates) with
    | Some e =>
        let d := obj_set "estado" (estadoTicketToNumber (VStr e)) d0 in
        if negb (truthy (prop (VObj d) "razon_falla")) then
          obj_set "razon_falla" (Js.or (index razonMap (VStr e)) (VStr "Otro")) d
        else d
    | None => d0
    end in
  let d2 :=
    match provided (prioridad updates) with
    | Some p => obj_set "prioridad" (prioridadTicketToNumber (VStr p)) d1
    | None => d1
    end in
  match provided (tecnico updates) with
  | Some t =>
      let tecnicoTrimmed := trim t in
      if (digits_only tecnicoTrimmed || includes "@" tecnicoTrimmed)%bool then
        obj_set "email_tecnico"
          (VStr (if includes "@" tecnicoTrimmed then tecnicoTrimmed else ""))
          (obj_set "tecnico" (VStr tecnicoTrimmed) d2)
      else d2
  | None => d2
  end.

Section Service.

Context {RT : Runtime} {S : Type} {HC : HttpClient S}.

Local Open Scope async_scope.

(** [now.toLocaleDateString(..) + ' ' + now.toLocaleTimeString(..)] *)
Definition wisphubDateFormat : string :=
  now_toLocaleDateString +:+ " " +:+ now_toLocaleTimeString.

(** The steps between the copy [{ ...completeTicketData }] and the
    merge, in the order of the source; each takes and gives the
    bindings of [cleanedCurrentData]. *)

(** Text priorities to the numeric ids. *)
Definition fix_prioridad (c : list (string * value)) : list (string * value) :=
  if strict_eq (prop (VObj c) "prioridad") (VStr "Alta")
  then obj_set "prioridad" (VNum 3) c
  else if strict_eq (prop (VObj c) "prioridad") (VStr "Normal")
  then obj_set "prioridad" (VNum 2) c
  else if strict_eq (prop (VObj c) "prioridad") (VStr "Baja")
  then obj_set "prioridad" (VNum 1) c
  else c.

(** A textual estado to its number. *)
Definition fix_estado (c : list (string * value)) : list (string * value) :=
  if typeof_string (prop (VObj c) "estado")
  then obj_set "estado"
         (Js.or (index estadoMap (prop (VObj c) "estado")) (VNum 1)) c
  else c.

(** [asuntos_default] from the subject, then [origen_reporte]. *)
Definition fix_asunto (c : list (string * value))
  : completion (list (string * value)) :=
  if truthy (prop (VObj c) "asunto") then
    match getDefaultAsunto (prop (VObj c) "asunto") with
    | Resolved a =>
        Resolved (obj_set "origen_reporte" (VStr "portal_cliente")
                    (obj_set "asuntos_default" (VStr a) c))
    | Rejected e => Rejected e
    end
  else Resolved (obj_set "origen_reporte" (VStr "portal_cliente") c).

(** An empty [tecnico] is removed with its e-mail; [.trim()] needs a
    string. *)
Definition drop_empty_tecnico (c : list (string * value))
  : completion (list (string * value)) :=
  if negb (truthy (prop (VObj c) "tecnico")) then
    Resolved (obj_delete "email_tecnico" (obj_delete "tecnico" c))
  else
    match prop (VObj c) "tecnico" with
    | VStr t =>
        if String.eqb (trim t) ""
        then Resolved (obj_delete "email_tecnico" (obj_delete "tecnico" c))
        else Resolved c
    | _ => Rejected (TypeError "cleanedCurrentData.tecnico.trim is not a function")
    end.

(** The marker that precedes the appended notes. *)
Definition notes_marker : string :=
  LF +:+ LF +:+ "--- ACTUALIZACIÓN " +:+ now_toLocaleString +:+ " ---" +:+ LF.

(** Notes are appended to the description. *)
Definition append_notas (updates : Updates) (c : list (string * value))
  : list (string * value) :=
  match provided (notas updates) with
  | Some n =>
      let currentDescripcion := Js.or (prop (VObj c) "descripcion") (VStr "") in
      obj_set "descripcion"
        (VStr (to_string currentDescripcion +:+ notes_marker +:+ trim n)) c
  | None => c
  end.

(** The dates that follow a change of estado. *)
Definition stamp_dates (updates : Updates) (c : list (string * value))
  : list (string * value) :=
  match provided (estado updates) with
  | Some e =>
      if String.eqb e "en_progreso" then
        if negb (truthy (prop (VObj c) "fecha_inicio"))
        then obj_set "fecha_inicio" (VStr wisphubDateFormat) c
        else c
      else if (String.eqb e "resuelto" || String.eqb e "cerrado")%bool then
        let finished :=
          obj_set "finalizado_por" (VStr "admin@almacreativa")
            (obj_set "fecha_fin" (VStr wisphubDateFormat) c) in
        if negb (truthy (prop (VObj finished) "fecha_inicio"))
        then obj_set "fecha_inicio" (VStr wisphubDateFormat) finished
        else finished
      else c
  | None => c
  end.

(** The five [delete]s. *)
Definition strip (c : list (string * value)) : list (string * value) :=
  fold_left (fun c k => obj_delete k c) stripped_fields c.

(** [cleanedCurrentData] as it stands when [putData] is built. *)
Definition cleanedCurrentData (updates : Updates) (completeTicketData : value)
  : completion (list (string * value)) :=
  let copied := own_entries completeTicketData in
  match fix_asunto (fix_estado (fix_prioridad copied)) with
  | Rejected e => Rejected e
  | Resolved c =>
      match drop_empty_tecnico c with
      | Rejected e => Rejected e
      | Resolved c' =>
          Resolved (strip (stamp_dates updates (append_notas updates c')))
      end
  end.

(** [putData]: the cleaned record, the requested changes over it, and
    the ticket id. *)
Definition putData (ticketId : Z) (updates : Updates)
    (completeTicketData : value) : completion value :=
  match cleanedCurrentData updates completeTicketData with
  | Resolved cleaned =>
      Resolved (VObj (obj_set "id_ticket" (VNum ticketId)
                        (obj_spread cleaned (apiData updates))))
  | Rejected e => Rejected e
  end.

(** The normalized ticket of the PUT response. *)
Definition ticket_of_response (response : value) : completion value :=
  match response with
  | VArr _ | VObj _ =>
      match first_match response with
      | Some raw => ticketToUserFriendly raw
      | None => Resolved VNull
      end
  | _ => Rejected (Error ("Respuesta inesperada de la API: "
                          +:+ typeof response))
  end.

(** The [try] block that re-reads the ticket; it yields the ticket to
    return and the value of [verifiedTicket]. *)
Definition verify_ticket (endpoint : string) (ticket : value)
  : M S (value * value) :=
  fun s =>
    match http_get endpoint VUndefined None s with
    | (Resolved verifyResponse, s') =>
        let verifiedTicket := first_record VNull verifyResponse in
        if truthy verifiedTicket then
          match ticketToUserFriendly verifiedTicket with
          | Resolved t => (Resolved (t, verifiedTicket), s')
          | Rejected _ => (Resolved (ticket, verifiedTicket), s')
          end
        else (Resolved (ticket, verifiedTicket), s')
    | (Rejected _, s') => (Resolved (ticket, VNull), s')
    end.

Definition actualizarTicket (ticketId : Z) (updates : Updates)
  : M S ToolResponse :=
  let endpoint := "/api/tickets/" +:+ string_of_Z ticketId +:+ "/" in
  try_catch
    ( currentTicket <- http_get endpoint VUndefined None ;;
      let completeTicketData := first_record VUndefined currentTicket in
      if negb (truthy completeTicketData) then
        throw (Error "Could not get current ticket data for update")
      else
        payload <- lift (putData ticketId updates completeTicketData) ;;
        response <- http_put endpoint payload ;;
        ticket <- lift (ticket_of_response response) ;;
        if negb (truthy ticket) then
          throw (Error "La API no devolvió datos del ticket actualizado")
        else
          verified <- verify_ticket endpoint ticket ;;
          ret {| success := true;
                 data := fst verified;
                 error := None;
                 debugInfo :=
                   VObj [("method", VStr "PUT");
                         ("sentToAPI", payload);
                         ("originalApiData", VObj (apiData updates));
                         ("apiResponse", response);
                         ("verifiedTicket", snd verified);
                         ("transformedTicket", fst verified)] |} )
    (fun e =>
       ret {| success := false;
              data := VUndefined;
              error := Some ("Error actualizando ticket: " +:+ message e);
              debugInfo := VUndefined |}).

End Service.

Module CrearTicketInput.
Record t : Type := mk {
  servicio : Z;
  asunto : string;
  descripcion : string;
  prioridad : option string
}.
End CrearTicketInput.

Section Tickets.

Context {RT : Runtime} {S : Type} {HC : HttpClient S} {HW : HttpWriter S}.
Variable config : WispHubClient.ServerConfig.

Local Open Scope async_scope.

(** The [apiData] of [crearTicket]. *)
Definition nuevo_ticket (params : CrearTicketInput.t) : completion value :=
  match getDefaultAsunto (VStr (CrearTicketInput.asunto params)) with
  | Rejected e => Rejected e
  | Resolved asuntoDefault =>
      Resolved (VObj [
        ("servicio", VNum (CrearTicketInput.servicio params));
        ("asunto", VStr (trim (CrearTicketInput.asunto params)));
        ("descripcion", VStr (trim (CrearTicketInput.descripcion params)));
        ("prioridad",
         prioridadTicketToNumber
           (VStr match provided (CrearTicketInput.prioridad params) with
                 | Some p => p
                 | None => "normal"
                 end));
        ("estado", VNum 1);
        ("asuntos_default", VStr asuntoDefault);
        ("departamentos_default", VStr "Soporte Técnico");
        ("tecnico", VStr "3288010");
        ("departamento", VStr "Soporte Técnico");
        ("origen_reporte", VStr "portal_cliente")])
  end.

Definition crearTicket (params : CrearTicketInput.t) : M S ToolResponse :=
  try_catch
    ( if negb (isValidServicioId (CrearTicketInput.servicio params)) then
        throw (Error "ID de servicio inválido")
      else
        apiData <- lift (nuevo_ticket params) ;;
        response <- http_post "/api/tickets/" apiData ;;
        ticket <- lift (ticketToUserFriendly response) ;;
        ret {| success := true;
               data := ticket;
               error := None;
               debugInfo := VUndefined |} )
    (fun e =>
       ret {| success := false;
              data := VUndefined;
              error := Some ("Error creando ticket: " +:+ message e);
              debugInfo := VUndefined |}).

Definition obtenerTicketsCliente (servicioId : Z) : M S ToolResponse :=
  try_catch
    ( if negb (isValidServicioId servicioId) then
        throw (Error "ID de servicio inválido")
      else
        response <- http_get "/api/tickets/"
                      (VObj [("servicio", VNum servicioId)])
                      (Some (WispHubClient.cache_tickets config)) ;;
        let tickets :=
          match response with
          | VArr items => items
          | _ => []
          end in
        transformedTickets <-
          lift (map_completion ticketToUserFriendly tickets) ;;
        ret {| success := true;
               data := VArr transformedTickets;
               error := None;
               debugInfo := VUndefined |} )
    (fun e =>
       ret {| success := false;
              data := VUndefined;
              error := Some ("Error obteniendo tickets del cliente: "
                             +:+ message e);
              debugInfo := VUndefined |}).

End Tickets.

End TicketService.

(* ================================================================== *)
(** ** The actualizar_cliente tool
       (second half of src/tools/clientes/obtener-cliente.ts) *)
(* ================================================================== *)

Module ActualizarClienteTool.

Import ClienteService.

(** One round of the loop over [Object.entries(debugInfo.sentToAPI)]. *)
Record FieldCheck : Type := mkFieldCheck {
  field : string;
  sentValue : value;
  currentValue : value;
  matches : bool
}.

(** The comparisons made by [formatClienteUpdateResponse] under
    [if (debugInfo?.verifiedCliente && debugInfo?.sentToAPI)]. *)
Definition field_checks (debugInfo : value) : list FieldCheck :=
  if (truthy (prop_opt debugInfo "verifiedCliente") &&
      truthy (prop_opt debugInfo "sentToAPI"))%bool then
    map (fun kv =>
           let currentValue :=
             prop (prop debugInfo "verifiedCliente") (fst kv) in
           {| field := fst kv;
              sentValue := snd kv;
              currentValue := currentValue;
              matches := strict_eq (snd kv) currentValue |})
        (own_entries (prop debugInfo "sentToAPI"))
  else [].

(** The text pushed for one comparison. *)
Definition render (c : FieldCheck) : string :=
  field c +:+ ": " +:+ to_string (sentValue c) +:+ " → " +:+
  to_string (currentValue c) +:+ " → " +:+
  (if matches c then "✅ COINCIDE" else "❌ NO COINCIDE").

(** [verifiedFields] *)
Definition verifiedFields (debugInfo : value) : list string :=
  map render (field_checks debugInfo).

(** The lines that the per-field check adds to the tool's response. *)
Definition verificacion_por_campo (debugInfo : value) : list string :=
  match verifiedFields debugInfo with
  | [] => []
  | lines => "**🔍 Verificación por campo:**"
             :: map (fun l => "- " +:+ l) lines
  end.

(** [getStatusIcon(estado)] *)
Definition getStatusIcon (estado : value) : string :=
  to_string
    (Js.or (DataTransformer.index
              (VObj [("activo", VStr "🟢");
                     ("suspendido", VStr "🟡");
                     ("cancelado", VStr "🔴")]) estado)
           (VStr "❓")).

(** [getNotificationStatus(enabled)] *)
Definition getNotificationStatus (enabled : value) : string :=
  match enabled with
  | VUndefined => "❓ No definido"
  | _ => if truthy enabled then "✅ Habilitado" else "❌ Deshabilitado"
  end.

(** An element of the [response] array as [join] prints it. *)
Definition printed (v : value) : string :=
  match v with
  | VUndefined | VNull => ""
  | _ => to_string v
  end.

Section Tool.

Context {RT : Runtime} {S : Type} {HC : HttpClient S}.
Variable config : WispHubClient.ServerConfig.

Local Open Scope async_scope.

(** The lines of [changesList]. *)
Definition changesList (clienteAnterior clienteActualizado : value)
    (cambios : ActualizarClienteInput) : list string :=
  let contact (o : option string) (label k missing : string) :=
    match o with
    | Some _ =>
        ["- **" +:+ label +:+ ":** " +:+ DQ +:+
         to_string (Js.or (prop clienteAnterior k) (VStr missing)) +:+
         DQ +:+ " → " +:+ DQ +:+
         to_string (prop clienteActualizado k) +:+ DQ]
    | None => []
    end in
  let switch (o : option bool) (label : string) :=
    match o with
    | Some b =>
        ["- **" +:+ label +:+ ":** " +:+
         (if b then "✅ Habilitado" else "❌ Deshabilitado")]
    | None => []
    end in
  (contact (email cambios) "Email" "email" "Sin email" ++
   contact (telefono cambios) "Teléfono" "telefono" "Sin teléfono" ++
   contact (direccion cambios) "Dirección" "direccion" "Sin dirección" ++
   contact (localidad cambios) "Localidad" "localidad" "Sin localidad" ++
   contact (ciudad cambios) "Ciudad" "ciudad" "Sin ciudad" ++
   match comentarios cambios with
   | Some _ => ["- **Comentarios:** Actualizado"]
   | None => []
   end ++
   switch (notificacion_sms cambios) "Notificaciones SMS" ++
   switch (notificaciones_push cambios) "Notificaciones Push")%list.

(** The lines pushed under [if (debugInfo)]. *)
Definition debug_lines (clienteActualizado debugInfo : value) : list string :=
  if truthy debugInfo then
    (["";
      "### 🔧 DEBUG - Información Técnica";
      "**📤 Datos enviados a la API:**";
      "```json";
      printed (JSON_stringify_pretty
                 (Js.or (prop_opt debugInfo "sentToAPI") (VObj [])));
      "```";
      "**📥 Respuesta de la API:**";
      "```json";
      printed (JSON_stringify_pretty
                 (Js.or (prop_opt debugInfo "apiResponse") (VObj [])));
      "```"] ++
     (if truthy (prop_opt debugInfo "verifiedCliente") then
        ["**🔍 Estado verificado después de actualización:**";
         "```json";
         printed (JSON_stringify_pretty (prop debugInfo "verifiedCliente"));
         "```"]
      else []) ++
     ["**📊 Cliente transformado final:**";
      "```json";
      printed (JSON_stringify_pretty
                 (Js.or (prop_opt debugInfo "transformedCliente")
                        clienteActualizado));
      "```";
      "**🎯 Análisis:**";
      "- Enviamos a API: " +:+
        (if truthy (prop_opt debugInfo "sentToAPI")
         then join ", " (keys (own_entries (prop debugInfo "sentToAPI")))
         else "Sin datos");
      "- API respondió: " +:+
        (if truthy (prop_opt debugInfo "apiResponse") then "Sí" else "No");
      "- Verificación funcionó: " +:+
        (if truthy (prop_opt debugInfo "verifiedCliente") then "Sí" else "No")]
     ++ verificacion_por_campo debugInfo ++
     (if truthy (prop_opt debugInfo "verificationFailed") then
        ["- ⚠️ **VERIFICACIÓN FALLÓ** - Los datos podrían no haberse guardado correctamente"]
      else []))%list
  else [].

(** The [response] array of [formatClienteUpdateResponse]. Reading a
    property of a [null] or [undefined] client throws. *)
Definition response_lines (clienteAnterior clienteActualizado : value)
    (cambios : ActualizarClienteInput) (debugInfo : value)
  : completion (list string) :=
  let nullish (v : value) :=
    match v with VUndefined | VNull => true | _ => false end in
  let reads_anterior :=
    match email cambios, telefono cambios, direccion cambios,
          localidad cambios, ciudad cambios with
    | None, None, None, None, None => false
    | _, _, _, _, _ => true
    end in
  if (nullish clienteActualizado ||
      (reads_anterior && nullish clienteAnterior))%bool then
    Rejected (TypeError "Cannot read properties of null or undefined")
  else
    let act := prop clienteActualizado in
    let statusIcon := getStatusIcon (act "estado") in
    Resolved
      (["✅ **Cliente Actualizado Exitosamente**";
        "";
        "## " +:+ statusIcon +:+ " " +:+ to_string (act "nombre_completo")
          +:+ " (ID: " +:+ to_string (act "id_servicio") +:+ ")";
        "";
        "### 🔄 Cambios Realizados"] ++
       changesList clienteAnterior clienteActualizado cambios ++
       [""; 
        "### 📋 Información Actual del Cliente";
        "- **Usuario:** " +:+ to_string (act "usuario");
        "- **Email:** " +:+
          to_string (Js.or (act "email") (VStr "No registrado"));
        "- **Teléfono:** " +:+
          to_string (Js.or (act "telefono") (VStr "No registrado"));
        "- **Dirección:** " +:+
          to_string (Js.or (act "direccion") (VStr "No registrada"));
        "- **Localidad:** " +:+
          to_string (Js.or (act "localidad") (VStr "No especificada"));
        "- **Ciudad:** " +:+
          to_string (Js.or (act "ciudad") (VStr "No especificada"));
        "- **Plan:** " +:+ to_string (act "plan") +:+ " (" +:+
          to_string (act "precio_plan") +:+ ")";
        "- **Estado:** " +:+ statusIcon +:+ " " +:+ to_string (act "estado");
        "- **Zona:** " +:+ to_string (act "zona_nombre");
        ""] ++
       (match notificacion_sms cambios, notificaciones_push cambios with
        | None, None => []
        | _, _ =>
            ["### 📱 Configuración de Notificaciones";
             "- **SMS:** " +:+ getNotificationStatus (act "notificacion_sms");
             "- **Push:** " +:+
               getNotificationStatus (act "notificaciones_push");
             ""]
        end) ++
       (match comentarios cambios with
        | Some _ =>
            if truthy (act "comentarios")
            then ["### 💬 Comentarios"; to_string (act "comentarios"); ""]
            else []
        | None => []
        end) ++
       (let id := to_string (act "id_servicio") in
        ["### 🛠️ Acciones Disponibles";
         "- `obtener_cliente clienteId:" +:+ DQ +:+ id +:+ DQ +:+
           "` - Ver información completa actualizada";
         "- `consultar_saldo_cliente id_servicio:" +:+ id +:+
           "` - Verificar estado financiero";
         "- `crear_ticket servicio:" +:+ id +:+
           "` - Crear ticket para seguimiento";
         "- `actualizar_cliente id_servicio:" +:+ id +:+
           "` - Realizar más actualizaciones"]) ++
       debug_lines clienteActualizado debugInfo)%list.

(** [formatClienteUpdateResponse]: the lines joined by the two
    characters backslash and n, as the source writes the separator. *)
Definition formatClienteUpdateResponse (clienteAnterior clienteActualizado : value)
    (cambios : ActualizarClienteInput) (debugInfo : value)
  : completion string :=
  match response_lines clienteAnterior clienteActualizado cambios debugInfo with
  | Resolved lines => Resolved (join "\n" lines)
  | Rejected e => Rejected e
  end.

(** [Object.keys(validatedArgs).filter(key => key !== 'id_servicio')] *)
Definition updateFields (validatedArgs : ActualizarClienteInput)
  : list string :=
  keys (apiData validatedArgs).

Definition contactFields : list string :=
  ["email"; "telefono"; "direccion"; "localidad"; "ciudad"].

Definition limitationWarning (requestedContactFields : list string)
  : string :=
  match requestedContactFields with
  | [] => ""
  | _ =>
      LF +:+ "⚠️ **LIMITACIÓN DE API DETECTADA:**" +:+ LF +:+
      "Los campos de contacto (" +:+ join ", " requestedContactFields +:+
      ") no pueden actualizarse vía API WispHub." +:+ LF +:+
      "Se intentará la actualización pero es probable que no persistan los cambios."
      +:+ LF +:+
      "**Recomendación:** Usar panel administrativo de WispHub para actualizar información de contacto."
      +:+ LF +:+ LF
  end.

(** The tool handler, for arguments that passed the schema. *)
Definition handler (validatedArgs : ActualizarClienteInput) : M S string :=
  try_catch
    ( if Nat.eqb (List.length (updateFields validatedArgs)) 0 then
        ret "❌ Error: Debe proporcionar al menos un campo para actualizar (comentarios, notificacion_sms, etc.)"
      else
        let requestedContactFields :=
          List.filter (fun f => existsb (String.eqb f) contactFields)
                      (updateFields validatedArgs) in
        let id := string_of_Z (id_servicio validatedArgs) in
        clienteActualResult <- obtenerCliente config id ;;
        if (negb (success clienteActualResult) ||
            negb (truthy (data clienteActualResult)))%bool then
          ret ("❌ Error: Cliente con ID " +:+ id +:+ " no encontrado")
        else
          result <- actualizarCliente validatedArgs ;;
          if negb (success result) then
            ret ("❌ Error: " +:+
                 match error result with
                 | Some msg => msg
                 | None => "undefined"
                 end)
          else
            text <- lift (formatClienteUpdateResponse
                            (data clienteActualResult) (data result)
                            validatedArgs (debugInfo result)) ;;
            ret (limitationWarning requestedContactFields +:+ text) )
    (fun e => ret ("❌ Error inesperado: " +:+ message e)).

End Tool.

End ActualizarClienteTool.

(* ================================================================== *)
(** ** ErrorHandler (src/utils/error-handler.ts) *)
(* ================================================================== *)

Module ErrorHandler.

Record ErrorDetails : Type := mkDetails {
  code : string;
  message : string;
  userMessage : string;
  context : value;
  suggestions : list string
}.

(** [extractResourceFromContext(context)], on [context.tool] *)
Definition extractResourceFromContext (tool : string) : string :=
  if includes "cliente" tool then "cliente"
  else if includes "ticket" tool then "ticket"
  else if includes "saldo" tool then "información de saldo"
  else if includes "servicio" tool then "servicio"
  else "recurso solicitado".

(** An element of an array as [join] prints it. *)
Definition joined (v : value) : string :=
  match v with
  | VUndefined | VNull => ""
  | _ => to_string v
  end.

(** The issues of a [ZodError], each as [path: message]. *)
Definition issues_text (issues : value) : string :=
  match issues with
  | VArr items =>
      join ", "
        (map (fun issue =>
                match prop issue "path" with
                | VArr path => join "." (map joined path)
                | _ => ""
                end +:+ ": " +:+ to_string (prop issue "message"))
             items)
  | _ => ""
  end.

(** [analyzeError(error, context)] for a thrown [Error] object; a
    [ZodError] carries its [issues] among its properties. *)
Definition analyzeError (error : Js.error) (tool : string) : ErrorDetails :=
  let original := VObj [("originalError", VStr (Js.message error))] in
  if String.eqb (ctor error) "ZodError" then
    let issues := issues_text (prop (VObj (props error)) "issues") in
    {| code := "VALIDATION_ERROR";
       message := "Validation failed: " +:+ issues;
       userMessage := "❌ Error de validación: " +:+ issues;
       context := VObj [("zodIssues", prop (VObj (props error)) "issues")];
       suggestions :=
         ["Verificar que todos los parámetros requeridos estén presentes";
          "Revisar tipos de datos (números, strings, etc.)";
          "Consultar la documentación de la herramienta"] |}
  else if (includes "ECONNREFUSED" (Js.message error) ||
           includes "network" (Js.message error) ||
           includes "timeout" (Js.message error))%bool then
    {| code := "NETWORK_ERROR";
       message := Js.message error;
       userMessage :=
         "❌ Error de conexión: No se pudo conectar a la API de WispHub";
       context := original;
       suggestions :=
         ["Verificar conexión a internet";
          "Confirmar que la API de WispHub esté funcionando";
          "Revisar configuración de red y firewall";
          "Intentar nuevamente en unos minutos"] |}
  else if (includes "401" (Js.message error) ||
           includes "Unauthorized" (Js.message error))%bool then
    {| code := "AUTH_ERROR";
       message := Js.message error;
       userMessage := "❌ Error de autenticación: Credenciales inválidas";
       context := original;
       suggestions :=
         ["Verificar que WISPHUB_API_KEY esté configurada correctamente";
          "Confirmar que la API key no haya expirado";
          "Contactar al administrador del sistema"] |}
  else if (includes "404" (Js.message error) ||
           includes "Not Found" (Js.message error))%bool then
    {| code := "NOT_FOUND_ERROR";
       message := Js.message error;
       userMessage :=
         "❌ Recurso no encontrado: " +:+ extractResourceFromContext tool;
       context := original;
       suggestions :=
         ["Verificar que el ID proporcionado sea correcto";
          "Confirmar que el recurso existe en el sistema";
          "Intentar buscar el recurso con otros criterios"] |}
  else if (includes "500" (Js.message error) ||
           includes "Internal Server Error" (Js.message error))%bool then
    {| code := "SERVER_ERROR";
       message := Js.message error;
       userMessage :=
         "❌ Error del servidor: Problema interno en WispHub API";
       context := original;
       suggestions :=
         ["Intentar nuevamente en unos minutos";
          "Reportar el problema al equipo técnico";
          "Verificar el estado del servicio WispHub"] |}
  else
    {| code := "UNKNOWN_ERROR";
       message := Js.message error;
       userMessage := "❌ Error inesperado: " +:+ Js.message error;
       context := original;
       suggestions :=
         ["Intentar nuevamente";
          "Verificar los parámetros de entrada";
          "Contactar soporte técnico si el problema persiste"] |}.

(** [formatErrorMessage(errorDetails)] *)
Definition formatErrorMessage (errorDetails : ErrorDetails) : string :=
  join LF
    ([userMessage errorDetails; ""] ++
     match suggestions errorDetails with
     | [] => []
     | _ =>
         "### 💡 Sugerencias para resolver:"
         :: map (fun suggestion => "- " +:+ suggestion)
                (suggestions errorDetails) ++ [""]
     end ++
     ["### 🔧 Detalles técnicos:";
      "- **Código de error:** " +:+ code errorDetails;
      "- **Mensaje técnico:** " +:+ message errorDetails] ++
     (if truthy (context errorDetails)
      then ["- **Contexto adicional:** Disponible en logs del sistema"]
      else []))%list.

(** [handleError(error, context)], without its log entry *)
Definition handleError (error : Js.error) (tool : string) : string :=
  formatErrorMessage (analyzeError error tool).

End ErrorHandler.

(* ================================================================== *)
(** ** The services over the real client *)
(* ================================================================== *)

(** [WispHubClient] as the services use it; the second component of
    the state records the pauses that the services themselves make.
    [Date.now()] reads [now] throughout one call. *)
Definition WispHub_http {RT : Runtime} (config : WispHubClient.ServerConfig)
    (transport : nat -> WispHubClient.attempt) (now : Z)
  : HttpClient (WispHubClient.t * list Z) :=
  {| http_get := fun endpoint p ttl s =>
       let '(r, c) :=
         WispHubClient.get config transport endpoint p ttl now now (fst s) in
       (r, (c, snd s));
     http_put := fun endpoint d s =>
       let '(r, c) := WispHubClient.put config transport endpoint d (fst s) in
       (r, (c, snd s));
     http_clearCache := fun s => (WispHubClient.clearCache (fst s), snd s);
     sleep := fun ms s => (fst s, (snd s ++ [ms])%list) |}.

(** The POST and PATCH of [WispHubClient] over the same state. *)
Definition WispHub_writer {RT : Runtime} (config : WispHubClient.ServerConfig)
    (transport : nat -> WispHubClient.attempt)
  : HttpWriter (WispHubClient.t * list Z) :=
  {| http_post := fun endpoint d s =>
       let '(r, c) := WispHubClient.post config transport endpoint d (fst s) in
       (r, (c, snd s));
     http_patch := fun endpoint d s =>
       let '(r, c) := WispHubClient.patch config transport endpoint d (fst s) in
       (r, (c, snd s)) |}.

(** The number of days from 1970-01-01 to the day [d] of the month [m]
    of the year [y] of the Gregorian calendar. *)
Definition days_from_civil (y m d : Z) : Z :=
  let y' := if (m <=? 2)%Z then y - 1 else y in
  let era := y' / 400 in
  let yoe := y' - era * 400 in
  let mp := (m + 9) mod 12 in
  let doy := (153 * mp + 2) / 5 + d - 1 in
  let doe := yoe * 365 + yoe / 4 - yoe / 100 + doy in
  era * 146097 + doe - 719468.

Definition days_in_month (y m : Z) : Z :=
  if (m =? 2)%Z then
    if ((y mod 4 =? 0) && (negb (y mod 100 =? 0) || (y mod 400 =? 0)))%Z%bool
    then 29 else 28
  else if ((m =? 4) || (m =? 6) || (m =? 9) || (m =? 11))%Z%bool then 30
  else 31.

(** [new Date(s).getTime()] for a date-only string [YYYY-MM-DD] that
    names a day of the calendar: midnight UTC of that day. Any other
    string is held for an invalid date. *)
Definition iso_date_getTime (s : string) : option Z :=
  match list_ascii_of_string s with
  | [y1; y2; y3; y4; dash1; m1; m2; dash2; d1; d2] =>
      let number (l : list ascii) := parseInt_digits (string_of_list_ascii l) in
      let y := number [y1; y2; y3; y4] in
      let m := number [m1; m2] in
      let d := number [d1; d2] in
      if (forallb is_digit [y1; y2; y3; y4; m1; m2; d1; d2] &&
          byte_is dash1 45 && byte_is dash2 45 &&
          (1 <=? m)%Z && (m <=? 12)%Z &&
          (1 <=? d)%Z && (d <=? days_in_month y m)%Z)%bool
      then Some (days_from_civil y m d * 86400000)
      else None
  | _ => None
  end.

(** A runtime for running the definitions on examples: it serializes
    nothing, formats every date as the current instant, and reads the
    due dates that are written [YYYY-MM-DD]. *)
Definition sample_runtime : Runtime :=
  {| JSON_stringify := fun _ => VUndefined;
     JSON_stringify_pretty := fun _ => VUndefined;
     parseFloat := fun v => match v with
                            | VStr s => if digits_only s
                                        then VNum (parseInt_digits s)
                                        else VNaN
                            | VNum n => VNum n
                            | _ => VNaN
                            end;
     Intl_format_MXN := fun v => "$" +:+ to_string v;
     parse_toISOString := fun _ _ => None;
     Date_toISOString := fun _ => None;
     now_toISOString := "2025-06-27T12:00:00.000Z";
     Date_getTime := iso_date_getTime;
     now_toLocaleString := "27/06/2025, 06:00";
     now_toLocaleDateString := "27/06/2025";
     now_toLocaleTimeString := "06:00:00" |}.

(* ================================================================== *)
(** ** Sample inputs *)
(* ================================================================== *)

Module Samples.

(** An upstream that answers every attempt with 503. *)
Definition unavailable : WispHubClient.AxiosError :=
  {| WispHubClient.response :=
       Some {| WispHubClient.status := 503;
               WispHubClient.data :=
                 VObj [("detail", VStr "Service Unavailable")] |};
     WispHubClient.code := Some "ERR_BAD_RESPONSE";
     WispHubClient.error_message := "Request failed with status code 503" |}.

Definition always_503 : nat -> WispHubClient.attempt :=
  fun _ => WispHubClient.Failed unavailable.

(** A 404 with a structured body. *)
Definition not_found : WispHubClient.AxiosError :=
  {| WispHubClient.response :=
       Some {| WispHubClient.status := 404;
               WispHubClient.data := VObj [("detail", VStr "Not found.")] |};
     WispHubClient.code := Some "ERR_BAD_REQUEST";
     WispHubClient.error_message := "Request failed with status code 404" |}.

Definition always_404 : nat -> WispHubClient.attempt :=
  fun _ => WispHubClient.Failed not_found.

(** A timeout: no response, code [ECONNABORTED]. *)
Definition timed_out : WispHubClient.AxiosError :=
  {| WispHubClient.response := None;
     WispHubClient.code := Some "ECONNABORTED";
     WispHubClient.error_message := "timeout of 30000ms exceeded" |}.

(** A refused connection: no response. *)
Definition refused : WispHubClient.AxiosError :=
  {| WispHubClient.response := None;
     WispHubClient.code := Some "ECONNREFUSED";
     WispHubClient.error_message := "connect ECONNREFUSED 127.0.0.1:443" |}.

Definition a_request : WispHubClient.RequestConfig :=
  WispHubClient.request "GET" "/api/clientes/7/" VUndefined VUndefined.

(** An upstream that answers 200 with the same body every time. *)
Definition always_ok (body : value) : nat -> WispHubClient.attempt :=
  fun _ => WispHubClient.Fulfilled
             {| WispHubClient.status := 200; WispHubClient.data := body |}.

(** A client whose cache holds the falsy body [0] of an earlier GET,
    stored at time 0 for five minutes. *)
Definition holding_zero : WispHubClient.t :=
  snd (WispHubClient.get (RT := sample_runtime) WispHubClient.defaultConfig
         (always_ok (VNum 0)) "/api/clientes/" VUndefined (Some 300000%Z)
         0 0 WispHubClient.new).

(** A 502 whose body is empty. *)
Definition bad_gateway_empty : WispHubClient.AxiosError :=
  {| WispHubClient.response :=
       Some {| WispHubClient.status := 502; WispHubClient.data := VStr "" |};
     WispHubClient.code := Some "ERR_BAD_RESPONSE";
     WispHubClient.error_message := "Request failed with status code 502" |}.

(** A balance with one pending invoice whose due date reads [due] and
    whose overdue days upstream did not supply. *)
Definition one_invoice (due : string) : DataTransformer.ApiSaldo :=
  {| DataTransformer.api_facturas_pendientes :=
       Some [ {| DataTransformer.api_id_factura := Some 1%Z;
                 DataTransformer.api_id := None;
                 DataTransformer.api_fecha_vencimiento := Some due;
                 DataTransformer.api_dias_vencido := None |} ];
     DataTransformer.api_facturas := None |}.

(** The services over a client whose upstream answers every GET with
    an empty list, all within the same millisecond. *)
Definition no_match_client : HttpClient (WispHubClient.t * list Z) :=
  WispHub_http (RT := sample_runtime) WispHubClient.defaultConfig
    (always_ok (VArr [])) 0.

Definition fresh : WispHubClient.t * list Z := (WispHubClient.new, []).

(** The states after the first, second and third lookup by e-mail. *)
Definition after_lookup_1 : WispHubClient.t * list Z :=
  snd (http_get (HttpClient := no_match_client) "/api/clientes/"
         (VObj [("email", VStr "nadie@example.com")])
         (Some 300000%Z) fresh).

Definition after_lookup_2 : WispHubClient.t * list Z :=
  snd (http_get (HttpClient := no_match_client) "/api/clientes/"
         (VObj [("email", VStr "nadie@example.com")]) None after_lookup_1).

Definition after_lookup_3 : WispHubClient.t * list Z :=
  snd (http_get (HttpClient := no_match_client) "/api/clientes/"
         (VObj [("email", VStr "nadie@example.com")]) None after_lookup_2).

(** An update of the notes of client 7 to ["x"]. *)
Definition note_update : ClienteService.ActualizarClienteInput :=
  {| ClienteService.id_servicio := 7;
     ClienteService.email := None;
     ClienteService.telefono := None;
     ClienteService.direccion := None;
     ClienteService.localidad := None;
     ClienteService.ciudad := None;
     ClienteService.comentarios := Some "x";
     ClienteService.notificacion_sms := None;
     ClienteService.notificaciones_push := None |}.

(** Client 7 as upstream holds it, with notes [notes]. *)
Definition client_7 (notes : string) : value :=
  VObj [("id_servicio", VNum 7);
        ("usuario", VStr "ana@isp");
        ("nombre", VStr "Ana Ruiz ");
        ("estado", VStr "Activo");
        ("comentarios", VStr notes)].

(** An upstream that shows the old notes on every read and
    acknowledges the PUT, its second request, by echoing the record
    with the new notes. *)
Definition ignores_notes : nat -> WispHubClient.attempt :=
  fun k =>
    match k with
    | 1%nat => WispHubClient.Fulfilled
                 {| WispHubClient.status := 200;
                    WispHubClient.data := client_7 "x" |}
    | _ => WispHubClient.Fulfilled
             {| WispHubClient.status := 200;
                WispHubClient.data := client_7 "old" |}
    end.

Definition ignoring_client : HttpClient (WispHubClient.t * list Z) :=
  WispHub_http (RT := sample_runtime) WispHubClient.defaultConfig
    ignores_notes 0.

(** The tool's first read of client 7, and the state it leaves. *)
Definition first_read : completion ToolResponse * (WispHubClient.t * list Z) :=
  ClienteService.obtenerCliente (RT := sample_runtime)
    (HC := ignoring_client) WispHubClient.defaultConfig "7" fresh.

Definition first_read_result : ToolResponse :=
  match fst first_read with
  | Resolved r => r
  | Rejected _ =>
      {| success := false; data := VUndefined; error := None;
         debugInfo := VUndefined |}
  end.

Definition after_first_read : WispHubClient.t * list Z := snd first_read.

(** The states after the PUT and after the re-read. *)
Definition after_put : WispHubClient.t * list Z :=
  snd (http_put (HttpClient := ignoring_client) "/api/clientes/7/"
         (VObj [("comentarios", VStr "x")]) after_first_read).

Definition after_reread : WispHubClient.t * list Z :=
  snd (http_get (HttpClient := ignoring_client) "/api/clientes/7/"
         VUndefined None after_put).

(** Client 7, normalized, with the old notes. *)
Definition client_7_old : value :=
  match DataTransformer.clienteToUserFriendly (RT := sample_runtime)
          (client_7 "old") with
  | Resolved c => c
  | Rejected _ => VNull
  end.

(** Ticket 15 as upstream holds it. *)
Definition ticket_15 : value :=
  VObj [("id", VNum 15);
        ("servicio", VNum 7);
        ("asunto", VStr "Sin internet desde ayer");
        ("descripcion", VStr "No navega");
        ("estado", VStr "Nuevo");
        ("prioridad", VStr "Alta");
        ("tecnico", VStr "");
        ("email_tecnico", VStr "");
        ("tickets_mensual", VNum 2);
        ("tickets_anual", VNum 9);
        ("vencimiento", VNull);
        ("archivo_ticket", VNull);
        ("respuestas", VArr []);
        ("fecha_creacion", VStr "20/06/2025 10:00")].

(** Resolving a ticket with a note. *)
Definition resolve_with_note : TicketService.Updates :=
  {| TicketService.estado := Some "resuelto";
     TicketService.prioridad := None;
     TicketService.tecnico := None;
     TicketService.notas := Some " Se cambia el conector " |}.

(** The bindings of the PUT payload for that update of ticket 15. *)
Definition resolve_payload : list (string * value) :=
  match TicketService.putData (RT := sample_runtime) 15 resolve_with_note
          ticket_15 with
  | Resolved (VObj p) => p
  | _ => []
  end.

(** The services over a client whose upstream answers every request
    with ticket 15. *)
Definition ticket_client : HttpClient (WispHubClient.t * list Z) :=
  WispHub_http (RT := sample_runtime) WispHubClient.defaultConfig
    (always_ok ticket_15) 0.

(** An upstream that fails the first attempt with a 503 and answers
    every later one with [body]. *)
Definition recovers (body : value) : nat -> WispHubClient.attempt :=
  fun k =>
    match k with
    | O => WispHubClient.Failed unavailable
    | _ => WispHubClient.Fulfilled
             {| WispHubClient.status := 200; WispHubClient.data := body |}
    end.

(** A configuration that allows no retry. *)
Definition no_retries : WispHubClient.ServerConfig :=
  {| WispHubClient.retryAttempts := 0;
     WispHubClient.cache_clientes := 300000;
     WispHubClient.cache_tickets := 300000;
     WispHubClient.cache_saldos := 60000 |}.

(** The client after a first cached read of client 7 at time 0. *)
Definition after_cached_read : WispHubClient.t :=
  snd (WispHubClient.get (RT := sample_runtime) WispHubClient.defaultConfig
         (always_ok (client_7 "x")) "/api/clientes/7/" VUndefined
         (Some 300000%Z) 0 0 WispHubClient.new).

(** The services over a client whose upstream answers every request
    with a 404. *)
Definition not_found_client : HttpClient (WispHubClient.t * list Z) :=
  WispHub_http (RT := sample_runtime) WispHubClient.defaultConfig
    always_404 0.

(** The states after the first, second and third rejected lookup of
    client 7, with the pauses in between. *)
Definition after_rejected_1 : WispHubClient.t * list Z :=
  snd (http_get (HttpClient := not_found_client) "/api/clientes/7/"
         (VObj []) (Some 300000%Z) fresh).

Definition after_rejected_2 : WispHubClient.t * list Z :=
  snd (http_get (HttpClient := not_found_client) "/api/clientes/7/"
         (VObj []) None
         (sleep (HttpClient := not_found_client) 1000 after_rejected_1)).

Definition after_rejected_3 : WispHubClient.t * list Z :=
  snd (http_get (HttpClient := not_found_client) "/api/clientes/7/"
         (VObj []) None
         (sleep (HttpClient := not_found_client) 2000 after_rejected_2)).

(** The error that the access layer makes of [not_found]. *)
Definition not_found_error : Js.error :=
  Error "WispHub API Error (404): Not found.".

(** An update of the notes with service id 0, and an update of client 7
    that supplies no field. *)
Definition bad_id_update : ClienteService.ActualizarClienteInput :=
  {| ClienteService.id_servicio := 0;
     ClienteService.email := None;
     ClienteService.telefono := None;
     ClienteService.direccion := None;
     ClienteService.localidad := None;
     ClienteService.ciudad := None;
     ClienteService.comentarios := Some "x";
     ClienteService.notificacion_sms := None;
     ClienteService.notificaciones_push := None |}.

Definition empty_update : ClienteService.ActualizarClienteInput :=
  {| ClienteService.id_servicio := 7;
     ClienteService.email := None;
     ClienteService.telefono := None;
     ClienteService.direccion := None;
     ClienteService.localidad := None;
     ClienteService.ciudad := None;
     ClienteService.comentarios := None;
     ClienteService.notificacion_sms := None;
     ClienteService.notificaciones_push := None |}.

(** The state after the PUT of [note_update] was rejected by the first
    [k] candidate endpoints. *)
Definition after_rejected_puts (k : nat) : WispHubClient.t * list Z :=
  fold_left
    (fun s endpoint =>
       snd (http_put (HttpClient := not_found_client) endpoint
              (VObj [("comentarios", VStr "x")]) s))
    (firstn k (ClienteService.endpointsToTry 7)) fresh.

(** Assigning technician 42 to a ticket, and the bindings of the PUT
    payload for that update of ticket 15. *)
Definition assign_technician : TicketService.Updates :=
  {| TicketService.estado := None;
     TicketService.prioridad := None;
     TicketService.tecnico := Some " 42 ";
     TicketService.notas := None |}.

Definition assign_payload : list (string * value) :=
  match TicketService.putData (RT := sample_runtime) 15 assign_technician
          ticket_15 with
  | Resolved (VObj p) => p
  | _ => []
  end.

(** A ticket that was closed, and the update that reopens it. *)
Definition closed_ticket : value :=
  VObj [("id", VNum 16);
        ("asunto", VStr "Cambio de antena");
        ("estado", VStr "Cerrado");
        ("prioridad", VStr "Normal");
        ("tecnico", VStr "42");
        ("fecha_inicio", VStr "20/06/2025 10:00:00");
        ("fecha_fin", VStr "21/06/2025 18:30:00");
        ("finalizado_por", VStr "admin@almacreativa")].

Definition reopen : TicketService.Updates :=
  {| TicketService.estado := Some "nuevo";
     TicketService.prioridad := None;
     TicketService.tecnico := None;
     TicketService.notas := None |}.

Definition reopen_payload : list (string * value) :=
  match TicketService.putData (RT := sample_runtime) 16 reopen
          closed_ticket with
  | Resolved (VObj p) => p
  | _ => []
  end.

(** A ticket whose technician is an object, and the services over an
    upstream that answers every request with it. *)
Definition ticket_with_technician : value :=
  VObj [("id", VNum 17);
        ("asunto", VStr "Router sin luz");
        ("estado", VNum 1);
        ("tecnico", VObj [("id", VNum 3); ("nombre", VStr "Luis")])].

Definition structured_client : HttpClient (WispHubClient.t * list Z) :=
  WispHub_http (RT := sample_runtime) WispHubClient.defaultConfig
    (always_ok ticket_with_technician) 0.

Definition after_structured_read : WispHubClient.t * list Z :=
  snd (http_get (HttpClient := structured_client) "/api/tickets/17/"
         VUndefined None fresh).

(** The states of the update of ticket 15: after the first read, after
    the PUT and after the re-read; and ticket 15, normalized. *)
Definition ticket_read : WispHubClient.t * list Z :=
  snd (http_get (HttpClient := ticket_client) "/api/tickets/15/"
         VUndefined None fresh).

Definition ticket_put : WispHubClient.t * list Z :=
  snd (http_put (HttpClient := ticket_client) "/api/tickets/15/"
         (VObj resolve_payload) ticket_read).

Definition ticket_reread : WispHubClient.t * list Z :=
  snd (http_get (HttpClient := ticket_client) "/api/tickets/15/"
         VUndefined None ticket_put).

Definition ticket_15_friendly : value :=
  match DataTransformer.ticketToUserFriendly (RT := sample_runtime)
          ticket_15 with
  | Resolved t => t
  | Rejected _ => VNull
  end.

(** White space outside ASCII: the no-break space U+00A0, the em space
    U+2003 and the byte order mark U+FEFF. *)
Definition nbsp : string :=
  String (ascii_of_nat 194) (String (ascii_of_nat 160) "").

Definition em_space : string :=
  String (ascii_of_nat 226)
    (String (ascii_of_nat 128) (String (ascii_of_nat 131) "")).

Definition byte_order_mark : string :=
  String (ascii_of_nat 239)
    (String (ascii_of_nat 187) (String (ascii_of_nat 191) "")).

(** A suspension of service 7 whose reason is one no-break space. *)
Definition suspend_7_unspoken : ClienteService.ServicioInput.t :=
  ClienteService.ServicioInput.mk 7 (Some nbsp).

(** Search text is taken as normalized already: enough for examples
    in ASCII. *)
Definition sample_unicode : Unicode := {| normalize_NFD := fun s => s |}.

(** Requests to change the state of a service: without a valid id,
    with a blank reason, and a proper one. *)
Definition change_without_id : ClienteService.ServicioInput.t :=
  ClienteService.ServicioInput.mk 0 (Some "falta de pago").

Definition change_without_reason : ClienteService.ServicioInput.t :=
  ClienteService.ServicioInput.mk 7 (Some "  ").

Definition suspend_7 : ClienteService.ServicioInput.t :=
  ClienteService.ServicioInput.mk 7 (Some " falta de pago ").

(** An upstream that answers every request with client 7, still
    [Activo]; the services and the writes over it. *)
Definition reverting_client : HttpClient (WispHubClient.t * list Z) :=
  WispHub_http (RT := sample_runtime) WispHubClient.defaultConfig
    (always_ok (client_7 "falta de pago")) 0.

Definition reverting_writer : HttpWriter (WispHubClient.t * list Z) :=
  WispHub_writer (RT := sample_runtime) WispHubClient.defaultConfig
    (always_ok (client_7 "falta de pago")).

(** The state after the PATCH that suspends client 7, and the lookup
    that follows the clearing of the cache. *)
Definition after_patch : WispHubClient.t * list Z :=
  snd (http_patch (HttpWriter := reverting_writer) "/api/clientes/7/"
         (VObj [("estado", VStr "Suspendido");
                ("comentarios", VStr "falta de pago")]) fresh).

Definition suspension_reread
  : completion ToolResponse * (WispHubClient.t * list Z) :=
  ClienteService.obtenerCliente (RT := sample_runtime)
    (HC := reverting_client) WispHubClient.defaultConfig "7"
    (http_clearCache (HttpClient := reverting_client) after_patch).

Definition suspension_reread_result : ToolResponse :=
  match fst suspension_reread with
  | Resolved r => r
  | Rejected _ =>
      {| success := false; data := VUndefined; error := None;
         debugInfo := VUndefined |}
  end.

(** A listing without filters, and an upstream that answers with a
    paginated envelope holding client 7. *)
Definition list_all : ClienteService.ConsultarClientesInput.t :=
  ClienteService.ConsultarClientesInput.mk None None None None None None.

Definition one_page : value :=
  VObj [("count", VNum 1); ("next", VNull); ("previous", VNull);
        ("results", VArr [client_7 "old"])].

Definition paging_client : HttpClient (WispHubClient.t * list Z) :=
  WispHub_http (RT := sample_runtime) WispHubClient.defaultConfig
    (always_ok one_page) 0.

Definition paging_writer : HttpWriter (WispHubClient.t * list Z) :=
  WispHub_writer (RT := sample_runtime) WispHubClient.defaultConfig
    (always_ok one_page).

Definition after_listing : WispHubClient.t * list Z :=
  snd (http_get (HttpClient := paging_client) "/api/clientes/"
         (VObj [("limit", VNum 20); ("offset", VNum 0)])
         (Some 300000%Z) fresh).

Definition after_ticket_listing : WispHubClient.t * list Z :=
  snd (http_get (HttpClient := paging_client) "/api/tickets/"
         (VObj [("servicio", VNum 7)]) (Some 300000%Z) fresh).

(** A new ticket for service 7. *)
Definition new_ticket : TicketService.CrearTicketInput.t :=
  TicketService.CrearTicketInput.mk 7 " Sin internet " " No navega "
    (Some "alta").

(** The writes over the upstream that ignores the notes, and a request
    to reactivate service 7. *)
Definition ignoring_writer : HttpWriter (WispHubClient.t * list Z) :=
  WispHub_writer (RT := sample_runtime) WispHubClient.defaultConfig
    ignores_notes.

Definition reactivate_7 : ClienteService.ServicioInput.t :=
  ClienteService.ServicioInput.mk 7 (Some "pago recibido").

End Samples.

(* ================================================================== *)
(** * Properties *)
(* ================================================================== *)

(** ** Objects *)

Lemma obj_lookup_set (k k' : string) (v : value) (fs : list (string * value)) :
  obj_lookup k (obj_set k' v fs)
  = if String.eqb k k' then Some v else obj_lookup k fs.
Proof.
  induction fs as [|[k0 v0] fs IH]; simpl.
  - destruct (String.eqb k k'); reflexivity.
  - destruct (String.eqb k' k0) eqn:E0; simpl.
    + apply String.eqb_eq in E0; subst k0.
      destruct (String.eqb k k'); reflexivity.
    + rewrite IH.
      destruct (String.eqb k k0) eqn:E1; [|reflexivity].
      apply String.eqb_eq in E1; subst k0.
      rewrite String.eqb_sym in E0. now rewrite E0.
Qed.

Lemma obj_lookup_delete (k k' : string) (fs : list (string * value)) :
  obj_lookup k (obj_delete k' fs)
  = if String.eqb k k' then None else obj_lookup k fs.
Proof.
  unfold obj_delete.
  induction fs as [|[k0 v0] fs IH]; simpl.
  - destruct (String.eqb k k'); reflexivity.
  - destruct (String.eqb k' k0) eqn:E0; simpl.
    + apply String.eqb_eq in E0; subst k0. rewrite IH.
      destruct (String.eqb k k'); reflexivity.
    + rewrite IH.
      destruct (String.eqb k k0) eqn:E1; [|reflexivity].
      apply String.eqb_eq in E1; subst k0.
      rewrite String.eqb_sym in E0. now rewrite E0.
Qed.

Lemma obj_lookup_delete_all (k : string) (ks : list string)
    (fs : list (string * value)) :
  obj_lookup k (fold_left (fun c k' => obj_delete k' c) ks fs)
  = if existsb (String.eqb k) ks then None else obj_lookup k fs.
Proof.
  revert fs; induction ks as [|k0 ks IH]; intros fs; simpl; [reflexivity|].
  rewrite IH, obj_lookup_delete.
  destruct (String.eqb k k0); simpl.
  - destruct (existsb (String.eqb k) ks); reflexivity.
  - reflexivity.
Qed.

Lemma prop_obj (fs : list (string * value)) (k : string) :
  prop (VObj fs) k
  = match obj_lookup k fs with Some x => x | None => VUndefined end.
Proof. reflexivity. Qed.

(** A string that contains a space is not empty. *)
Lemma append_space_nonempty (a b : string) : a +:+ " " +:+ b <> "".
Proof. destruct a; discriminate. Qed.

(** ** Enumerations *)

(** C8. Every canonical client status survives the conversion to the
    upstream string and back; every canonical ticket status and every
    canonical priority survives the conversion to the upstream integer
    code and back. *)
Theorem enum_round_trips :
  (forall v : DataTransformer.EstadoCliente,
     DataTransformer.estadoClienteStringToEnum
       (DataTransformer.estadoClienteEnumToString
          (VStr (DataTransformer.EstadoCliente_str v)))
     = VStr (DataTransformer.EstadoCliente_str v)) /\
  (forall v : DataTransformer.EstadoTicket,
     DataTransformer.estadoTicketToString
       (DataTransformer.estadoTicketToNumber
          (VStr (DataTransformer.EstadoTicket_str v)))
     = VStr (DataTransformer.EstadoTicket_str v)) /\
  (forall p : DataTransformer.PrioridadTicket,
     DataTransformer.prioridadTicketToString
       (DataTransformer.prioridadTicketToNumber
          (VStr (DataTransformer.PrioridadTicket_str p)))
     = VStr (DataTransformer.PrioridadTicket_str p)).
Proof.
  repeat split; intros []; reflexivity.
Qed.

(** The upstream codes are the documented ones. *)
Lemma ticket_codes :
  map (fun v => DataTransformer.estadoTicketToNumber
                  (VStr (DataTransformer.EstadoTicket_str v)))
      [DataTransformer.nuevo; DataTransformer.en_progreso;
       DataTransformer.resuelto; DataTransformer.cerrado]
  = [VNum 1; VNum 2; VNum 3; VNum 4].
Proof. reflexivity. Qed.

(** ** The cache *)

Section CacheProperties.

Import CacheManager.

Lemma get_present_unexpired (key : string) (now : Z) (c : CacheManager.t)
    (entry : CacheEntry) :
  cache c !! key = Some entry ->
  (now <= expires entry)%Z ->
  CacheManager.get key now c
  = (entry_value entry, {| cache := cache c; stats := count_hit (stats c) |}).
Proof.
  intros Hk Hle. unfold CacheManager.get. rewrite Hk.
  destruct (expires entry <? now)%Z eqn:E; [|reflexivity].
  apply Z.ltb_lt in E. lia.
Qed.

Lemma get_present_expired (key : string) (now : Z) (c : CacheManager.t)
    (entry : CacheEntry) :
  cache c !! key = Some entry ->
  (expires entry < now)%Z ->
  CacheManager.get key now c
  = (VNull, {| cache := base.delete key (cache c);
               stats := count_deletes 1 (count_miss (stats c)) |}).
Proof.
  intros Hk Hlt. unfold CacheManager.get. rewrite Hk.
  apply Z.ltb_lt in Hlt. now rewrite Hlt.
Qed.

(** C6, as the code has it. After [set(key, value, ttl)] at time [t0],
    a [get(key)] at any time up to and including the expiry instant
    [t0 + ttl] returns the stored value and counts a hit; a [get(key)]
    strictly after the expiry instant answers [null], removes the entry
    and counts a miss (and a delete), not a hit. *)
Theorem get_after_set (key : string) (v : value) (ttl t0 t : Z)
    (c : CacheManager.t) :
  let c1 := CacheManager.set key v ttl t0 c in
  let r := CacheManager.get key t c1 in
  ((t <= t0 + ttl)%Z ->
     fst r = v /\
     cache (snd r) = cache c1 /\
     hits (stats (snd r)) = (hits (stats c1) + 1)%Z /\
     misses (stats (snd r)) = misses (stats c1)) /\
  ((t0 + ttl < t)%Z ->
     fst r = VNull /\
     cache (snd r) !! key = None /\
     hits (stats (snd r)) = hits (stats c1) /\
     misses (stats (snd r)) = (misses (stats c1) + 1)%Z /\
     deletes (stats (snd r)) = (deletes (stats c1) + 1)%Z).
Proof.
  intros c1 r.
  assert (Hk : cache c1 !! key = Some (mkEntry v (t0 + ttl))).
  { unfold c1, CacheManager.set; simpl. apply lookup_insert_eq. }
  split; intros Ht.
  - unfold r. rewrite (get_present_unexpired _ _ _ _ Hk) by (simpl; lia).
    simpl. repeat split; reflexivity.
  - unfold r. rewrite (get_present_expired _ _ _ _ Hk) by (simpl; lia).
    simpl. repeat split; try reflexivity. apply lookup_delete_eq.
Qed.

Lemma get_after_set_witness :
  let c1 := CacheManager.set "GET:/api/clientes/7/:" (VStr "v") 1000 5000
              CacheManager.new in
  (fst (CacheManager.get "GET:/api/clientes/7/:" 5999 c1) = VStr "v") /\
  (fst (CacheManager.get "GET:/api/clientes/7/:" 6001 c1) = VNull).
Proof.
  split.
  - apply (proj1 (get_after_set "GET:/api/clientes/7/:" (VStr "v")
                    1000 5000 5999 CacheManager.new)). lia.
  - apply (proj2 (get_after_set "GET:/api/clientes/7/:" (VStr "v")
                    1000 5000 6001 CacheManager.new)). lia.
Defined.

(** At the expiry instant itself the entry is still served: the read
    returns the value, counts a hit and leaves the entry in place. *)
Lemma get_at_expiry_instant_is_a_hit :
  let c1 := CacheManager.set "GET:/api/clientes/7/:" (VStr "v") 1000 5000
              CacheManager.new in
  let r := CacheManager.get "GET:/api/clientes/7/:" (5000 + 1000) c1 in
  fst r = VStr "v" /\
  fst r <> VNull /\
  cache (snd r) !! "GET:/api/clientes/7/:" = Some (mkEntry (VStr "v") 6000) /\
  hits (stats (snd r)) = 1%Z /\
  misses (stats (snd r)) = 0%Z.
Proof.
  vm_compute. repeat split; try reflexivity. discriminate.
Qed.

(** [cleanup] uses the same strict comparison as [get]. *)
Lemma cleanup_keeps_entry_at_expiry_instant (key : string) (now : Z)
    (c : CacheManager.t) (entry : CacheEntry) :
  cache c !! key = Some entry ->
  expires entry = now ->
  cache (snd (CacheManager.cleanup now c)) !! key = Some entry.
Proof.
  intros Hk He. unfold cleanup; simpl.
  apply map_lookup_filter_Some. split; [exact Hk|]. simpl. lia.
Qed.

End CacheProperties.

(** ** The access layer: retries *)

Section HttpProperties.

Import WispHubClient.

Context {RT : Runtime}.
Variable config : ServerConfig.
Variable transport : nat -> attempt.

(** One unfolding of [http]. *)
Lemma http_step (fuel : nat) (cfg : RequestConfig) (st : WispHubClient.t) :
  http config transport (S fuel) cfg st
  = match transport (List.length (sent st)) with
    | Fulfilled r => Some (Resolved r, record_attempt cfg st)
    | Failed e =>
        if (negb (_retry cfg) && shouldRetry e)%bool then
          if (retryCount (retried cfg) <=? retryAttempts config)%Z then
            http config transport fuel (retried cfg)
              (record_delay (2 ^ retryCount cfg * 1000)
                 (record_attempt cfg st))
          else Some (Rejected (formatError e),
                     record_delay (2 ^ retryCount cfg * 1000)
                       (record_attempt cfg st))
        else Some (Rejected (formatError e), record_attempt cfg st)
    end.
Proof. reflexivity. Qed.

(** A request that already carries [_retry] is attempted once. *)
Lemma http_flagged (fuel : nat) (cfg : RequestConfig) (st : WispHubClient.t) :
  _retry cfg = true ->
  http config transport (S fuel) cfg st
  = Some match transport (List.length (sent st)) with
         | Fulfilled r => (Resolved r, record_attempt cfg st)
         | Failed e =>
             (Rejected (formatError e), record_attempt cfg st)
         end.
Proof.
  intros H. rewrite http_step, H. simpl.
  destruct (transport (List.length (sent st))); reflexivity.
Qed.

(** The interceptor recursion always ends within the fuel given. *)
Lemma http_total (cfg : RequestConfig) (st : WispHubClient.t) :
  exists r st', http config transport (enough_fuel config) cfg st
                = Some (r, st').
Proof.
  unfold enough_fuel. rewrite http_step.
  destruct (transport (List.length (sent st))) as [r|e]; [eauto|].
  destruct (negb (_retry cfg) && shouldRetry e)%bool; [|eauto].
  destruct (retryCount (retried cfg) <=? retryAttempts config)%Z; [|eauto].
  rewrite http_flagged by reflexivity.
  match goal with |- context [match ?x with _ => _ end] => destruct x end;
    eauto.
Qed.

(** Every run of [http] makes at least one and at most two transport
    attempts, and leaves the cache alone. *)
Lemma http_attempts (fuel : nat) (cfg : RequestConfig) (st st' : WispHubClient.t)
    (r : completion AxiosResponse) :
  http config transport fuel cfg st = Some (r, st') ->
  (List.length (sent st) < List.length (sent st')
     <= List.length (sent st) + 2)%nat /\
  WispHubClient.cache st' = WispHubClient.cache st.
Proof.
  destruct fuel as [|fuel]; [discriminate|]. rewrite http_step.
  destruct (transport (List.length (sent st))) as [r0|e].
  { intros [= <- <-]. simpl. rewrite length_app. simpl. split; [lia|reflexivity]. }
  destruct (negb (_retry cfg) && shouldRetry e)%bool.
  2:{ intros [= <- <-]. simpl. rewrite length_app. simpl.
      split; [lia|reflexivity]. }
  destruct (retryCount (retried cfg) <=? retryAttempts config)%Z.
  2:{ intros [= <- <-]. simpl. rewrite length_app. simpl.
      split; [lia|reflexivity]. }
  destruct fuel as [|fuel]; [discriminate|].
  rewrite http_flagged by reflexivity.
  match goal with |- context [match ?x with _ => _ end] => destruct x end;
    intros [= <- <-]; simpl; rewrite !length_app; simpl;
    (split; [lia|reflexivity]).
Qed.

Lemma send_attempts (cfg : RequestConfig) (st : WispHubClient.t) :
  (List.length (sent st)
     < List.length (sent (snd (send config transport cfg st))))%nat /\
  WispHubClient.cache (snd (send config transport cfg st))
  = WispHubClient.cache st.
Proof.
  unfold send.
  destruct (http_total cfg st) as (r & st' & H). rewrite H.
  apply http_attempts in H. destruct r; simpl; split; try lia; apply H.
Qed.

(** C3, what the code does. When every transport attempt fails with a
    server-side failure or with no response, a request is re-issued
    exactly once, whatever [retryAttempts >= 1] says: two transport
    attempts in all, one wait of [2^0 * 1000] ms between them, and the
    second failure is the one surfaced. *)
Theorem failing_request_is_reissued_once (cfg : RequestConfig)
    (st : WispHubClient.t) :
  _retry cfg = false ->
  _retryCount cfg = None ->
  (1 <= retryAttempts config)%Z ->
  (forall k, exists e, transport k = Failed e /\ shouldRetry e = true) ->
  exists e,
    transport (S (List.length (sent st))) = Failed e /\
    send config transport cfg st
    = (Rejected (formatError e),
       {| WispHubClient.cache := WispHubClient.cache st;
          sent := (sent st ++ [cfg; retried cfg])%list;
          delays := (delays st ++ [1000%Z])%list |}).
Proof.
  intros Hflag Hcount Hattempts Hfail.
  destruct (Hfail (List.length (sent st))) as (e0 & He0 & Hr0).
  destruct (Hfail (S (List.length (sent st)))) as (e1 & He1 & _).
  exists e1. split; [exact He1|].
  unfold send, enough_fuel. rewrite http_step.
  rewrite He0, Hflag, Hr0. cbn [negb andb].
  assert (Hc : retryCount cfg = 0%Z) by (unfold retryCount; now rewrite Hcount).
  assert (Hle : (retryCount (retried cfg) <=? retryAttempts config)%Z = true).
  { apply Z.leb_le. unfold retried, retryCount at 1; simpl. lia. }
  rewrite Hle, http_flagged by reflexivity.
  assert (Hlen : List.length
            (sent (record_delay (2 ^ retryCount cfg * 1000)
                     (record_attempt cfg st)))
          = S (List.length (sent st))).
  { simpl. rewrite length_app. simpl. lia. }
  rewrite Hlen, He1, Hc.
  unfold record_attempt, record_delay; simpl.
  rewrite <- app_assoc. reflexivity.
Qed.

(** A client error (4xx) is surfaced at once: one attempt, no wait. *)
Lemma client_error_is_not_retried (cfg : RequestConfig)
    (st : WispHubClient.t) (e : AxiosError) (r : AxiosResponse) :
  transport (List.length (sent st)) = Failed e ->
  response e = Some r ->
  (status r < 500)%Z ->
  send config transport cfg st
  = (Rejected (formatError e), record_attempt cfg st).
Proof.
  intros He Hr Hs. unfold send, enough_fuel. rewrite http_step, He.
  assert (shouldRetry e = false) as ->.
  { unfold shouldRetry. rewrite Hr. apply Z.leb_gt. exact Hs. }
  rewrite andb_false_r. reflexivity.
Qed.

End HttpProperties.

Lemma failing_request_is_reissued_once_witness :
  exists e,
    Samples.always_503 1%nat = WispHubClient.Failed e /\
    WispHubClient.send (RT := sample_runtime) WispHubClient.defaultConfig
      Samples.always_503 Samples.a_request WispHubClient.new
    = (Rejected (WispHubClient.formatError (RT := sample_runtime) e),
       {| WispHubClient.cache := CacheManager.new;
          WispHubClient.sent :=
            [Samples.a_request; WispHubClient.retried Samples.a_request];
          WispHubClient.delays := [1000%Z] |}).
Proof.
  apply (failing_request_is_reissued_once (RT := sample_runtime)
           WispHubClient.defaultConfig Samples.always_503
           Samples.a_request WispHubClient.new).
  - reflexivity.
  - reflexivity.
  - simpl. lia.
  - intros k. exists Samples.unavailable. split; reflexivity.
Defined.

(** With [retryAttempts = 3] and an upstream that always answers 503,
    the request is attempted twice, after a single wait of one second,
    and fails with the formatted 503. *)
Lemma always_503_two_attempts :
  let r := WispHubClient.send (RT := sample_runtime)
             WispHubClient.defaultConfig Samples.always_503
             Samples.a_request WispHubClient.new in
  WispHubClient.retryAttempts WispHubClient.defaultConfig = 3%Z /\
  fst r = Rejected (Error "WispHub API Error (503): Service Unavailable") /\
  List.length (WispHubClient.sent (snd r)) = 2%nat /\
  WispHubClient.delays (snd r) = [1000%Z].
Proof. vm_compute. repeat split; reflexivity. Qed.

(** ** The access layer: cache-aside reads *)

Section GetProperties.

Import WispHubClient.

Context {RT : Runtime}.
Variable config : ServerConfig.
Variable transport : nat -> attempt.

Lemma caching_positive (ttl : Z) : (0 < ttl)%Z -> caching (Some ttl) = true.
Proof.
  intros H. unfold caching.
  apply andb_true_iff. split.
  - apply negb_true_iff, Z.eqb_neq. lia.
  - apply Z.ltb_lt. exact H.
Qed.

(** The network path of [get]: what it answers and that it reaches the
    transport. *)
Lemma get_fetch (endpoint : string) (p : value) (ttl now later : Z)
    (st : WispHubClient.t) (cached : value) (c : CacheManager.t) :
  (0 < ttl)%Z ->
  CacheManager.get (getCacheKey "GET" endpoint p) now (WispHubClient.cache st)
  = (cached, c) ->
  truthy cached = false ->
  let r := get config transport endpoint p (Some ttl) now later st in
  fst r = fst (send config transport
                 (request "GET" endpoint p VUndefined) (with_cache c st)) /\
  (List.length (sent st) < List.length (sent (snd r)))%nat.
Proof.
  intros Httl Hget Hfalsy r. unfold r, get.
  rewrite (caching_positive ttl Httl), Hget, Hfalsy.
  pose proof (send_attempts config transport
                (request "GET" endpoint p VUndefined) (with_cache c st))
    as [Hlen _].
  destruct (send config transport (request "GET" endpoint p VUndefined)
              (with_cache c st)) as [[d|e] st1]; simpl in *; split;
    try reflexivity; exact Hlen.
Qed.

(** C10. With [cacheTtl > 0], [get] answers from the cache only with a
    truthy value: (1) an answer given without any transport attempt is
    truthy; (2) when the key holds a present, unexpired entry whose
    value is falsy, the cache itself counts the read as a hit, yet [get]
    goes to the network: it makes at least one transport attempt and
    answers what the network call answers. *)
Theorem falsy_cached_value_is_fetched_again (endpoint : string) (p : value)
    (ttl now later : Z) (st : WispHubClient.t) :
  (0 < ttl)%Z ->
  let key := getCacheKey "GET" endpoint p in
  let r := get config transport endpoint p (Some ttl) now later st in
  (sent (snd r) = sent st ->
     exists v, fst r = Resolved v /\ truthy v = true) /\
  (forall entry : CacheManager.CacheEntry,
     CacheManager.cache (WispHubClient.cache st) !! key = Some entry ->
     (now <= CacheManager.expires entry)%Z ->
     truthy (CacheManager.entry_value entry) = false ->
     let counted :=
       {| CacheManager.cache := CacheManager.cache (WispHubClient.cache st);
          CacheManager.stats :=
            CacheManager.count_hit
              (CacheManager.stats (WispHubClient.cache st)) |} in
     CacheManager.get key now (WispHubClient.cache st)
     = (CacheManager.entry_value entry, counted) /\
     fst r = fst (send config transport
                    (request "GET" endpoint p VUndefined)
                    (with_cache counted st)) /\
     (List.length (sent st) < List.length (sent (snd r)))%nat).
Proof.
  intros Httl key r. split.
  - intros Hsent.
    destruct (CacheManager.get key now (WispHubClient.cache st))
      as [cached c] eqn:Hget.
    destruct (truthy cached) eqn:Ht.
    + exists cached. unfold r, get. fold key.
      rewrite (caching_positive ttl Httl), Hget, Ht. split; reflexivity.
    + destruct (get_fetch endpoint p ttl now later st cached c Httl Hget Ht)
        as [_ Hlen].
      fold r in Hlen. rewrite Hsent in Hlen. lia.
  - intros entry Hk Hexp Hfalsy counted.
    pose proof (get_present_unexpired key now _ entry Hk Hexp) as Hget.
    split; [exact Hget|].
    exact (get_fetch endpoint p ttl now later st _ _ Httl Hget Hfalsy).
Qed.

End GetProperties.

Lemma falsy_cached_value_is_fetched_again_witness :
  let r := WispHubClient.get (RT := sample_runtime)
             WispHubClient.defaultConfig (Samples.always_ok (VNum 0))
             "/api/clientes/" VUndefined (Some 300000%Z) 1000 1000
             Samples.holding_zero in
  (List.length (WispHubClient.sent Samples.holding_zero)
     < List.length (WispHubClient.sent (snd r)))%nat.
Proof.
  refine (proj2 (proj2 (proj2
    (falsy_cached_value_is_fetched_again (RT := sample_runtime)
       WispHubClient.defaultConfig (Samples.always_ok (VNum 0))
       "/api/clientes/" VUndefined 300000 1000 1000 Samples.holding_zero _)
    (CacheManager.mkEntry (VNum 0) 300000) _ _ _))).
  - lia.
  - vm_compute. reflexivity.
  - simpl. lia.
  - reflexivity.
Defined.

(** ** The access layer: failures *)

Section ErrorProperties.

Import WispHubClient.

Context {RT : Runtime}.

(** The message of an API failure comes from the first truthy one of
    [message], [error], [detail], and else from the serialized body. *)
Lemma errorMessage_priority (apiError : value) :
  (truthy (prop apiError "message") = true ->
     errorMessage apiError = prop apiError "message") /\
  (truthy (prop apiError "message") = false ->
   truthy (prop apiError "error") = true ->
     errorMessage apiError = prop apiError "error") /\
  (truthy (prop apiError "message") = false ->
   truthy (prop apiError "error") = false ->
   truthy (prop apiError "detail") = true ->
     errorMessage apiError = prop apiError "detail") /\
  (truthy (prop apiError "message") = false ->
   truthy (prop apiError "error") = false ->
   truthy (prop apiError "detail") = false ->
     errorMessage apiError
     = Js.or (JSON_stringify apiError) (VStr "Unknown API error")).
Proof.
  unfold errorMessage, Js.or.
  repeat split; intros; repeat match goal with H : _ = _ |- _ => rewrite H end;
    reflexivity.
Qed.

(** C4, as the code has it. Every failure that [formatError] surfaces
    is a plain [Error] object without further properties; its message
    has one of three shapes: the status and the body's message for a
    response with a truthy body (the message being the first truthy one
    of the body's [message], [error] and [detail], else its serialized
    dump), a fixed timeout text when there is no such body and the code
    is [ECONNABORTED], and the transport's own message after
    [Network error: ] otherwise (also for a response whose body is
    empty). The shapes differ in the message text only. *)
Theorem formatError_shapes (e : AxiosError) :
  ctor (formatError e) = "Error" /\
  props (formatError e) = [] /\
  ((exists (r : AxiosResponse) (msg : value),
      response e = Some r /\ truthy (data r) = true /\
      message (formatError e)
      = "WispHub API Error (" +:+ to_string (VNum (status r)) +:+ "): "
        +:+ to_string msg /\
      (truthy (prop (data r) "message") = true ->
         msg = prop (data r) "message") /\
      (truthy (prop (data r) "message") = false ->
       truthy (prop (data r) "error") = true ->
         msg = prop (data r) "error") /\
      (truthy (prop (data r) "message") = false ->
       truthy (prop (data r) "error") = false ->
       truthy (prop (data r) "detail") = true ->
         msg = prop (data r) "detail") /\
      (truthy (prop (data r) "message") = false ->
       truthy (prop (data r) "error") = false ->
       truthy (prop (data r) "detail") = false ->
         msg = Js.or (JSON_stringify (data r)) (VStr "Unknown API error"))) \/
   (has_body e = false /\ is_timeout e = true /\
      message (formatError e)
      = "Request timeout - WispHub API is not responding") \/
   (has_body e = false /\ is_timeout e = false /\
      message (formatError e) = "Network error: " +:+ error_message e)).
Proof.
  unfold formatError, has_body.
  destruct (response e) as [r|].
  - destruct (truthy (data r)) eqn:Hb.
    + repeat split. left. exists r, (errorMessage (data r)).
      split; [reflexivity|]. split; [exact Hb|]. split; [reflexivity|].
      exact (errorMessage_priority (data r)).
    + destruct (is_timeout e);
        repeat split; [right; left|right; right]; repeat split.
  - destruct (is_timeout e);
      repeat split; [right; left|right; right]; repeat split.
Qed.

End ErrorProperties.

(** A timeout and a 404 are surfaced as objects that agree in
    everything but the message text: no test that ignores the message
    tells them apart. A 502 with an empty body reads as a network
    error. *)
Lemma formatted_errors_differ_only_in_message :
  let timeout := WispHubClient.formatError (RT := sample_runtime)
                   Samples.timed_out in
  let api := WispHubClient.formatError (RT := sample_runtime)
               Samples.not_found in
  message timeout = "Request timeout - WispHub API is not responding" /\
  message api = "WispHub API Error (404): Not found." /\
  ~ (exists kind : Js.error -> bool,
       (forall e m, kind (with_message m e) = kind e) /\
       kind timeout <> kind api) /\
  message (WispHubClient.formatError (RT := sample_runtime)
             Samples.bad_gateway_empty)
  = "Network error: Request failed with status code 502".
Proof.
  intros timeout api. repeat split.
  intros (kind & Hinv & Hne). apply Hne.
  rewrite <- (Hinv timeout ""), <- (Hinv api ""). reflexivity.
Qed.

(** ** Balances *)

Section SaldoProperties.

Import DataTransformer.

Context {RT : Runtime}.



Lemma fold_max_le (ds : list Z) (d k : Z) :
  (fold_left Z.max ds d <= k)%Z <-> Forall (fun x => (x <= k)%Z) (d :: ds).
Proof.
  revert d; induction ds as [|x ds IH]; intros d; simpl.
  - split; [intros H; repeat constructor; exact H|].
    intros H; inversion H; assumption.
  - rewrite IH. split; intros H.
    + inversion H as [|? ? Hmax Hds]; subst.
      repeat constructor; try lia. exact Hds.
    + inversion H as [|? ? Hd Hrest]; subst.
      inversion Hrest as [|? ? Hx Hds]; subst.
      constructor; [lia|exact Hds].
Qed.

(** The account tier from the largest of the overdue days. *)
Lemma determinarEstadoCuenta_spec (dias : list num) :
  let days := map or_zero dias in
  (days = [] -> determinarEstadoCuenta dias = al_corriente) /\
  (Forall (fun d => (d <= 0)%Z) days ->
     determinarEstadoCuenta dias = al_corriente) /\
  (Forall (fun d => (d <= 30)%Z) days -> Exists (fun d => (0 < d)%Z) days ->
     determinarEstadoCuenta dias = con_atraso) /\
  (Exists (fun d => (30 < d)%Z) days ->
     determinarEstadoCuenta dias = muy_atrasado).
Proof.
  intros days. unfold determinarEstadoCuenta. fold days.
  destruct days as [|d ds].
  - repeat split; try reflexivity; intros; try reflexivity;
      match goal with H : Exists _ [] |- _ => inversion H end.
  - split; [discriminate|].
    assert (Hnot : forall k, Exists (fun x => (k < x)%Z) (d :: ds) ->
                             ~ (fold_left Z.max ds d <= k)%Z).
    { intros k Hex Hle. apply fold_max_le in Hle.
      apply Exists_exists in Hex. destruct Hex as (x & Hin & Hx).
      rewrite Forall_forall in Hle. specialize (Hle x Hin). lia. }
    repeat split.
    + intros Hall. apply fold_max_le in Hall.
      apply Z.leb_le in Hall. now rewrite Hall.
    + intros Hall Hex. apply fold_max_le in Hall.
      apply Hnot in Hex.
      assert (E0 : (fold_left Z.max ds d <=? 0)%Z = false)
        by (apply Z.leb_gt; lia).
      assert (E30 : (fold_left Z.max ds d <=? 30)%Z = true)
        by (apply Z.leb_le; exact Hall).
      now rewrite E0, E30.
    + intros Hex. pose proof (Hnot 30%Z Hex) as H30.
      assert (E0 : (fold_left Z.max ds d <=? 0)%Z = false)
        by (apply Z.leb_gt; lia).
      assert (E30 : (fold_left Z.max ds d <=? 30)%Z = false)
        by (apply Z.leb_gt; lia).
      now rewrite E0, E30.
Qed.




End SaldoProperties.



(** ** Fetching one client *)

Section ObtenerProperties.

Import ClienteService.

Context {RT : Runtime} {S : Type} {HC : HttpClient S}.
Variable config : WispHubClient.ServerConfig.

(** A round whose lookup resolves without a match: the attempt is
    recorded once when it is the last one, twice otherwise. *)
Lemma attempt_round_no_match (clienteId : string) (maxRetries attempt : Z)
    (attempts : list value) (lastError : option Js.error)
    (ep : string) (sp response : value) (s s' : S) :
  lookup_target clienteId = Resolved (ep, sp) ->
  http_get ep sp
    (if (attempt =? 1)%Z then Some (WispHubClient.cache_clientes config)
     else None) s = (Resolved response, s') ->
  first_match response = None ->
  attempt_round config clienteId maxRetries attempt attempts lastError s
  = (Resolved
       (let useCache := if (attempt =? 1)%Z
                        then Some (WispHubClient.cache_clientes config)
                        else None in
        let entry :=
          VObj [("attempt", VNum attempt);
                ("success", VBool true);
                ("hasData", VBool false);
                ("endpoint", VStr ep);
                ("searchParams", sp);
                ("usedCache", VBool (used_cache useCache))] in
        if (attempt =? maxRetries)%Z then
          Return {| success := true; data := VUndefined; error := None;
                    debugInfo :=
                      VObj [("attempts", VArr (attempts ++ [entry]));
                            ("clienteId", VStr clienteId);
                            ("endpoint", VStr ep);
                            ("searchParams", sp);
                            ("noDataFound", VBool true)] |}
        else Continue (attempts ++ [entry; entry]) lastError),
     s').
Proof.
  intros Ht Hg Hm.
  unfold attempt_round, try_catch, bind, lift. rewrite Ht.
  simpl fst; simpl snd. cbv zeta. rewrite Hg.
  unfold first_cliente. rewrite Hm. simpl truthy. cbv iota.
  destruct (attempt =? maxRetries)%Z; unfold ret; [reflexivity|].
  rewrite <- app_assoc. reflexivity.
Qed.

(** A round whose lookup is rejected. *)
Lemma attempt_round_error (clienteId : string) (maxRetries attempt : Z)
    (attempts : list value) (lastError : option Js.error)
    (ep : string) (sp : value) (e : Js.error) (s s' : S) :
  lookup_target clienteId = Resolved (ep, sp) ->
  http_get ep sp
    (if (attempt =? 1)%Z then Some (WispHubClient.cache_clientes config)
     else None) s = (Rejected e, s') ->
  attempt_round config clienteId maxRetries attempt attempts lastError s
  = (let recorded :=
       (attempts ++ [VObj [("attempt", VNum attempt);
                           ("success", VBool false);
                           ("error", VStr (message e))]])%list in
     if (attempt =? maxRetries)%Z
     then (Resolved (Break recorded (Some e)), s')
     else (Resolved (Continue recorded (Some e)), sleep (1000 * attempt) s')).
Proof.
  intros Ht Hg.
  unfold attempt_round, try_catch, bind, lift. rewrite Ht.
  simpl fst; simpl snd. cbv zeta. rewrite Hg.
  destruct (attempt =? maxRetries)%Z; reflexivity.
Qed.

(** C5, what the code does. When the three lookups of [obtenerCliente]
    all resolve and none has a matching record, the result is a success
    without data, and its attempt trace has five entries: attempts 1 and
    2 are each recorded twice, attempt 3 once. *)
Theorem no_match_trace_has_five_entries (clienteId ep : string)
    (sp r1 r2 r3 : value) (s0 s1 s2 s3 : S) :
  lookup_target clienteId = Resolved (ep, sp) ->
  http_get ep sp (Some (WispHubClient.cache_clientes config)) s0
  = (Resolved r1, s1) ->
  http_get ep sp None s1 = (Resolved r2, s2) ->
  http_get ep sp None s2 = (Resolved r3, s3) ->
  first_match r1 = None ->
  first_match r2 = None ->
  first_match r3 = None ->
  exists (resp : ToolResponse) (trace : list value),
    obtenerCliente config clienteId s0 = (Resolved resp, s3) /\
    success resp = true /\
    data resp = VUndefined /\
    error resp = None /\
    prop (debugInfo resp) "noDataFound" = VBool true /\
    prop (debugInfo resp) "attempts" = VArr trace /\
    List.length trace = 5%nat /\
    map (fun entry => prop entry "attempt") trace
    = [VNum 1; VNum 1; VNum 2; VNum 2; VNum 3].
Proof.
  intros Ht H1 H2 H3 M1 M2 M3.
  unfold obtenerCliente, obtenerClienteWithRetry.
  change (attempt_numbers 3) with [1%Z; 2%Z; 3%Z].
  cbn [attempt_loop]. unfold bind at 1.
  rewrite (attempt_round_no_match clienteId 3 1 [] None ep sp r1 s0 s1 Ht H1 M1).
  cbn [Z.eqb Pos.eqb]. cbv zeta. unfold bind at 1.
  rewrite (attempt_round_no_match clienteId 3 2 _ None ep sp r2 s1 s2 Ht H2 M2).
  cbn [Z.eqb Pos.eqb]. cbv zeta. unfold bind at 1.
  rewrite (attempt_round_no_match clienteId 3 3 _ None ep sp r3 s2 s3 Ht H3 M3).
  cbn [Z.eqb Pos.eqb]. cbv zeta. unfold ret.
  eexists. eexists. split; [reflexivity|].
  repeat split.
Qed.

(** The lookup fails as soon as the last attempt is rejected, even when
    the earlier attempts resolved (without a match); the result still
    says [allAttemptsFailed]. *)
Lemma last_attempt_error_fails_the_lookup (clienteId ep : string)
    (sp r1 r2 : value) (e : Js.error) (s0 s1 s2 s3 : S) :
  lookup_target clienteId = Resolved (ep, sp) ->
  http_get ep sp (Some (WispHubClient.cache_clientes config)) s0
  = (Resolved r1, s1) ->
  http_get ep sp None s1 = (Resolved r2, s2) ->
  http_get ep sp None s2 = (Rejected e, s3) ->
  first_match r1 = None ->
  first_match r2 = None ->
  exists resp : ToolResponse,
    obtenerCliente config clienteId s0 = (Resolved resp, s3) /\
    success resp = false /\
    prop (debugInfo resp) "allAttemptsFailed" = VBool true.
Proof.
  intros Ht H1 H2 H3 M1 M2.
  unfold obtenerCliente, obtenerClienteWithRetry.
  change (attempt_numbers 3) with [1%Z; 2%Z; 3%Z].
  cbn [attempt_loop]. unfold bind at 1.
  rewrite (attempt_round_no_match clienteId 3 1 [] None ep sp r1 s0 s1 Ht H1 M1).
  cbn [Z.eqb Pos.eqb]. cbv zeta. unfold bind at 1.
  rewrite (attempt_round_no_match clienteId 3 2 _ None ep sp r2 s1 s2 Ht H2 M2).
  cbn [Z.eqb Pos.eqb]. cbv zeta. unfold bind at 1.
  rewrite (attempt_round_error clienteId 3 3 _ None ep sp e s2 s3 Ht H3).
  cbn [Z.eqb Pos.eqb]. cbv zeta. unfold ret.
  eexists. split; [reflexivity|]. split; reflexivity.
Qed.

End ObtenerProperties.

Lemma no_match_trace_has_five_entries_witness :
  exists (resp : ToolResponse) (trace : list value),
    ClienteService.obtenerCliente (RT := sample_runtime)
      (HC := Samples.no_match_client) WispHubClient.defaultConfig
      "nadie@example.com" Samples.fresh
    = (Resolved resp, Samples.after_lookup_3) /\
    success resp = true /\
    data resp = VUndefined /\
    error resp = None /\
    prop (debugInfo resp) "noDataFound" = VBool true /\
    prop (debugInfo resp) "attempts" = VArr trace /\
    List.length trace = 5%nat /\
    map (fun entry => prop entry "attempt") trace
    = [VNum 1; VNum 1; VNum 2; VNum 2; VNum 3].
Proof.
  apply (no_match_trace_has_five_entries (RT := sample_runtime)
           (HC := Samples.no_match_client) WispHubClient.defaultConfig
           "nadie@example.com" "/api/clientes/"
           (VObj [("email", VStr "nadie@example.com")])
           (VArr []) (VArr []) (VArr [])
           Samples.fresh Samples.after_lookup_1 Samples.after_lookup_2
           Samples.after_lookup_3).
  - reflexivity.
  - vm_compute. reflexivity.
  - vm_compute. reflexivity.
  - vm_compute. reflexivity.
  - reflexivity.
  - reflexivity.
  - reflexivity.
Defined.

(** ** Updating a client: write, re-read, compare *)

Section UpdateProperties.

Import ClienteService DataTransformer ActualizarClienteTool.

Context {RT : Runtime} {S : Type} {HC : HttpClient S}.

(** When the first candidate endpoint accepts the PUT, it is the one
    used. *)
Lemma try_endpoints_first (payload response : value) (last endpoint : string)
    (rest : list string) (s s' : S) :
  http_put endpoint payload s = (Resolved response, s') ->
  try_endpoints payload last (endpoint :: rest) s
  = (Resolved (response, endpoint), s').
Proof.
  intros H. simpl. unfold try_catch, bind. rewrite H. reflexivity.
Qed.

(** The result of an update whose PUT was accepted with a body and
    whose re-read yields a record that normalizes. *)
Lemma actualizarCliente_verified (params : ActualizarClienteInput)
    (response verifyResponse verified cliente : value)
    (usedEndpoint : string) (s0 s1 s2 : S) :
  (0 < id_servicio params)%Z ->
  apiData params <> [] ->
  try_endpoints (VObj (apiData params))
    (List.last (endpointsToTry (id_servicio params)) "")
    (endpointsToTry (id_servicio params)) s0
  = (Resolved (response, usedEndpoint), s1) ->
  truthy response = true ->
  http_get ("/api/clientes/" +:+ string_of_Z (id_servicio params) +:+ "/")
    VUndefined None s1 = (Resolved verifyResponse, s2) ->
  first_record VNull verifyResponse = verified ->
  truthy verified = true ->
  clienteToUserFriendly verified = Resolved cliente ->
  actualizarCliente params s0
  = (Resolved
       {| success := true;
          data := cliente;
          error := None;
          debugInfo := VObj [("method", VStr "PUT");
                             ("endpoint", VStr usedEndpoint);
                             ("sentToAPI", VObj (apiData params));
                             ("apiResponse", response);
                             ("verifiedCliente", verified);
                             ("transformedCliente", cliente)] |}, s2).
Proof.
  intros Hid Hfields Hput Hresp Hget Hrec Htruthy Hnorm.
  unfold actualizarCliente, try_catch.
  assert (isValidServicioId (id_servicio params) = true) as ->
    by (apply Z.ltb_lt; exact Hid).
  cbn [negb].
  assert (Nat.eqb (List.length (keys (apiData params))) 0 = false) as ->.
  { destruct (apiData params); [contradiction|reflexivity]. }
  cbv zeta. unfold bind at 1. rewrite Hput. cbn [fst snd].
  rewrite Hresp. cbn [negb].
  unfold bind at 1. unfold verify_cliente, try_catch, bind at 1.
  rewrite Hget. cbv zeta. rewrite Hrec, Htruthy.
  unfold bind, lift. rewrite Hnorm. reflexivity.
Qed.

(** The normalized notes are read from the record given, defaulting to
    the empty string. *)
Lemma clienteToUserFriendly_comentarios (raw cliente : value) :
  clienteToUserFriendly raw = Resolved cliente ->
  prop cliente "comentarios" = Js.or (prop raw "comentarios") (VStr "").
Proof.
  unfold clienteToUserFriendly.
  destruct raw; try discriminate;
    match goal with
    | |- context [match ?x with _ => _ end] => destruct x
    end; try discriminate; intros [= <-]; reflexivity.
Qed.

(** C2. For every client update whose PUT is accepted with a body by a
    candidate endpoint and whose re-read yields a record (one that
    normalizes), the result is a success, whatever was sent and
    whatever the re-read shows, and its data is the normalization of
    the re-read record: in particular the notes it carries are those of
    the re-read. *)
Theorem verified_update_returns_reread_state (params : ActualizarClienteInput)
    (response verifyResponse verified cliente : value)
    (usedEndpoint : string) (s0 s1 s2 : S) :
  (0 < id_servicio params)%Z ->
  apiData params <> [] ->
  try_endpoints (VObj (apiData params))
    (List.last (endpointsToTry (id_servicio params)) "")
    (endpointsToTry (id_servicio params)) s0
  = (Resolved (response, usedEndpoint), s1) ->
  truthy response = true ->
  http_get ("/api/clientes/" +:+ string_of_Z (id_servicio params) +:+ "/")
    VUndefined None s1 = (Resolved verifyResponse, s2) ->
  first_record VNull verifyResponse = verified ->
  truthy verified = true ->
  clienteToUserFriendly verified = Resolved cliente ->
  exists resp : ToolResponse,
    actualizarCliente params s0 = (Resolved resp, s2) /\
    success resp = true /\
    error resp = None /\
    data resp = cliente /\
    prop (data resp) "comentarios"
    = Js.or (prop verified "comentarios") (VStr "") /\
    prop (debugInfo resp) "verifiedCliente" = verified /\
    prop (debugInfo resp) "verificationFailed" = VUndefined.
Proof.
  intros Hid Hfields Hput Hresp Hget Hrec Htruthy Hnorm.
  eexists. split.
  - exact (actualizarCliente_verified params response verifyResponse verified
             cliente usedEndpoint s0 s1 s2
             Hid Hfields Hput Hresp Hget Hrec Htruthy Hnorm).
  - cbn [success error data debugInfo]. repeat split.
    exact (clienteToUserFriendly_comentarios verified cliente Hnorm).
Qed.

(** The per-field check over the debug payload of a verified update. *)
Lemma field_checks_verified (usedEndpoint : string)
    (sent : list (string * value)) (response verified cliente : value) :
  truthy verified = true ->
  field_checks (VObj [("method", VStr "PUT");
                      ("endpoint", VStr usedEndpoint);
                      ("sentToAPI", VObj sent);
                      ("apiResponse", response);
                      ("verifiedCliente", verified);
                      ("transformedCliente", cliente)])
  = map (fun kv =>
           {| field := fst kv;
              sentValue := snd kv;
              currentValue := prop verified (fst kv);
              matches := strict_eq (snd kv) (prop verified (fst kv)) |})
        sent.
Proof.
  intros Htruthy. unfold field_checks.
  change (prop_opt (VObj ?fs) ?k) with (prop (VObj fs) k).
  cbn [prop obj_lookup String.eqb Ascii.eqb Bool.eqb own_entries].
  rewrite Htruthy. reflexivity.
Qed.

Lemma clienteToUserFriendly_object (raw cliente : value) :
  clienteToUserFriendly raw = Resolved cliente ->
  exists fs, cliente = VObj fs.
Proof.
  unfold clienteToUserFriendly.
  destruct raw; try discriminate;
    match goal with
    | |- context [match ?x with _ => _ end] => destruct x
    end; try discriminate; intros [= <-]; eauto.
Qed.

(** Every check made shows as a line of the per-field section. *)
Lemma checks_are_printed (debugInfo : value) (c : FieldCheck) :
  In c (field_checks debugInfo) ->
  In ("- " +:+ render c) (verificacion_por_campo debugInfo).
Proof.
  intros Hin. unfold verificacion_por_campo, verifiedFields.
  destruct (field_checks debugInfo) as [|c0 cs]; [contradiction|].
  cbn [map]. right.
  destruct Hin as [<- | Hin]; [left; reflexivity|right].
  apply in_map_iff. exists (render c). split; [reflexivity|].
  apply in_map. exact Hin.
Qed.

(** The per-field section is part of the response whenever there is a
    debug payload. *)
Lemma per_field_section_in_response
    (clienteAnterior clienteActualizado : value)
    (cambios : ActualizarClienteInput) (debugInfo : value)
    (lines : list string) (l : string) :
  response_lines clienteAnterior clienteActualizado cambios debugInfo
  = Resolved lines ->
  truthy debugInfo = true ->
  In l (verificacion_por_campo debugInfo) ->
  In l lines.
Proof.
  unfold response_lines. intros Hlines Hdebug Hin.
  match type of Hlines with
  | (if ?b then _ else _) = _ => destruct b; [discriminate|]
  end.
  injection Hlines as <-.
  repeat match goal with
         | |- In _ (_ ++ _)%list => apply in_or_app; right
         | |- In _ (_ :: _) => right
         end.
  unfold debug_lines. rewrite Hdebug.
  repeat match goal with
         | |- In _ (verificacion_por_campo _ ++ _)%list => fail 1
         | |- In _ (_ ++ _)%list => apply in_or_app; right
         | |- In _ (_ :: _) => right
         end.
  apply in_or_app; left. exact Hin.
Qed.

(** C1. For every run of the actualizar_cliente tool whose first read
    finds the client, whose PUT is accepted with a body and whose
    re-read yields a record (one that normalizes): the debug payload of
    the update's result has six entries, among them the sent payload
    and the re-read record, and the tool's response compares these two
    field by field: one check per field of the payload, in order,
    holding the sent value, the value read back and whether the two are
    strictly equal, each printed as a line of the response. For an
    update of [{comentarios: "x"}] whose re-read shows other notes, the
    only check is the one of [comentarios], and its line reads
    NO COINCIDE. *)
Theorem verified_update_reports_each_sent_field
    (config : WispHubClient.ServerConfig)
    (params : ActualizarClienteInput) (pre : ToolResponse)
    (response verifyResponse verified cliente : value)
    (usedEndpoint : string) (s s0 s1 s2 : S) :
  obtenerCliente config (string_of_Z (id_servicio params)) s
  = (Resolved pre, s0) ->
  success pre = true ->
  truthy (data pre) = true ->
  (0 < id_servicio params)%Z ->
  apiData params <> [] ->
  try_endpoints (VObj (apiData params))
    (List.last (endpointsToTry (id_servicio params)) "")
    (endpointsToTry (id_servicio params)) s0
  = (Resolved (response, usedEndpoint), s1) ->
  truthy response = true ->
  http_get ("/api/clientes/" +:+ string_of_Z (id_servicio params) +:+ "/")
    VUndefined None s1 = (Resolved verifyResponse, s2) ->
  first_record VNull verifyResponse = verified ->
  truthy verified = true ->
  clienteToUserFriendly verified = Resolved cliente ->
  exists (resp : ToolResponse) (lines : list string),
    actualizarCliente params s0 = (Resolved resp, s2) /\
    keys (own_entries (debugInfo resp))
    = ["method"; "endpoint"; "sentToAPI"; "apiResponse"; "verifiedCliente";
       "transformedCliente"] /\
    prop (debugInfo resp) "sentToAPI" = VObj (apiData params) /\
    prop (debugInfo resp) "verifiedCliente" = verified /\
    field_checks (debugInfo resp)
    = map (fun kv =>
             {| field := fst kv;
                sentValue := snd kv;
                currentValue := prop verified (fst kv);
                matches := strict_eq (snd kv) (prop verified (fst kv)) |})
          (apiData params) /\
    response_lines (data pre) (data resp) params (debugInfo resp)
    = Resolved lines /\
    handler config params s
    = (Resolved
         (limitationWarning
            (List.filter (fun f => existsb (String.eqb f) contactFields)
                         (updateFields params))
          +:+ join "\n" lines), s2) /\
    (forall c : FieldCheck,
       In c (field_checks (debugInfo resp)) ->
       In ("- " +:+ render c) lines) /\
    (forall (k : string) (v : value),
       In (k, v) (apiData params) ->
       In ("- " +:+ k +:+ ": " +:+ to_string v +:+ " → " +:+
           to_string (prop verified k) +:+ " → " +:+
           (if strict_eq v (prop verified k)
            then "✅ COINCIDE" else "❌ NO COINCIDE")) lines) /\
    (forall x old : string,
       apiData params = [("comentarios", VStr x)] ->
       prop verified "comentarios" = VStr old ->
       old <> x ->
       map matches (field_checks (debugInfo resp)) = [false] /\
       In ("- comentarios: " +:+ x +:+ " → " +:+ old +:+ " → ❌ NO COINCIDE")
          lines).
Proof.
  intros Hpre Hfound Hdata Hid Hfields Hput Hresp Hget Hrec Htruthy Hnorm.
  pose proof (actualizarCliente_verified params response verifyResponse
                verified cliente usedEndpoint s0 s1 s2
                Hid Hfields Hput Hresp Hget Hrec Htruthy Hnorm) as Hrun.
  pose proof (field_checks_verified usedEndpoint (apiData params)
                response verified cliente Htruthy) as Hchecks.
  destruct (clienteToUserFriendly_object verified cliente Hnorm) as (fs & Hobj).
  set (debug := VObj [("method", VStr "PUT");
                      ("endpoint", VStr usedEndpoint);
                      ("sentToAPI", VObj (apiData params));
                      ("apiResponse", response);
                      ("verifiedCliente", verified);
                      ("transformedCliente", cliente)]) in *.
  assert (Hlines : exists lines,
            response_lines (data pre) cliente params debug = Resolved lines).
  { unfold response_lines. rewrite Hobj.
    destruct (data pre); try discriminate Hdata;
      rewrite ?andb_false_r; cbn [orb]; eauto. }
  destruct Hlines as (lines & Hlines).
  eexists. exists lines. split; [exact Hrun|].
  cbn [debugInfo data].
  split; [reflexivity|]. split; [reflexivity|]. split; [reflexivity|].
  split; [exact Hchecks|]. split; [exact Hlines|].
  assert (Hprinted : forall c, In c (field_checks debug) ->
                               In ("- " +:+ render c) lines).
  { intros c Hc.
    apply (per_field_section_in_response (data pre) cliente params debug
             lines _ Hlines eq_refl).
    apply checks_are_printed. exact Hc. }
  split; [|split; [exact Hprinted|split]].
  - unfold handler, try_catch.
    assert (Nat.eqb (List.length (updateFields params)) 0 = false) as ->.
    { unfold updateFields. destruct (apiData params); [contradiction|reflexivity]. }
    cbv zeta. unfold bind at 1. rewrite Hpre, Hfound, Hdata. cbn [negb orb].
    unfold bind at 1. rewrite Hrun. cbn [success negb data debugInfo].
    unfold bind, lift, formatClienteUpdateResponse. fold debug.
    rewrite Hlines. reflexivity.
  - intros k v Hin.
    apply (Hprinted {| field := k; sentValue := v;
                       currentValue := prop verified k;
                       matches := strict_eq v (prop verified k) |}).
    rewrite Hchecks. apply in_map_iff. exists (k, v).
    split; [reflexivity|exact Hin].
  - intros x old Hsent Hold Hne.
    assert (Hone : field_checks debug
                   = [ {| field := "comentarios";
                          sentValue := VStr x;
                          currentValue := VStr old;
                          matches := false |} ]).
    { rewrite Hchecks, Hsent. cbn [map fst snd]. rewrite Hold.
      assert (strict_eq (VStr x) (VStr old) = false) as ->
        by (simpl; apply String.eqb_neq; congruence).
      reflexivity. }
    split; [now rewrite Hone|].
    apply (Hprinted {| field := "comentarios"; sentValue := VStr x;
                       currentValue := VStr old; matches := false |}).
    rewrite Hone. left. reflexivity.
Qed.

End UpdateProperties.

Lemma verified_update_returns_reread_state_witness :
  exists resp : ToolResponse,
    ClienteService.actualizarCliente (RT := sample_runtime)
      (HC := Samples.ignoring_client) Samples.note_update
      Samples.after_first_read
    = (Resolved resp, Samples.after_reread) /\
    success resp = true /\
    error resp = None /\
    data resp = Samples.client_7_old /\
    prop (data resp) "comentarios"
    = Js.or (prop (Samples.client_7 "old") "comentarios") (VStr "") /\
    prop (debugInfo resp) "verifiedCliente" = Samples.client_7 "old" /\
    prop (debugInfo resp) "verificationFailed" = VUndefined.
Proof.
  apply (verified_update_returns_reread_state (RT := sample_runtime)
           (HC := Samples.ignoring_client) Samples.note_update
           (Samples.client_7 "x") (Samples.client_7 "old")
           (Samples.client_7 "old") Samples.client_7_old
           "/api/clientes/7/"
           Samples.after_first_read Samples.after_put Samples.after_reread).
  - simpl. lia.
  - discriminate.
  - vm_compute. reflexivity.
  - reflexivity.
  - vm_compute. reflexivity.
  - reflexivity.
  - reflexivity.
  - vm_compute. reflexivity.
Defined.

Lemma verified_update_reports_each_sent_field_witness :
  exists lines : list string,
    ActualizarClienteTool.handler (RT := sample_runtime)
      (HC := Samples.ignoring_client) WispHubClient.defaultConfig
      Samples.note_update Samples.fresh
    = (Resolved (join "\n" lines), Samples.after_reread) /\
    In "- comentarios: x → old → ❌ NO COINCIDE" lines.
Proof.
  destruct (verified_update_reports_each_sent_field (RT := sample_runtime)
              (HC := Samples.ignoring_client) WispHubClient.defaultConfig
              Samples.note_update Samples.first_read_result
              (Samples.client_7 "x") (Samples.client_7 "old")
              (Samples.client_7 "old") Samples.client_7_old
              "/api/clientes/7/"
              Samples.fresh Samples.after_first_read Samples.after_put
              Samples.after_reread)
    as (resp & lines & _ & _ & _ & _ & _ & _ & Hhandler & _ & _ & Hnotes).
  - vm_compute. reflexivity.
  - reflexivity.
  - reflexivity.
  - simpl. lia.
  - discriminate.
  - vm_compute. reflexivity.
  - reflexivity.
  - vm_compute. reflexivity.
  - reflexivity.
  - reflexivity.
  - vm_compute. reflexivity.
  - exists lines. split; [exact Hhandler|].
    apply (Hnotes "x" "old"); [reflexivity|reflexivity|discriminate].
Defined.

(** The update of [{comentarios: "x"}] of client 7 whose re-read shows
    the notes unchanged. The result of the service is a success whose
    data is the normalized re-read record and whose debug payload has
    six entries: the method, the endpoint, the payload sent, the answer
    to the PUT, the record read back and its normalization. No entry
    compares a sent value with the one read back, and nothing in the
    result marks [comentarios]; the two values are side by side, under
    [sentToAPI] and [verifiedCliente]. *)
Lemma update_result_holds_no_comparison :
  let run := ClienteService.actualizarCliente (RT := sample_runtime)
               (HC := Samples.ignoring_client) Samples.note_update
               Samples.after_first_read in
  fst run
  = Resolved
      {| success := true;
         data := Samples.client_7_old;
         error := None;
         debugInfo :=
           VObj [("method", VStr "PUT");
                 ("endpoint", VStr "/api/clientes/7/");
                 ("sentToAPI", VObj [("comentarios", VStr "x")]);
                 ("apiResponse", Samples.client_7 "x");
                 ("verifiedCliente", Samples.client_7 "old");
                 ("transformedCliente", Samples.client_7_old)] |} /\
  prop (Samples.client_7 "old") "comentarios" = VStr "old" /\
  prop Samples.client_7_old "comentarios" = VStr "old".
Proof.
  vm_compute. repeat split.
Qed.

(** ** Updating a ticket: the merged PUT payload *)

Lemma obj_lookup_app (k : string) (a b : list (string * value)) :
  obj_lookup k (a ++ b)%list
  = match obj_lookup k a with
    | Some v => Some v
    | None => obj_lookup k b
    end.
Proof.
  induction a as [|[k0 v0] a IH]; simpl; [reflexivity|].
  destruct (String.eqb k k0); [reflexivity|exact IH].
Qed.

(** In [{...a, ...b}] the last binding of a key in [b] wins over [a]. *)
Lemma obj_lookup_spread (k : string) (a b : list (string * value)) :
  obj_lookup k (obj_spread a b)
  = match obj_lookup k (rev b) with
    | Some v => Some v
    | None => obj_lookup k a
    end.
Proof.
  unfold obj_spread. revert a.
  induction b as [|[k0 v0] b IH]; intros a; simpl; [reflexivity|].
  rewrite IH, obj_lookup_app, obj_lookup_set. simpl.
  destruct (obj_lookup k (rev b)); [reflexivity|].
  destruct (String.eqb k k0); reflexivity.
Qed.

Section TicketProperties.

Import TicketService DataTransformer.

Context {RT : Runtime}.

(** Rewrites a lookup through the object updates. *)
Ltac through_updates :=
  repeat (rewrite ?obj_lookup_set, ?obj_lookup_delete;
          repeat match goal with
                 | H : String.eqb _ _ = false |- _ => rewrite H
                 end);
  try reflexivity.

Lemma fix_prioridad_other (k : string) (c : list (string * value)) :
  String.eqb k "prioridad" = false ->
  obj_lookup k (fix_prioridad c) = obj_lookup k c.
Proof.
  intros H. unfold fix_prioridad.
  repeat match goal with
         | |- context [if ?b then _ else _] => destruct b
         end; through_updates.
Qed.

Lemma fix_estado_other (k : string) (c : list (string * value)) :
  String.eqb k "estado" = false ->
  obj_lookup k (fix_estado c) = obj_lookup k c.
Proof.
  intros H. unfold fix_estado.
  destruct (typeof_string (prop (VObj c) "estado")); through_updates.
Qed.

Lemma fix_asunto_other (k : string) (c c' : list (string * value)) :
  fix_asunto c = Resolved c' ->
  String.eqb k "asuntos_default" = false ->
  String.eqb k "origen_reporte" = false ->
  obj_lookup k c' = obj_lookup k c.
Proof.
  unfold fix_asunto. intros Hc H1 H2.
  destruct (truthy (prop (VObj c) "asunto")).
  - destruct (getDefaultAsunto (prop (VObj c) "asunto")); [|discriminate].
    injection Hc as <-. through_updates.
  - injection Hc as <-. through_updates.
Qed.

Lemma drop_empty_tecnico_other (k : string) (c c' : list (string * value)) :
  drop_empty_tecnico c = Resolved c' ->
  String.eqb k "tecnico" = false ->
  String.eqb k "email_tecnico" = false ->
  obj_lookup k c' = obj_lookup k c.
Proof.
  unfold drop_empty_tecnico. intros Hc H1 H2.
  destruct (negb (truthy (prop (VObj c) "tecnico"))).
  - injection Hc as <-. through_updates.
  - destruct (prop (VObj c) "tecnico"); try discriminate.
    destruct (String.eqb (trim s) ""); injection Hc as <-; through_updates.
Qed.

Lemma append_notas_other (k : string) (updates : Updates)
    (c : list (string * value)) :
  String.eqb k "descripcion" = false ->
  obj_lookup k (append_notas updates c) = obj_lookup k c.
Proof.
  intros H. unfold append_notas.
  destruct (provided (notas updates)); through_updates.
Qed.

Lemma append_notas_descripcion (updates : Updates) (n : string)
    (c : list (string * value)) :
  provided (notas updates) = Some n ->
  obj_lookup "descripcion" (append_notas updates c)
  = Some (VStr (to_string (Js.or (prop (VObj c) "descripcion") (VStr ""))
                +:+ notes_marker +:+ trim n)).
Proof.
  intros H. unfold append_notas. rewrite H. through_updates.
Qed.

Lemma stamp_dates_other (k : string) (updates : Updates)
    (c : list (string * value)) :
  String.eqb k "fecha_inicio" = false ->
  String.eqb k "fecha_fin" = false ->
  String.eqb k "finalizado_por" = false ->
  obj_lookup k (stamp_dates updates c) = obj_lookup k c.
Proof.
  intros H1 H2 H3. unfold stamp_dates.
  destruct (provided (estado updates)); [|reflexivity].
  repeat match goal with
         | |- context [if ?b then _ else _] => destruct b
         end; through_updates.
Qed.

Lemma stamp_dates_closing (updates : Updates) (e : string)
    (c : list (string * value)) :
  provided (estado updates) = Some e ->
  e = "resuelto" \/ e = "cerrado" ->
  obj_lookup "fecha_fin" (stamp_dates updates c)
  = Some (VStr wisphubDateFormat).
Proof.
  intros He Hclosing. unfold stamp_dates. rewrite He.
  destruct Hclosing as [-> | ->]; cbn [String.eqb Ascii.eqb Bool.eqb orb];
    match goal with
    | |- context [if ?b then _ else _] => destruct b
    end; through_updates.
Qed.

Lemma strip_lookup (k : string) (c : list (string * value)) :
  obj_lookup k (strip c)
  = if existsb (String.eqb k) stripped_fields then None else obj_lookup k c.
Proof. apply obj_lookup_delete_all. Qed.

(** The requested changes bind nothing but [estado], [razon_falla],
    [prioridad], [tecnico] and [email_tecnico]. *)
Lemma apiData_other (k : string) (updates : Updates) :
  String.eqb k "estado" = false ->
  String.eqb k "razon_falla" = false ->
  String.eqb k "prioridad" = false ->
  String.eqb k "tecnico" = false ->
  String.eqb k "email_tecnico" = false ->
  obj_lookup k (rev (apiData updates)) = None.
Proof.
  intros H1 H2 H3 H4 H5. unfold apiData.
  destruct (provided (estado updates)); destruct (provided (prioridad updates));
    destruct (provided (tecnico updates));
    repeat match goal with
           | |- context [if ?b then _ else _] => destruct b
           end;
    cbn; rewrite ?H1, ?H2, ?H3, ?H4, ?H5; reflexivity.
Qed.

(** A closing estado brings the reason code [Otro]. *)
Lemma apiData_razon_falla (updates : Updates) (e : string) :
  provided (estado updates) = Some e ->
  e = "resuelto" \/ e = "cerrado" ->
  obj_lookup "razon_falla" (rev (apiData updates)) = Some (VStr "Otro").
Proof.
  intros He Hclosing. unfold apiData. rewrite He.
  destruct Hclosing as [-> | ->]; simpl;
    destruct (provided (prioridad updates));
    destruct (provided (tecnico updates));
    repeat match goal with
           | |- context [if ?b then _ else _] => destruct b
           end;
    reflexivity.
Qed.

(** The object that [putData] builds for an update that sets [estado]
    to [resuelto] or [cerrado]: it holds a [fecha_fin] that is the
    non-empty closure timestamp and the reason code
    [razon_falla = 'Otro'], neither of which the caller can supply; it
    holds none of [tickets_mensual], [tickets_anual], [vencimiento],
    [archivo_ticket], [respuestas]; and notes given by the caller end
    the [descripcion], after the current description and a timestamped
    marker, while the [notas] binding is left as the current record has
    it. *)
Theorem closing_update_payload (ticketId : Z) (updates : Updates)
    (e : string) (completeTicketData : value) (p : list (string * value)) :
  provided (estado updates) = Some e ->
  e = "resuelto" \/ e = "cerrado" ->
  putData ticketId updates completeTicketData = Resolved (VObj p) ->
  (obj_lookup "fecha_fin" p = Some (VStr wisphubDateFormat) /\
   wisphubDateFormat <> "") /\
  (exists razon, obj_lookup "razon_falla" p = Some (VStr razon) /\
                 razon = "Otro" /\ razon <> "") /\
  Forall (fun k => obj_lookup k p = None) stripped_fields /\
  obj_lookup "id_ticket" p = Some (VNum ticketId) /\
  (forall n : string,
     provided (notas updates) = Some n ->
     obj_lookup "descripcion" p
     = Some (VStr (to_string
                     (Js.or (prop (VObj (own_entries completeTicketData))
                                  "descripcion") (VStr ""))
                   +:+ notes_marker +:+ trim n)) /\
     obj_lookup "notas" p
     = obj_lookup "notas" (own_entries completeTicketData)).
Proof.
  intros He Hclosing Hput.
  unfold putData, cleanedCurrentData in Hput.
  destruct (fix_asunto (fix_estado (fix_prioridad
              (own_entries completeTicketData)))) as [c|] eqn:Hasunto;
    [|discriminate].
  destruct (drop_empty_tecnico c) as [c'|] eqn:Htecnico; [|discriminate].
  injection Hput as <-.
  (* a key that no step before the notes touches reads as in the copy *)
  assert (Hcopy : forall k,
            String.eqb k "prioridad" = false ->
            String.eqb k "estado" = false ->
            String.eqb k "asuntos_default" = false ->
            String.eqb k "origen_reporte" = false ->
            String.eqb k "tecnico" = false ->
            String.eqb k "email_tecnico" = false ->
            obj_lookup k c' = obj_lookup k (own_entries completeTicketData)).
  { intros k H1 H2 H3 H4 H5 H6.
    rewrite (drop_empty_tecnico_other k c c' Htecnico H5 H6).
    rewrite (fix_asunto_other k _ c Hasunto H3 H4).
    rewrite (fix_estado_other k _ H2).
    exact (fix_prioridad_other k _ H1). }
  repeat split.
  - rewrite obj_lookup_set. cbn [String.eqb Ascii.eqb Bool.eqb].
    rewrite obj_lookup_spread, apiData_other by reflexivity.
    rewrite strip_lookup. cbn [existsb stripped_fields String.eqb Ascii.eqb
                                 Bool.eqb orb].
    exact (stamp_dates_closing updates e _ He Hclosing).
  - apply append_space_nonempty.
  - exists "Otro". repeat split; [|discriminate].
    rewrite obj_lookup_set. cbn [String.eqb Ascii.eqb Bool.eqb].
    rewrite obj_lookup_spread.
    now rewrite (apiData_razon_falla updates e He Hclosing).
  - unfold stripped_fields.
    repeat constructor;
      rewrite obj_lookup_set; cbn [String.eqb Ascii.eqb Bool.eqb];
      rewrite obj_lookup_spread, apiData_other by reflexivity;
      rewrite strip_lookup; reflexivity.
  - rewrite obj_lookup_set. reflexivity.
  - rewrite obj_lookup_set. cbn [String.eqb Ascii.eqb Bool.eqb].
    rewrite obj_lookup_spread, apiData_other by reflexivity.
    rewrite strip_lookup. cbn [existsb stripped_fields String.eqb Ascii.eqb
                                 Bool.eqb orb].
    rewrite stamp_dates_other by reflexivity.
    rewrite (append_notas_descripcion updates n c' H).
    rewrite !prop_obj, (Hcopy "descripcion") by reflexivity. reflexivity.
  - rewrite obj_lookup_set. cbn [String.eqb Ascii.eqb Bool.eqb].
    rewrite obj_lookup_spread, apiData_other by reflexivity.
    rewrite strip_lookup. cbn [existsb stripped_fields String.eqb Ascii.eqb
                                 Bool.eqb orb].
    rewrite stamp_dates_other, append_notas_other by reflexivity.
    apply Hcopy; reflexivity.
Qed.

(** The payload is built whenever the subject and the technician of the
    current record are strings or absent. *)
Lemma putData_resolves (ticketId : Z) (updates : Updates)
    (completeTicketData : value) :
  let c := own_entries completeTicketData in
  (obj_lookup "asunto" c = None \/ exists a, obj_lookup "asunto" c = Some (VStr a)) ->
  (obj_lookup "tecnico" c = None \/ exists t, obj_lookup "tecnico" c = Some (VStr t)) ->
  exists p, putData ticketId updates completeTicketData = Resolved (VObj p).
Proof.
  intros c Hasunto Htecnico.
  unfold putData, cleanedCurrentData. fold c.
  assert (Ha : obj_lookup "asunto" (fix_estado (fix_prioridad c))
               = obj_lookup "asunto" c).
  { rewrite fix_estado_other, fix_prioridad_other by reflexivity. reflexivity. }
  assert (Hc : exists c1, fix_asunto (fix_estado (fix_prioridad c)) = Resolved c1
                 /\ obj_lookup "tecnico" c1 = obj_lookup "tecnico" c).
  { unfold fix_asunto. rewrite !prop_obj, Ha.
    destruct Hasunto as [-> | (a & ->)].
    - simpl truthy. cbv iota. eexists. split; [reflexivity|].
      rewrite obj_lookup_set. cbn [String.eqb Ascii.eqb Bool.eqb].
      rewrite fix_estado_other, fix_prioridad_other by reflexivity. reflexivity.
    - destruct (truthy (VStr a)); simpl getDefaultAsunto; cbv iota;
        eexists; (split; [reflexivity|]);
        rewrite ?obj_lookup_set; cbn [String.eqb Ascii.eqb Bool.eqb];
        rewrite fix_estado_other, fix_prioridad_other by reflexivity;
        reflexivity. }
  destruct Hc as (c1 & -> & Ht).
  assert (Hd : exists c2, drop_empty_tecnico c1 = Resolved c2).
  { unfold drop_empty_tecnico. rewrite !prop_obj, Ht.
    destruct Htecnico as [-> | (t & ->)].
    - simpl. eauto.
    - destruct (negb (truthy (VStr t))); [eauto|].
      destruct (String.eqb (trim t) ""); eauto. }
  destruct Hd as (c2 & ->). eauto.
Qed.

End TicketProperties.

Lemma closing_update_payload_witness :
  TicketService.putData (RT := sample_runtime) 15 Samples.resolve_with_note
    Samples.ticket_15 = Resolved (VObj Samples.resolve_payload) /\
  obj_lookup "fecha_fin" Samples.resolve_payload
  = Some (VStr "27/06/2025 06:00:00") /\
  obj_lookup "razon_falla" Samples.resolve_payload = Some (VStr "Otro") /\
  Forall (fun k => obj_lookup k Samples.resolve_payload = None)
         TicketService.stripped_fields /\
  obj_lookup "descripcion" Samples.resolve_payload
  = Some (VStr ("No navega" +:+
                TicketService.notes_marker (RT := sample_runtime) +:+
                "Se cambia el conector")) /\
  obj_lookup "notas" Samples.resolve_payload = None.
Proof.
  assert (Hput : TicketService.putData (RT := sample_runtime) 15
                   Samples.resolve_with_note Samples.ticket_15
                 = Resolved (VObj Samples.resolve_payload))
    by (vm_compute; reflexivity).
  destruct (closing_update_payload (RT := sample_runtime) 15
              Samples.resolve_with_note "resuelto" Samples.ticket_15
              Samples.resolve_payload eq_refl (or_introl eq_refl) Hput)
    as ((Hfin & _) & (razon & Hrazon & -> & _) & Hstripped & _ & Hnotes).
  destruct (Hnotes " Se cambia el conector " eq_refl) as (Hdesc & Hnotas).
  repeat split; assumption.
Defined.

(** ** Updating a ticket: what is sent *)

Section TicketSendProperties.

Import TicketService.

Context {RT : Runtime} {S : Type} {HC : HttpClient S}.

(** Every successful ticket update has read the current record, built
    [putData] from it, passed exactly that object to the PUT, and
    reports it as [sentToAPI]. *)
Lemma actualizarTicket_sends_putData (ticketId : Z) (updates : Updates)
    (resp : ToolResponse) (s0 s' : S) :
  actualizarTicket ticketId updates s0 = (Resolved resp, s') ->
  success resp = true ->
  let endpoint := "/api/tickets/" +:+ string_of_Z ticketId +:+ "/" in
  exists (currentTicket payload response : value) (s1 s2 : S),
    http_get endpoint VUndefined None s0 = (Resolved currentTicket, s1) /\
    truthy (first_record VUndefined currentTicket) = true /\
    putData ticketId updates (first_record VUndefined currentTicket)
    = Resolved payload /\
    http_put endpoint payload s1 = (Resolved response, s2) /\
    prop (debugInfo resp) "sentToAPI" = payload.
Proof.
  intros Hrun Hok endpoint.
  unfold actualizarTicket, try_catch in Hrun. fold endpoint in Hrun.
  unfold bind at 1 in Hrun.
  destruct (http_get endpoint VUndefined None s0) as [[currentTicket|e] s1]
    eqn:Hget.
  2:{ injection Hrun as <- <-. discriminate. }
  destruct (truthy (first_record VUndefined currentTicket)) eqn:Hdata;
    cbn [negb] in Hrun.
  2:{ unfold throw in Hrun. injection Hrun as <- <-. discriminate. }
  unfold bind at 1, lift in Hrun.
  destruct (putData ticketId updates (first_record VUndefined currentTicket))
    as [payload|e] eqn:Hpayload.
  2:{ injection Hrun as <- <-. discriminate. }
  unfold bind at 1 in Hrun.
  destruct (http_put endpoint payload s1) as [[response|e] s2] eqn:Hput.
  2:{ injection Hrun as <- <-. discriminate. }
  unfold bind at 1 in Hrun.
  destruct (ticket_of_response response) as [ticket|e].
  2:{ injection Hrun as <- <-. discriminate. }
  destruct (truthy ticket); cbn [negb] in Hrun.
  2:{ unfold throw in Hrun. injection Hrun as <- <-. discriminate. }
  unfold bind in Hrun.
  destruct (verify_ticket endpoint ticket s2) as [[verified|e] s3].
  2:{ injection Hrun as <- <-. discriminate. }
  unfold ret in Hrun. injection Hrun as <- <-.
  exists currentTicket, payload, response, s1, s2.
  repeat split; assumption.
Qed.

End TicketSendProperties.

(** ** Updating a client: the other endings *)

Section UpdateFallbacks.

Import ClienteService DataTransformer.

Context {RT : Runtime} {S : Type} {HC : HttpClient S}.

(** A PUT that is accepted without a body fails the update; nothing is
    re-read. *)
Lemma update_without_response_body_fails (params : ActualizarClienteInput)
    (response : value) (usedEndpoint : string) (s0 s1 : S) :
  (0 < id_servicio params)%Z ->
  apiData params <> [] ->
  try_endpoints (VObj (apiData params))
    (List.last (endpointsToTry (id_servicio params)) "")
    (endpointsToTry (id_servicio params)) s0
  = (Resolved (response, usedEndpoint), s1) ->
  truthy response = false ->
  actualizarCliente params s0
  = (Resolved
       {| success := false;
          data := VUndefined;
          error := Some ("Error actualizando cliente: "
                         +:+ "La API no devolvió datos del cliente actualizado");
          debugInfo := VUndefined |}, s1).
Proof.
  intros Hid Hfields Hput Hresp.
  unfold actualizarCliente, try_catch.
  assert (isValidServicioId (id_servicio params) = true) as ->
    by (apply Z.ltb_lt; exact Hid).
  cbn [negb].
  assert (Nat.eqb (List.length (keys (apiData params))) 0 = false) as ->.
  { destruct (apiData params); [contradiction|reflexivity]. }
  cbv zeta. unfold bind at 1. rewrite Hput. cbn [fst snd].
  rewrite Hresp. reflexivity.
Qed.

(** When the re-read is rejected, or resolves without a record, the
    update is still a success: its data is the normalized PUT response
    and the debug payload says [verificationFailed]. *)
Lemma update_without_verification_falls_back (params : ActualizarClienteInput)
    (response cliente : value) (reread : completion value)
    (usedEndpoint : string) (s0 s1 s2 : S) :
  (0 < id_servicio params)%Z ->
  apiData params <> [] ->
  try_endpoints (VObj (apiData params))
    (List.last (endpointsToTry (id_servicio params)) "")
    (endpointsToTry (id_servicio params)) s0
  = (Resolved (response, usedEndpoint), s1) ->
  truthy response = true ->
  http_get ("/api/clientes/" +:+ string_of_Z (id_servicio params) +:+ "/")
    VUndefined None s1 = (reread, s2) ->
  match reread with
  | Resolved verifyResponse => truthy (first_record VNull verifyResponse) = false
  | Rejected _ => True
  end ->
  clienteToUserFriendly response = Resolved cliente ->
  exists resp : ToolResponse,
    actualizarCliente params s0 = (Resolved resp, s2) /\
    success resp = true /\
    data resp = cliente /\
    prop (debugInfo resp) "verifiedCliente" = VNull /\
    prop (debugInfo resp) "verificationFailed" = VBool true.
Proof.
  intros Hid Hfields Hput Hresp Hget Hnone Hnorm.
  unfold actualizarCliente, try_catch.
  assert (isValidServicioId (id_servicio params) = true) as ->
    by (apply Z.ltb_lt; exact Hid).
  cbn [negb].
  assert (Nat.eqb (List.length (keys (apiData params))) 0 = false) as ->.
  { destruct (apiData params); [contradiction|reflexivity]. }
  cbv zeta. unfold bind at 1. rewrite Hput. cbn [fst snd].
  rewrite Hresp. cbn [negb].
  unfold bind at 1. unfold verify_cliente, try_catch, bind at 1.
  rewrite Hget.
  destruct reread as [verifyResponse|e].
  - cbv zeta. rewrite Hnone. unfold ret at 1.
    unfold bind, lift. rewrite Hnorm. unfold ret.
    eexists. split; [reflexivity|]. repeat split.
  - unfold ret at 1. unfold bind, lift. rewrite Hnorm. unfold ret.
    eexists. split; [reflexivity|]. repeat split.
Qed.

End UpdateFallbacks.

(** Resolving ticket 15 over the real client: a GET of the current
    record, a PUT whose body is the merged payload, and the re-read. *)
Lemma resolve_update_on_the_wire :
  let r := TicketService.actualizarTicket (RT := sample_runtime)
             (HC := Samples.ticket_client) 15 Samples.resolve_with_note
             Samples.fresh in
  map (fun c => (WispHubClient.method c, WispHubClient.url c,
                 WispHubClient.body c))
      (WispHubClient.sent (fst (snd r)))
  = [("GET", "/api/tickets/15/", VUndefined);
     ("PUT", "/api/tickets/15/", VObj Samples.resolve_payload);
     ("GET", "/api/tickets/15/", VUndefined)] /\
  exists resp : ToolResponse, fst r = Resolved resp /\ success resp = true.
Proof.
  vm_compute. split; [reflexivity|].
  eexists. split; reflexivity.
Qed.

(* ================================================================== *)
(** * Further properties of the cache *)
(* ================================================================== *)

Section CacheMaintenance.

Import CacheManager.

(** The entries that [cleanup] keeps and the ones it removes share no
    key and make up the map. *)
Lemma size_kept_and_expired (now : Z) (m : gmap string CacheEntry) :
  (base.size (filter (fun kv => (now <= expires (snd kv))%Z) m)
   + base.size (filter (fun kv => (expires (snd kv) < now)%Z) m))%nat
  = base.size m.
Proof.
  rewrite <- (map_filter_union_complement
                (fun kv => (now <= expires (snd kv))%Z) m) at 3.
  rewrite map_size_disj_union by apply map_disjoint_filter_complement.
  f_equal. f_equal. apply map_filter_ext. intros k e _. simpl. lia.
Qed.

(** X1. [cleanup] at time [now] removes exactly the entries whose
    expiry instant lies strictly before [now]; it returns their number
    and adds it to the [deletes] counter, leaving the other counters
    as they were. *)
Theorem cleanup_purges_exactly_the_expired (now : Z) (c : CacheManager.t) :
  let n := fst (cleanup now c) in
  let c' := snd (cleanup now c) in
  (forall key entry,
     cache c' !! key = Some entry <->
     cache c !! key = Some entry /\ (now <= expires entry)%Z) /\
  n = Z.of_nat
        (base.size (filter (fun kv => (expires (snd kv) < now)%Z) (cache c))) /\
  Z.of_nat (CacheManager.size c') = (Z.of_nat (CacheManager.size c) - n)%Z /\
  deletes (stats c') = (deletes (stats c) + n)%Z /\
  hits (stats c') = hits (stats c) /\
  misses (stats c') = misses (stats c) /\
  sets (stats c') = sets (stats c) /\
  clears (stats c') = clears (stats c).
Proof.
  intros n c'. unfold n, c', cleanup, CacheManager.size; simpl.
  pose proof (size_kept_and_expired now (cache c)) as Hsz.
  split; [|repeat split; lia].
  intros key entry. rewrite map_lookup_filter_Some. simpl. tauto.
Qed.

(** X2. [delete(key)] answers whether the key was present; afterwards
    the key is absent, so that a read of it is a miss answering [null],
    every other key is as before, and [deletes] grew by one exactly
    when the key was present. *)
Theorem delete_forgets_one_key (key : string) (now : Z) (c : CacheManager.t) :
  let deleted := fst (CacheManager.delete key c) in
  let c' := snd (CacheManager.delete key c) in
  (deleted = true <-> exists entry, cache c !! key = Some entry) /\
  cache c' !! key = None /\
  (forall key', key' <> key -> cache c' !! key' = cache c !! key') /\
  fst (CacheManager.get key now c') = VNull /\
  deletes (stats c') = (deletes (stats c) + (if deleted then 1 else 0))%Z.
Proof.
  intros deleted c'. unfold deleted, c', CacheManager.delete.
  destruct (cache c !! key) as [entry|] eqn:Hk; simpl.
  - split; [split; [eauto|reflexivity]|].
    split; [apply lookup_delete_eq|].
    split; [intros key' Hne; apply lookup_delete_ne; congruence|].
    split; [|reflexivity].
    unfold CacheManager.get; simpl. now rewrite lookup_delete_eq.
  - split; [split; [discriminate|intros [e He]; discriminate]|].
    split; [exact Hk|]. split; [reflexivity|]. split; [|lia].
    unfold CacheManager.get. now rewrite Hk.
Qed.

(** X3. A later [set] of the same key replaces value and expiry: the
    entry is served until the new expiry instant, whatever the old one
    was. A [set] never changes what the other keys hold, and [clear]
    leaves no key behind. *)
Theorem set_overwrites_one_key (key : string) (v1 v2 : value)
    (ttl1 ttl2 t1 t2 now : Z) (c : CacheManager.t) :
  let c2 := CacheManager.set key v2 ttl2 t2
              (CacheManager.set key v1 ttl1 t1 c) in
  cache c2 !! key = Some (mkEntry v2 (t2 + ttl2)) /\
  ((now <= t2 + ttl2)%Z -> fst (CacheManager.get key now c2) = v2) /\
  (forall key', key' <> key ->
     cache c2 !! key' = cache c !! key' /\
     fst (CacheManager.get key' now c2) = fst (CacheManager.get key' now c)) /\
  (forall key', fst (CacheManager.get key' now (clear c2)) = VNull) /\
  CacheManager.size (clear c2) = 0%nat.
Proof.
  intros c2.
  assert (Hk : cache c2 !! key = Some (mkEntry v2 (t2 + ttl2))).
  { unfold c2, CacheManager.set; simpl. apply lookup_insert_eq. }
  split; [exact Hk|]. split.
  { intros Hle. now rewrite (get_present_unexpired _ _ _ _ Hk). }
  split.
  { intros key' Hne.
    assert (Hk' : cache c2 !! key' = cache c !! key').
    { unfold c2, CacheManager.set; simpl.
      rewrite !lookup_insert_ne by congruence. reflexivity. }
    split; [exact Hk'|]. unfold CacheManager.get. rewrite Hk'.
    destruct (cache c !! key') as [e|]; [|reflexivity].
    destruct (expires e <? now)%Z; reflexivity. }
  split; [|reflexivity].
  intros key'. unfold CacheManager.get, clear; simpl.
  now rewrite lookup_empty.
Qed.

Lemma set_overwrites_one_key_witness :
  fst (CacheManager.get "k" 150
         (CacheManager.set "k" (VNum 2) 100 60
            (CacheManager.set "k" (VNum 1) 10 0 CacheManager.new)))
  = VNum 2.
Proof.
  apply (proj1 (proj2 (set_overwrites_one_key "k" (VNum 1) (VNum 2)
                         10 100 0 60 150 CacheManager.new))).
  lia.
Defined.

(** The counters and the size after one call. *)
Lemma after_counts (c : CacheManager.t) (k : call) :
  let c' := after c k in
  (hits (stats c') + misses (stats c')
   = hits (stats c) + misses (stats c) + (if is_get k then 1 else 0))%Z /\
  sets (stats c') = (sets (stats c) + (if is_set k then 1 else 0))%Z /\
  clears (stats c') = (clears (stats c) + (if is_clear k then 1 else 0))%Z /\
  (Z.of_nat (CacheManager.size c) + deletes (stats c) <= sets (stats c) ->
   Z.of_nat (CacheManager.size c') + deletes (stats c') <= sets (stats c'))%Z /\
  (0 <= deletes (stats c) -> 0 <= deletes (stats c'))%Z.
Proof.
  destruct k as [key v ttl now|key now|key| |now]; simpl.
  - unfold CacheManager.set, CacheManager.size; simpl.
    repeat split; try lia.
    pose proof (map_size_insert key (mkEntry v (now + ttl)) (cache c)) as Hs.
    destruct (cache c !! key); unfold id in Hs; lia.
  - unfold CacheManager.get, CacheManager.size.
    destruct (cache c !! key) as [e|] eqn:Hk; simpl.
    + destruct (expires e <? now)%Z; simpl; repeat split; try lia.
      pose proof (map_size_delete key (cache c)) as Hs. rewrite Hk in Hs.
      assert (base.size (cache c) <> 0%nat).
      { intros H0. apply map_size_empty_inv in H0. rewrite H0 in Hk.
        now rewrite lookup_empty in Hk. }
      lia.
    + repeat split; lia.
  - unfold CacheManager.delete, CacheManager.size.
    destruct (cache c !! key) as [e|] eqn:Hk; simpl.
    + repeat split; try lia.
      pose proof (map_size_delete key (cache c)) as Hs. rewrite Hk in Hs.
      assert (base.size (cache c) <> 0%nat).
      { intros H0. apply map_size_empty_inv in H0. rewrite H0 in Hk.
        now rewrite lookup_empty in Hk. }
      lia.
    + repeat split; lia.
  - unfold clear, CacheManager.size; simpl. rewrite map_size_empty.
    repeat split; try lia.
  - unfold cleanup, CacheManager.size; simpl.
    pose proof (size_kept_and_expired now (cache c)) as Hs.
    repeat split; lia.
Qed.

(** X4. Whatever calls a cache has served since it was created, its
    counters account for them: [hits + misses] is the number of reads,
    [sets] the number of writes, [clears] the number of clears, and the
    entries still held together with the deletions counted never
    exceed the number of writes. *)
Theorem cache_counters_account_for_every_call (calls : list call) :
  let c := history calls in
  (hits (stats c) + misses (stats c)
   = Z.of_nat (List.length (List.filter is_get calls)))%Z /\
  sets (stats c) = Z.of_nat (List.length (List.filter is_set calls)) /\
  clears (stats c) = Z.of_nat (List.length (List.filter is_clear calls)) /\
  (Z.of_nat (CacheManager.size c) + deletes (stats c) <= sets (stats c))%Z /\
  (0 <= deletes (stats c))%Z.
Proof.
  unfold history.
  induction calls as [|k calls IH] using rev_ind.
  - simpl. unfold CacheManager.size; simpl. rewrite map_size_empty.
    repeat split; lia.
  - rewrite fold_left_app; simpl.
    rewrite !List.filter_app, !length_app; simpl.
    destruct IH as (Hg & Hs & Hc & Hsz & Hd).
    pose proof (after_counts (fold_left after calls new) k)
      as (Hg' & Hs' & Hc' & Hsz' & Hd').
    destruct k; simpl in *; repeat split; lia.
Qed.

End CacheMaintenance.

Lemma cleanup_purges_exactly_the_expired_witness :
  let c := CacheManager.set "b" (VNum 2) 20 0
             (CacheManager.set "a" (VNum 1) 10 0 CacheManager.new) in
  fst (CacheManager.cleanup 15 c) = 1%Z /\
  CacheManager.cache (snd (CacheManager.cleanup 15 c)) !! "b"
  = Some (CacheManager.mkEntry (VNum 2) 20).
Proof.
  intros c.
  destruct (cleanup_purges_exactly_the_expired 15 c) as (Hkept & Hn & _).
  split.
  - rewrite Hn. vm_compute. reflexivity.
  - apply Hkept. split; [vm_compute; reflexivity|simpl; lia].
Defined.

Lemma delete_forgets_one_key_witness :
  let c := CacheManager.set "b" (VNum 2) 20 0
             (CacheManager.set "a" (VNum 1) 10 0 CacheManager.new) in
  fst (CacheManager.delete "a" c) = true /\
  CacheManager.cache (snd (CacheManager.delete "a" c)) !! "b"
  = CacheManager.cache c !! "b".
Proof.
  intros c.
  destruct (delete_forgets_one_key "a" 0 c) as (Hdel & _ & Hother & _).
  split.
  - apply Hdel. eexists. vm_compute. reflexivity.
  - apply Hother. discriminate.
Defined.

(* ================================================================== *)
(** * Further properties of the access layer *)
(* ================================================================== *)

Section AccessLayer.

Import WispHubClient.

Context {RT : Runtime}.
Variable config : ServerConfig.
Variable transport : nat -> attempt.

(** What a run of [http] leaves behind: the cache as it was, and the
    request itself as the next recorded attempt, followed by its
    re-issue at most. *)
Lemma http_trace (fuel : nat) (cfg : RequestConfig) (st st' : WispHubClient.t)
    (r : completion AxiosResponse) :
  http config transport fuel cfg st = Some (r, st') ->
  WispHubClient.cache st' = WispHubClient.cache st /\
  (sent st' = (sent st ++ [cfg])%list \/
   sent st' = (sent st ++ [cfg; retried cfg])%list).
Proof.
  destruct fuel as [|fuel]; [discriminate|]. rewrite http_step.
  destruct (transport (List.length (sent st))) as [r0|e].
  { intros [= <- <-]. simpl. auto. }
  destruct (negb (_retry cfg) && shouldRetry e)%bool.
  2:{ intros [= <- <-]. simpl. auto. }
  destruct (retryCount (retried cfg) <=? retryAttempts config)%Z.
  2:{ intros [= <- <-]. simpl. auto. }
  destruct fuel as [|fuel]; [discriminate|].
  rewrite http_flagged by reflexivity.
  match goal with |- context [match ?x with _ => _ end] => destruct x end;
    intros [= <- <-]; simpl; rewrite <- app_assoc; simpl; auto.
Qed.

Lemma send_trace (cfg : RequestConfig) (st : WispHubClient.t) :
  WispHubClient.cache (snd (send config transport cfg st))
  = WispHubClient.cache st /\
  nth_error (sent (snd (send config transport cfg st)))
            (List.length (sent st)) = Some cfg.
Proof.
  unfold send.
  destruct (http_total config transport cfg st) as (r & st' & H). rewrite H.
  apply http_trace in H. destruct H as [Hc Hs].
  assert (Hn : nth_error (sent st') (List.length (sent st)) = Some cfg).
  { destruct Hs as [-> | ->];
      rewrite nth_error_app2 by lia; rewrite Nat.sub_diag; reflexivity. }
  destruct r; simpl; split; assumption.
Qed.

(** A [get] without a positive [cacheTtl] is the plain request. *)
Lemma get_uncached (endpoint : string) (p : value) (ttl : option Z)
    (now later : Z) (st : WispHubClient.t) :
  caching ttl = false ->
  get config transport endpoint p ttl now later st
  = send config transport (request "GET" endpoint p VUndefined) st.
Proof.
  intros Hc. unfold get. rewrite Hc.
  destruct (send config transport (request "GET" endpoint p VUndefined) st)
    as [[d|e] st1]; [|reflexivity].
  destruct ttl; reflexivity.
Qed.

(** X5. Only a [get] with a positive [cacheTtl] uses the cache. A
    [get] whose [cacheTtl] is absent, zero or negative, and every
    [post], [put], [patch] and [delete], leaves the cache exactly as it
    was (entries and counters) and puts its request on the wire as the
    next transport attempt. *)
Theorem uncached_requests_leave_the_cache_alone (endpoint : string)
    (p d : value) (ttl : option Z) (now later : Z) (st : WispHubClient.t) :
  (forall t, ttl = Some t -> (t <= 0)%Z) ->
  let sends (m : string) (params payload : value)
            (out : completion value * WispHubClient.t) : Prop :=
    WispHubClient.cache (snd out) = WispHubClient.cache st /\
    nth_error (sent (snd out)) (List.length (sent st))
    = Some (request m endpoint params payload) in
  sends "GET" p VUndefined
        (get config transport endpoint p ttl now later st) /\
  sends "POST" VUndefined d (post config transport endpoint d st) /\
  sends "PUT" VUndefined d (put config transport endpoint d st) /\
  sends "PATCH" VUndefined d (patch config transport endpoint d st) /\
  sends "DELETE" VUndefined VUndefined
        (WispHubClient.delete config transport endpoint st).
Proof.
  intros Httl sends. unfold sends.
  assert (Hc : caching ttl = false).
  { destruct ttl as [t|]; [|reflexivity]. unfold caching.
    specialize (Httl t eq_refl).
    apply andb_false_iff. right. apply Z.ltb_ge. exact Httl. }
  rewrite (get_uncached endpoint p ttl now later st Hc).
  unfold post, put, patch, WispHubClient.delete.
  repeat split; apply send_trace.
Qed.

(** X6. A read that went to the network with [cacheTtl = ttl > 0] and
    was answered with a truthy body is stored under its cache key until
    [later + ttl], [later] being the clock when the answer arrived: a
    second read of the same endpoint and parameters at any [now2] up to
    that instant is answered with the same body, without any transport
    attempt and without any wait. *)
Theorem fetched_value_is_served_from_cache (endpoint : string) (p d : value)
    (ttl ttl2 now later now2 later2 : Z) (st st1 : WispHubClient.t) :
  (0 < ttl)%Z ->
  (0 < ttl2)%Z ->
  get config transport endpoint p (Some ttl) now later st = (Resolved d, st1) ->
  (List.length (sent st) < List.length (sent st1))%nat ->
  truthy d = true ->
  (now2 <= later + ttl)%Z ->
  let r := get config transport endpoint p (Some ttl2) now2 later2 st1 in
  fst r = Resolved d /\
  sent (snd r) = sent st1 /\
  delays (snd r) = delays st1.
Proof.
  intros Httl Httl2 Hget Hnet Hd Hnow r.
  assert (Hk : CacheManager.cache (WispHubClient.cache st1)
               !! getCacheKey "GET" endpoint p
               = Some (CacheManager.mkEntry d (later + ttl))).
  { revert Hget. unfold get. rewrite (caching_positive ttl Httl).
    destruct (CacheManager.get (getCacheKey "GET" endpoint p) now
                (WispHubClient.cache st)) as [cached c].
    destruct (truthy cached).
    { intros [= _ <-]. simpl in Hnet. lia. }
    destruct (send config transport (request "GET" endpoint p VUndefined)
                (with_cache c st)) as [[d'|e] st'] eqn:Hsend;
      [|discriminate].
    intros [= -> <-]. simpl. apply lookup_insert_eq. }
  unfold r, get. rewrite (caching_positive ttl2 Httl2).
  rewrite (get_present_unexpired _ _ _ _ Hk) by (simpl; lia).
  simpl. rewrite Hd. simpl. repeat split; reflexivity.
Qed.

(** X7. A read that is rejected stores nothing: every entry that the
    cache holds afterwards was there before, and [sets] is unchanged. *)
Theorem rejected_read_is_not_cached (endpoint : string) (p : value)
    (ttl : option Z) (now later : Z) (st st1 : WispHubClient.t)
    (e : Js.error) :
  get config transport endpoint p ttl now later st = (Rejected e, st1) ->
  (forall key entry,
     CacheManager.cache (WispHubClient.cache st1) !! key = Some entry ->
     CacheManager.cache (WispHubClient.cache st) !! key = Some entry) /\
  CacheManager.sets (CacheManager.stats (WispHubClient.cache st1))
  = CacheManager.sets (CacheManager.stats (WispHubClient.cache st)).
Proof.
  destruct (caching ttl) eqn:Hc.
  2:{ rewrite (get_uncached endpoint p ttl now later st Hc). intros H.
      pose proof (send_trace (request "GET" endpoint p VUndefined) st)
        as [Hcache _].
      rewrite H in Hcache. simpl in Hcache. rewrite Hcache. auto. }
  unfold get. rewrite Hc.
  destruct (CacheManager.get (getCacheKey "GET" endpoint p) now
              (WispHubClient.cache st)) as [cached c] eqn:Hget.
  destruct (truthy cached); [discriminate|].
  pose proof (send_trace (request "GET" endpoint p VUndefined)
                (with_cache c st)) as [Hcache _].
  destruct (send config transport (request "GET" endpoint p VUndefined)
              (with_cache c st)) as [[d|e'] st'].
  { destruct ttl; discriminate. }
  intros [= _ <-]. simpl in Hcache. rewrite Hcache.
  revert Hget. unfold CacheManager.get.
  destruct (CacheManager.cache (WispHubClient.cache st)
            !! getCacheKey "GET" endpoint p) as [entry0|].
  - destruct (CacheManager.expires entry0 <? now)%Z;
      intros [= _ <-]; simpl; split; try reflexivity; try (intros; assumption).
    intros key entry Hl. apply lookup_delete_Some in Hl. apply Hl.
  - intros [= _ <-]. simpl. auto.
Qed.

(** X8. One failure that is worth retrying, followed by an answer: the
    request is re-issued after one second and the call resolves with
    the body of the second attempt. *)
Theorem retry_recovers_after_one_failure (cfg : RequestConfig)
    (st : WispHubClient.t) (e : AxiosError) (r : AxiosResponse) :
  _retry cfg = false ->
  _retryCount cfg = None ->
  (1 <= retryAttempts config)%Z ->
  transport (List.length (sent st)) = Failed e ->
  shouldRetry e = true ->
  transport (S (List.length (sent st))) = Fulfilled r ->
  send config transport cfg st
  = (Resolved (data r),
     {| WispHubClient.cache := WispHubClient.cache st;
        sent := (sent st ++ [cfg; retried cfg])%list;
        delays := (delays st ++ [1000%Z])%list |}).
Proof.
  intros Hflag Hcount Hattempts He0 Hr0 He1.
  unfold send, enough_fuel. rewrite http_step.
  rewrite He0, Hflag, Hr0. cbn [negb andb].
  assert (Hc : retryCount cfg = 0%Z) by (unfold retryCount; now rewrite Hcount).
  assert (Hle : (retryCount (retried cfg) <=? retryAttempts config)%Z = true).
  { apply Z.leb_le. unfold retried, retryCount at 1; simpl. lia. }
  rewrite Hle, http_flagged by reflexivity.
  assert (Hlen : List.length
            (sent (record_delay (2 ^ retryCount cfg * 1000)
                     (record_attempt cfg st)))
          = S (List.length (sent st))).
  { simpl. rewrite length_app. simpl. lia. }
  rewrite Hlen, He1, Hc.
  unfold record_attempt, record_delay; simpl.
  rewrite <- app_assoc. reflexivity.
Qed.

(** X9. With [retryAttempts <= 0] nothing is re-issued, yet a failure
    that is worth retrying is surfaced only after the one-second wait:
    the wait comes before the test of the retry budget. *)
Theorem no_retry_budget_still_waits (cfg : RequestConfig)
    (st : WispHubClient.t) (e : AxiosError) :
  _retry cfg = false ->
  _retryCount cfg = None ->
  (retryAttempts config <= 0)%Z ->
  transport (List.length (sent st)) = Failed e ->
  shouldRetry e = true ->
  send config transport cfg st
  = (Rejected (formatError e),
     {| WispHubClient.cache := WispHubClient.cache st;
        sent := (sent st ++ [cfg])%list;
        delays := (delays st ++ [1000%Z])%list |}).
Proof.
  intros Hflag Hcount Hattempts He0 Hr0.
  unfold send, enough_fuel. rewrite http_step.
  rewrite He0, Hflag, Hr0. cbn [negb andb].
  assert (Hc : retryCount cfg = 0%Z) by (unfold retryCount; now rewrite Hcount).
  assert (Hle : (retryCount (retried cfg) <=? retryAttempts config)%Z = false).
  { apply Z.leb_gt. unfold retried, retryCount at 1; simpl. lia. }
  rewrite Hle, Hc. reflexivity.
Qed.

End AccessLayer.

Lemma uncached_requests_leave_the_cache_alone_witness :
  WispHubClient.cache
    (snd (WispHubClient.get (RT := sample_runtime) WispHubClient.defaultConfig
            (Samples.always_ok (VNum 1)) "/api/clientes/" VUndefined
            (Some 0%Z) 5 5 WispHubClient.new))
  = CacheManager.new.
Proof.
  refine (proj1 (proj1
    (uncached_requests_leave_the_cache_alone (RT := sample_runtime)
       WispHubClient.defaultConfig (Samples.always_ok (VNum 1))
       "/api/clientes/" VUndefined VUndefined (Some 0%Z) 5 5
       WispHubClient.new _))).
  intros t [= <-]. lia.
Defined.

Lemma fetched_value_is_served_from_cache_witness :
  let r := WispHubClient.get (RT := sample_runtime) WispHubClient.defaultConfig
             (Samples.always_ok (Samples.client_7 "x")) "/api/clientes/7/"
             VUndefined (Some 60000%Z) 300000 300001
             Samples.after_cached_read in
  fst r = Resolved (Samples.client_7 "x") /\
  WispHubClient.sent (snd r) = WispHubClient.sent Samples.after_cached_read /\
  WispHubClient.delays (snd r) = WispHubClient.delays Samples.after_cached_read.
Proof.
  apply (fetched_value_is_served_from_cache (RT := sample_runtime)
           WispHubClient.defaultConfig
           (Samples.always_ok (Samples.client_7 "x")) "/api/clientes/7/"
           VUndefined (Samples.client_7 "x") 300000 60000 0 0 300000 300001
           WispHubClient.new Samples.after_cached_read).
  - lia.
  - lia.
  - vm_compute. reflexivity.
  - vm_compute. lia.
  - reflexivity.
  - lia.
Defined.

Lemma rejected_read_is_not_cached_witness :
  CacheManager.sets
    (CacheManager.stats
       (WispHubClient.cache
          (snd (WispHubClient.get (RT := sample_runtime)
                  WispHubClient.defaultConfig Samples.always_404
                  "/api/clientes/7/" VUndefined (Some 300000%Z) 0 0
                  WispHubClient.new))))
  = 0%Z.
Proof.
  refine (proj2
    (rejected_read_is_not_cached (RT := sample_runtime)
       WispHubClient.defaultConfig Samples.always_404 "/api/clientes/7/"
       VUndefined (Some 300000%Z) 0 0 WispHubClient.new _
       (Error "WispHub API Error (404): Not found.") _)).
  vm_compute. reflexivity.
Defined.

Lemma retry_recovers_after_one_failure_witness :
  WispHubClient.send (RT := sample_runtime) WispHubClient.defaultConfig
    (Samples.recovers (VNum 1)) Samples.a_request WispHubClient.new
  = (Resolved (VNum 1),
     {| WispHubClient.cache := CacheManager.new;
        WispHubClient.sent :=
          [Samples.a_request; WispHubClient.retried Samples.a_request];
        WispHubClient.delays := [1000%Z] |}).
Proof.
  apply (retry_recovers_after_one_failure (RT := sample_runtime)
           WispHubClient.defaultConfig (Samples.recovers (VNum 1))
           Samples.a_request WispHubClient.new Samples.unavailable
           {| WispHubClient.status := 200; WispHubClient.data := VNum 1 |}).
  - reflexivity.
  - reflexivity.
  - simpl. lia.
  - reflexivity.
  - reflexivity.
  - reflexivity.
Defined.

Lemma no_retry_budget_still_waits_witness :
  WispHubClient.send (RT := sample_runtime) Samples.no_retries
    Samples.always_503 Samples.a_request WispHubClient.new
  = (Rejected (WispHubClient.formatError (RT := sample_runtime)
                 Samples.unavailable),
     {| WispHubClient.cache := CacheManager.new;
        WispHubClient.sent := [Samples.a_request];
        WispHubClient.delays := [1000%Z] |}).
Proof.
  apply (no_retry_budget_still_waits (RT := sample_runtime)
           Samples.no_retries Samples.always_503
           Samples.a_request WispHubClient.new Samples.unavailable).
  - reflexivity.
  - reflexivity.
  - simpl. lia.
  - reflexivity.
  - reflexivity.
Defined.

(* ================================================================== *)
(** * Further properties of the client service *)
(* ================================================================== *)

Section ClientLookups.

Import ClienteService DataTransformer.

Context {RT : Runtime} {S : Type} {HC : HttpClient S}.
Variable config : WispHubClient.ServerConfig.

(** A round whose identifier is refused before any request. *)
Lemma attempt_round_invalid (clienteId : string) (maxRetries attempt : Z)
    (attempts : list value) (lastError : option Js.error)
    (e : Js.error) (s : S) :
  lookup_target clienteId = Rejected e ->
  attempt_round config clienteId maxRetries attempt attempts lastError s
  = (let recorded :=
       (attempts ++ [VObj [("attempt", VNum attempt);
                           ("success", VBool false);
                           ("error", VStr (message e))]])%list in
     if (attempt =? maxRetries)%Z
     then (Resolved (Break recorded (Some e)), s)
     else (Resolved (Continue recorded (Some e)), sleep (1000 * attempt) s)).
Proof.
  intros Ht.
  unfold attempt_round, try_catch, bind, lift. rewrite Ht.
  destruct (attempt =? maxRetries)%Z; reflexivity.
Qed.

(** A round whose lookup finds a record that normalizes. *)
Lemma attempt_round_found (clienteId : string) (maxRetries attempt : Z)
    (attempts : list value) (lastError : option Js.error)
    (ep : string) (sp response raw cliente : value) (s s' : S) :
  lookup_target clienteId = Resolved (ep, sp) ->
  http_get ep sp
    (if (attempt =? 1)%Z then Some (WispHubClient.cache_clientes config)
     else None) s = (Resolved response, s') ->
  first_match response = Some raw ->
  clienteToUserFriendly raw = Resolved cliente ->
  exists entry,
    attempt_round config clienteId maxRetries attempt attempts lastError s
    = (Resolved
         (Return {| success := true; data := cliente; error := None;
                    debugInfo :=
                      VObj [("attempts", VArr (attempts ++ [entry]));
                            ("successfulAttempt", VNum attempt);
                            ("clienteId", VStr clienteId);
                            ("endpoint", VStr ep);
                            ("searchParams", sp)] |}), s') /\
    prop entry "hasData" = VBool true.
Proof.
  intros Ht Hg Hm Hn.
  unfold attempt_round, try_catch, bind, lift. rewrite Ht.
  simpl fst; simpl snd. cbv zeta. rewrite Hg.
  unfold first_cliente. rewrite Hm, Hn.
  unfold clienteToUserFriendly in Hn.
  assert (Hobj : truthy cliente = true).
  { destruct raw; try discriminate;
      match type of Hn with
      | context [match ?x with _ => _ end] => destruct x
      end; try discriminate; injection Hn as <-; reflexivity. }
  rewrite Hobj. unfold ret. eexists. split; reflexivity.
Qed.

(** X10. When all three lookups of [obtenerCliente] are rejected, the
    service pauses one second after the first and two seconds after the
    second, none after the third, and resolves (it does not throw) with
    a failure that carries the message of the last rejection and a
    trace of three failed attempts. *)
Theorem rejected_lookups_back_off_and_fail (clienteId ep : string)
    (sp : value) (e1 e2 e3 : Js.error) (s0 s1 s2 s3 : S) :
  lookup_target clienteId = Resolved (ep, sp) ->
  http_get ep sp (Some (WispHubClient.cache_clientes config)) s0
  = (Rejected e1, s1) ->
  http_get ep sp None (sleep 1000 s1) = (Rejected e2, s2) ->
  http_get ep sp None (sleep 2000 s2) = (Rejected e3, s3) ->
  exists (resp : ToolResponse) (trace : list value),
    obtenerCliente config clienteId s0 = (Resolved resp, s3) /\
    success resp = false /\
    data resp = VUndefined /\
    error resp = Some ("Error obteniendo cliente después de 3 intentos: "
                       +:+ message e3) /\
    prop (debugInfo resp) "allAttemptsFailed" = VBool true /\
    prop (debugInfo resp) "attempts" = VArr trace /\
    map (fun entry => (prop entry "attempt", prop entry "success",
                       prop entry "error")) trace
    = [(VNum 1, VBool false, VStr (message e1));
       (VNum 2, VBool false, VStr (message e2));
       (VNum 3, VBool false, VStr (message e3))].
Proof.
  intros Ht H1 H2 H3.
  unfold obtenerCliente, obtenerClienteWithRetry.
  change (attempt_numbers 3) with [1%Z; 2%Z; 3%Z].
  cbn [attempt_loop]. unfold bind at 1.
  rewrite (attempt_round_error config clienteId 3 1 [] None ep sp e1 s0 s1 Ht H1).
  cbn [Z.eqb Pos.eqb]. cbv zeta. unfold bind at 1.
  change (1000 * 1)%Z with 1000%Z.
  rewrite (attempt_round_error config clienteId 3 2 _ _ ep sp e2 _ s2 Ht H2).
  cbn [Z.eqb Pos.eqb]. cbv zeta. unfold bind at 1.
  change (1000 * 2)%Z with 2000%Z.
  rewrite (attempt_round_error config clienteId 3 3 _ _ ep sp e3 _ s3 Ht H3).
  cbn [Z.eqb Pos.eqb]. cbv zeta. unfold ret.
  eexists. eexists. split; [reflexivity|].
  repeat split.
Qed.

(** X11. An all-digit identifier whose number is 0 is refused inside
    the retry loop: the service makes no request at all, yet goes
    through its three attempts, pausing one and then two seconds,
    before it resolves with the failure. *)
Theorem invalid_numeric_id_waits_without_any_request (clienteId : string)
    (s0 : S) :
  digits_only clienteId = true ->
  parseInt_digits clienteId = 0%Z ->
  exists resp : ToolResponse,
    obtenerCliente config clienteId s0
    = (Resolved resp, sleep 2000 (sleep 1000 s0)) /\
    success resp = false /\
    error resp = Some ("Error obteniendo cliente después de 3 intentos: "
                       +:+ "ID de servicio inválido") /\
    prop (debugInfo resp) "allAttemptsFailed" = VBool true.
Proof.
  intros Hd Hz.
  assert (Ht : lookup_target clienteId
               = Rejected (Error "ID de servicio inválido")).
  { unfold lookup_target. rewrite Hd, Hz. reflexivity. }
  unfold obtenerCliente, obtenerClienteWithRetry.
  change (attempt_numbers 3) with [1%Z; 2%Z; 3%Z].
  cbn [attempt_loop]. unfold bind at 1.
  rewrite (attempt_round_invalid clienteId 3 1 [] None _ s0 Ht).
  cbn [Z.eqb Pos.eqb]. cbv zeta. unfold bind at 1.
  change (1000 * 1)%Z with 1000%Z.
  rewrite (attempt_round_invalid clienteId 3 2 _ _ _ _ Ht).
  cbn [Z.eqb Pos.eqb]. cbv zeta. unfold bind at 1.
  change (1000 * 2)%Z with 2000%Z.
  rewrite (attempt_round_invalid clienteId 3 3 _ _ _ _ Ht).
  cbn [Z.eqb Pos.eqb]. cbv zeta. unfold ret.
  eexists. split; [reflexivity|]. repeat split.
Qed.

(** X12. The first lookup is answered with a record: whether the
    record arrives as the first element of an array, as the first
    element of the [results] of a paginated envelope, or as the
    response object itself, the service returns at once (one request,
    no pause) with the normalization of that record, and its trace has
    the single entry of attempt 1. *)
Theorem first_record_of_any_shape_is_returned (clienteId ep : string)
    (sp response raw cliente : value) (s0 s1 : S) :
  lookup_target clienteId = Resolved (ep, sp) ->
  http_get ep sp (Some (WispHubClient.cache_clientes config)) s0
  = (Resolved response, s1) ->
  ((exists rest, response = VArr (raw :: rest)) \/
   (exists fs rest, response = VObj fs /\
      obj_lookup "results" fs = Some (VArr (raw :: rest))) \/
   (exists fs, response = VObj fs /\ raw = response /\
      is_array (prop response "results") = false)) ->
  clienteToUserFriendly raw = Resolved cliente ->
  exists (resp : ToolResponse) (entry : value),
    obtenerCliente config clienteId s0 = (Resolved resp, s1) /\
    success resp = true /\
    data resp = cliente /\
    prop (debugInfo resp) "successfulAttempt" = VNum 1 /\
    prop (debugInfo resp) "attempts" = VArr [entry] /\
    prop entry "hasData" = VBool true.
Proof.
  intros Ht Hg Hshape Hn.
  assert (Hm : first_match response = Some raw).
  { destruct Hshape as [(rest & ->) | [(fs & rest & -> & Hr) | (fs & -> & -> & Hr)]].
    - reflexivity.
    - unfold first_match. rewrite prop_obj, Hr. reflexivity.
    - unfold first_match.
      destruct (prop (VObj fs) "results"); try reflexivity. discriminate. }
  destruct (attempt_round_found clienteId 3 1 [] None ep sp response raw
              cliente s0 s1 Ht Hg Hm Hn) as (entry & Hround & Hentry).
  unfold obtenerCliente, obtenerClienteWithRetry.
  change (attempt_numbers 3) with [1%Z; 2%Z; 3%Z].
  cbn [attempt_loop]. unfold bind at 1. rewrite Hround. unfold ret.
  eexists. exists entry. split; [reflexivity|].
  repeat split. exact Hentry.
Qed.

End ClientLookups.

Section ClientUpdates.

Import ClienteService DataTransformer.

Context {RT : Runtime} {S : Type} {HC : HttpClient S}.

(** An update is refused before any request when the service id
    is not positive or when no field at all is supplied: the state of
    the client is untouched and the result is a failure that names the
    reason. *)
Theorem invalid_update_makes_no_request (params : ActualizarClienteInput)
    (s : S) :
  ((id_servicio params <= 0)%Z ->
   actualizarCliente params s
   = (Resolved {| success := false; data := VUndefined;
                  error := Some ("Error actualizando cliente: "
                                 +:+ "ID de servicio inválido");
                  debugInfo := VUndefined |}, s)) /\
  ((0 < id_servicio params)%Z ->
   email params = None -> telefono params = None ->
   direccion params = None -> localidad params = None ->
   ciudad params = None -> comentarios params = None ->
   notificacion_sms params = None -> notificaciones_push params = None ->
   actualizarCliente params s
   = (Resolved {| success := false; data := VUndefined;
                  error := Some ("Error actualizando cliente: "
                                 +:+ "Debe proporcionar al menos un campo para actualizar");
                  debugInfo := VUndefined |}, s)).
Proof.
  split.
  - intros Hid. unfold actualizarCliente, try_catch.
    assert (isValidServicioId (id_servicio params) = false) as ->
      by (apply Z.ltb_ge; exact Hid).
    reflexivity.
  - intros Hid H1 H2 H3 H4 H5 H6 H7 H8.
    unfold actualizarCliente, try_catch.
    assert (isValidServicioId (id_servicio params) = true) as ->
      by (apply Z.ltb_lt; exact Hid).
    unfold apiData. rewrite H1, H2, H3, H4, H5, H6, H7, H8. reflexivity.
Qed.

(** The candidate endpoints before the last differ from the last. *)
Lemma endpoints_before_last (id : Z) :
  let n := string_of_Z id in
  String.eqb ("/api/clientes/" +:+ n +:+ "/") ("/api/contactos/" +:+ n +:+ "/")
  = false /\
  String.eqb ("/api/clients/" +:+ n +:+ "/") ("/api/contactos/" +:+ n +:+ "/")
  = false /\
  String.eqb ("/api/usuarios/" +:+ n +:+ "/") ("/api/contactos/" +:+ n +:+ "/")
  = false.
Proof. repeat split. Qed.

(** X13. When every candidate endpoint rejects the PUT, the four
    endpoints are tried once each in the order clientes, clients,
    usuarios, contactos, with the same payload; the update then fails
    with the message of the last rejection, and no re-read is made. *)
Theorem update_rejected_by_every_endpoint (params : ActualizarClienteInput)
    (e1 e2 e3 e4 : Js.error) (s0 s1 s2 s3 s4 : S) :
  (0 < id_servicio params)%Z ->
  apiData params <> [] ->
  let n := string_of_Z (id_servicio params) in
  let payload := VObj (apiData params) in
  http_put ("/api/clientes/" +:+ n +:+ "/") payload s0 = (Rejected e1, s1) ->
  http_put ("/api/clients/" +:+ n +:+ "/") payload s1 = (Rejected e2, s2) ->
  http_put ("/api/usuarios/" +:+ n +:+ "/") payload s2 = (Rejected e3, s3) ->
  http_put ("/api/contactos/" +:+ n +:+ "/") payload s3 = (Rejected e4, s4) ->
  actualizarCliente params s0
  = (Resolved {| success := false; data := VUndefined;
                 error := Some ("Error actualizando cliente: " +:+ message e4);
                 debugInfo := VUndefined |}, s4).
Proof.
  intros Hid Hfields n payload H1 H2 H3 H4.
  unfold actualizarCliente, try_catch.
  assert (isValidServicioId (id_servicio params) = true) as ->
    by (apply Z.ltb_lt; exact Hid).
  cbn [negb].
  assert (Nat.eqb (List.length (keys (apiData params))) 0 = false) as ->.
  { destruct (apiData params); [contradiction|reflexivity]. }
  cbv zeta. unfold bind at 1.
  unfold endpointsToTry. fold n. fold payload.
  destruct (endpoints_before_last (id_servicio params)) as (E1 & E2 & E3).
  fold n in E1, E2, E3.
  cbn [List.last try_endpoints]. unfold try_catch, bind.
  rewrite H1, E1, H2, E2, H3, E3, H4, String.eqb_refl.
  reflexivity.
Qed.

End ClientUpdates.

Lemma rejected_lookups_back_off_and_fail_witness :
  exists (resp : ToolResponse) (trace : list value),
    ClienteService.obtenerCliente (RT := sample_runtime)
      (HC := Samples.not_found_client) WispHubClient.defaultConfig
      "7" Samples.fresh
    = (Resolved resp, Samples.after_rejected_3) /\
    success resp = false /\
    data resp = VUndefined /\
    error resp = Some ("Error obteniendo cliente después de 3 intentos: "
                       +:+ message Samples.not_found_error) /\
    prop (debugInfo resp) "allAttemptsFailed" = VBool true /\
    prop (debugInfo resp) "attempts" = VArr trace /\
    map (fun entry => (prop entry "attempt", prop entry "success",
                       prop entry "error")) trace
    = [(VNum 1, VBool false, VStr (message Samples.not_found_error));
       (VNum 2, VBool false, VStr (message Samples.not_found_error));
       (VNum 3, VBool false, VStr (message Samples.not_found_error))].
Proof.
  apply (rejected_lookups_back_off_and_fail (RT := sample_runtime)
           (HC := Samples.not_found_client) WispHubClient.defaultConfig
           "7" "/api/clientes/7/" (VObj [])
           Samples.not_found_error Samples.not_found_error
           Samples.not_found_error
           Samples.fresh Samples.after_rejected_1 Samples.after_rejected_2
           Samples.after_rejected_3).
  - reflexivity.
  - vm_compute. reflexivity.
  - vm_compute. reflexivity.
  - vm_compute. reflexivity.
Defined.

Lemma invalid_numeric_id_waits_without_any_request_witness :
  exists resp : ToolResponse,
    ClienteService.obtenerCliente (RT := sample_runtime)
      (HC := Samples.no_match_client) WispHubClient.defaultConfig
      "0" Samples.fresh
    = (Resolved resp, (WispHubClient.new, [1000%Z; 2000%Z])) /\
    success resp = false /\
    error resp = Some ("Error obteniendo cliente después de 3 intentos: "
                       +:+ "ID de servicio inválido") /\
    prop (debugInfo resp) "allAttemptsFailed" = VBool true.
Proof.
  apply (invalid_numeric_id_waits_without_any_request (RT := sample_runtime)
           (HC := Samples.no_match_client) WispHubClient.defaultConfig
           "0" Samples.fresh).
  - reflexivity.
  - reflexivity.
Defined.

Lemma first_record_of_any_shape_is_returned_witness :
  exists (resp : ToolResponse) (entry : value),
    ClienteService.obtenerCliente (RT := sample_runtime)
      (HC := Samples.ignoring_client) WispHubClient.defaultConfig
      "7" Samples.fresh
    = (Resolved resp, Samples.after_first_read) /\
    success resp = true /\
    data resp = Samples.client_7_old /\
    prop (debugInfo resp) "successfulAttempt" = VNum 1 /\
    prop (debugInfo resp) "attempts" = VArr [entry] /\
    prop entry "hasData" = VBool true.
Proof.
  apply (first_record_of_any_shape_is_returned (RT := sample_runtime)
           (HC := Samples.ignoring_client) WispHubClient.defaultConfig
           "7" "/api/clientes/7/" (VObj []) (Samples.client_7 "old")
           (Samples.client_7 "old") Samples.client_7_old
           Samples.fresh Samples.after_first_read).
  - reflexivity.
  - vm_compute. reflexivity.
  - right. right. eexists. split; [reflexivity|]. split; reflexivity.
  - reflexivity.
Defined.

Lemma invalid_update_makes_no_request_witness :
  (exists resp,
     ClienteService.actualizarCliente (RT := sample_runtime)
       (HC := Samples.no_match_client) Samples.bad_id_update Samples.fresh
     = (Resolved resp, Samples.fresh) /\ success resp = false) /\
  (exists resp,
     ClienteService.actualizarCliente (RT := sample_runtime)
       (HC := Samples.no_match_client) Samples.empty_update Samples.fresh
     = (Resolved resp, Samples.fresh) /\ success resp = false).
Proof.
  split; eexists; split.
  - apply (proj1 (invalid_update_makes_no_request (RT := sample_runtime)
                    (HC := Samples.no_match_client) Samples.bad_id_update
                    Samples.fresh)).
    simpl. lia.
  - reflexivity.
  - apply (proj2 (invalid_update_makes_no_request (RT := sample_runtime)
                    (HC := Samples.no_match_client) Samples.empty_update
                    Samples.fresh)); try reflexivity.
  - reflexivity.
Defined.

Lemma update_rejected_by_every_endpoint_witness :
  ClienteService.actualizarCliente (RT := sample_runtime)
    (HC := Samples.not_found_client) Samples.note_update Samples.fresh
  = (Resolved {| success := false; data := VUndefined;
                 error := Some ("Error actualizando cliente: "
                                +:+ message Samples.not_found_error);
                 debugInfo := VUndefined |},
     Samples.after_rejected_puts 4).
Proof.
  apply (update_rejected_by_every_endpoint (RT := sample_runtime)
           (HC := Samples.not_found_client) Samples.note_update
           Samples.not_found_error Samples.not_found_error
           Samples.not_found_error Samples.not_found_error
           Samples.fresh (Samples.after_rejected_puts 1)
           (Samples.after_rejected_puts 2) (Samples.after_rejected_puts 3)
           (Samples.after_rejected_puts 4)).
  - simpl. lia.
  - discriminate.
  - vm_compute. reflexivity.
  - vm_compute. reflexivity.
  - vm_compute. reflexivity.
  - vm_compute. reflexivity.
Defined.

(* ================================================================== *)
(** * Further properties of strings *)
(* ================================================================== *)

Lemma prefix_iff (n h : string) :
  String.prefix n h = true <-> exists q, h = n +:+ q.
Proof.
  revert h. induction n as [|c n IH]; intros h; simpl.
  - split; [intros _; exists h; reflexivity|intros _; destruct h; reflexivity].
  - destruct h as [|d h].
    + split; [discriminate|intros [q Hq]; discriminate].
    + simpl. destruct (ascii_dec c d) as [->|Hne].
      * rewrite IH. split; intros [q Hq]; exists q.
        -- now rewrite Hq.
        -- now injection Hq.
      * split; [discriminate|].
        intros [q Hq]. injection Hq as Hd _. congruence.
Qed.

Lemma includes_iff (n h : string) :
  includes n h = true <-> exists p q, h = p +:+ n +:+ q.
Proof.
  induction h as [|d h IH].
  - change (includes n "") with (String.prefix n "" || false)%bool.
    rewrite orb_false_r, prefix_iff. split.
    + intros [q Hq]. exists "", q. exact Hq.
    + intros (p & q & Hq). destruct p; [exists q; exact Hq|discriminate].
  - change (includes n (String d h))
      with (String.prefix n (String d h) || includes n h)%bool.
    rewrite orb_true_iff, prefix_iff, IH. split.
    + intros [[q Hq] | (p & q & Hq)].
      * exists "", q. exact Hq.
      * exists (String d p), q. simpl. now rewrite Hq.
    + intros (p & q & Hq). destruct p as [|d' p].
      * left. exists q. exact Hq.
      * right. injection Hq as _ Hq. exists p, q. exact Hq.
Qed.

Lemma append_assoc (a b c : string) : (a +:+ b) +:+ c = a +:+ (b +:+ c).
Proof.
  induction a as [|x a IH]; [reflexivity|].
  change (String x ((a +:+ b) +:+ c) = String x (a +:+ b +:+ c)).
  now rewrite IH.
Qed.

(** A string that occurs in an occurrence occurs. *)
Lemma includes_trans (a b c : string) :
  includes a b = true -> includes b c = true -> includes a c = true.
Proof.
  rewrite !includes_iff. intros (p & q & ->) (p' & q' & ->).
  exists (p' +:+ p), (q +:+ q').
  now rewrite !append_assoc.
Qed.

Lemma trim_left_eq (s : string) :
  trim_left s = match ws_prefix s with Some r => trim_left r | None => s end.
Proof.
  destruct s as [|a [|b [|c r]]]; cbn [trim_left ws_prefix]; try reflexivity.
  - destruct (is_ws a); reflexivity.
  - destruct (is_ws a); [reflexivity|]. destruct (is_ws2 a b); reflexivity.
  - destruct (is_ws a); [reflexivity|]. destruct (is_ws2 a b); [reflexivity|].
    destruct (is_ws3 a b c); reflexivity.
Qed.

Lemma ws_prefix_shorter (s r : string) :
  ws_prefix s = Some r -> (String.length r < String.length s)%nat.
Proof.
  destruct s as [|a [|b [|c t]]]; cbn [ws_prefix]; try discriminate.
  - destruct (is_ws a); [|discriminate]. intros [= <-]. simpl. lia.
  - destruct (is_ws a); [intros [= <-]; simpl; lia|].
    destruct (is_ws2 a b); [|discriminate]. intros [= <-]. simpl. lia.
  - destruct (is_ws a); [intros [= <-]; simpl; lia|].
    destruct (is_ws2 a b); [intros [= <-]; simpl; lia|].
    destruct (is_ws3 a b c); [|discriminate]. intros [= <-]. simpl. lia.
Qed.

(** What [trim_left] gives starts with no white space. *)
Lemma trim_left_stops (s : string) : ws_prefix (trim_left s) = None.
Proof.
  remember (String.length s) as n eqn:Hn.
  revert s Hn. induction n as [n IH] using lt_wf_ind. intros s ->.
  rewrite trim_left_eq.
  destruct (ws_prefix s) as [r|] eqn:E; [|exact E].
  exact (IH _ (ws_prefix_shorter s r E) r eq_refl).
Qed.

Lemma trim_left_fixed (s : string) : ws_prefix s = None -> trim_left s = s.
Proof. intros H. now rewrite trim_left_eq, H. Qed.

Lemma blank_step (s : string) :
  blank s = true <-> s = "" \/ exists r, ws_prefix s = Some r /\ blank r = true.
Proof.
  unfold blank. rewrite trim_left_eq.
  destruct (ws_prefix s) as [r|] eqn:E.
  - split; [intros H; right; exists r; auto|].
    intros [-> | (r' & [= <-] & H)]; [discriminate E|exact H].
  - split.
    + intros H. left. now apply String.eqb_eq in H.
    + intros [-> | (r' & [=] & _)]. reflexivity.
Qed.

Lemma trim_right_cons (s : string) (b : ascii) (y : string) :
  trim_right s = String b y ->
  exists r, s = String b r /\ y = trim_right r.
Proof.
  destruct s as [|c r]; cbn [trim_right]; [discriminate|].
  destruct (blank (String c r)); [discriminate|].
  intros [= -> <-]. eauto.
Qed.

(** A string is blank when what [trim_right] leaves of it is. *)
Lemma blank_trim_right (s : string) :
  blank (trim_right s) = true -> blank s = true.
Proof.
  remember (String.length s) as n eqn:Hn.
  revert s Hn. induction n as [n IH] using lt_wf_ind. intros s -> H.
  destruct s as [|a r]; [reflexivity|].
  cbn [trim_right] in H.
  destruct (blank (String a r)) eqn:Hb; [reflexivity|].
  apply blank_step in H. destruct H as [H|(x & Hx & Hblank)]; [discriminate|].
  assert (Hgo : forall t, (String.length t < String.length (String a r))%nat ->
                          blank (trim_right t) = true -> blank t = true).
  { intros t Ht. exact (IH _ Ht t eq_refl). }
  enough (exists t, ws_prefix (String a r) = Some t /\ blank t = true) as Hs.
  { rewrite <- Hb. apply blank_step. right. exact Hs. }
  cbn [ws_prefix] in Hx |- *.
  destruct (is_ws a).
  { injection Hx as <-. exists r. split; [reflexivity|].
    apply Hgo; [simpl; lia|exact Hblank]. }
  destruct (trim_right r) as [|b y] eqn:Hr; [discriminate|].
  apply trim_right_cons in Hr. destruct Hr as (r1 & -> & ->).
  destruct (is_ws2 a b).
  { injection Hx as <-. exists r1. split; [reflexivity|].
    apply Hgo; [simpl; lia|exact Hblank]. }
  destruct (trim_right r1) as [|c z] eqn:Hr1; [discriminate|].
  apply trim_right_cons in Hr1. destruct Hr1 as (r2 & -> & ->).
  destruct (is_ws3 a b c); [|discriminate].
  injection Hx as <-. exists r2. split; [reflexivity|].
  apply Hgo; [simpl; lia|exact Hblank].
Qed.

Lemma trim_right_idem (s : string) : trim_right (trim_right s) = trim_right s.
Proof.
  induction s as [|c s IH]; [reflexivity|].
  cbn [trim_right].
  destruct (blank (String c s)) eqn:Hb; [reflexivity|].
  cbn [trim_right]. rewrite IH.
  destruct (blank (String c (trim_right s))) eqn:Hb'; [|reflexivity].
  assert (H : blank (trim_right (String c s)) = true).
  { cbn [trim_right]. now rewrite Hb. }
  apply blank_trim_right in H. congruence.
Qed.

(** Trimming the end of a string that starts with no white space
    leaves one that starts with none. *)
Lemma trim_right_keeps_start (s : string) :
  ws_prefix s = None -> ws_prefix (trim_right s) = None.
Proof.
  destruct s as [|a r]; [reflexivity|].
  cbn [trim_right]. destruct (blank (String a r)); [reflexivity|].
  cbn [ws_prefix]. destruct (is_ws a); [discriminate|].
  destruct r as [|b r1]; [reflexivity|].
  cbn [trim_right]. destruct (blank (String b r1)); [reflexivity|].
  destruct (is_ws2 a b); [discriminate|].
  destruct r1 as [|c r2]; [reflexivity|].
  cbn [trim_right]. destruct (blank (String c r2)); [reflexivity|].
  destruct (is_ws3 a b c); [discriminate|reflexivity].
Qed.

(** [trim] changes nothing in a string it has produced. *)
Lemma trim_idem (s : string) : trim (trim s) = trim s.
Proof.
  unfold trim.
  rewrite (trim_left_fixed (trim_right (trim_left s))).
  - apply trim_right_idem.
  - apply trim_right_keeps_start, trim_left_stops.
Qed.

(** White space outside ASCII is stripped like a blank, at both ends
    and not inside. *)
Lemma trim_strips_unicode_white_space :
  trim (Samples.nbsp +:+ " a" +:+ Samples.em_space +:+ "b"
        +:+ Samples.em_space +:+ Samples.byte_order_mark +:+ " ")
  = "a" +:+ Samples.em_space +:+ "b" /\
  trim (Samples.nbsp +:+ Samples.em_space) = "".
Proof. split; reflexivity. Qed.

Lemma includes_nonempty (n h : string) :
  n <> "" -> includes n h = true -> h <> "".
Proof.
  intros Hn Hi ->. destruct n; [congruence|discriminate].
Qed.

(* ================================================================== *)
(** * Further properties of the ticket service *)
(* ================================================================== *)

Section TicketPayloads.

Import TicketService DataTransformer.

Context {RT : Runtime}.

Ltac via_updates :=
  repeat (rewrite ?obj_lookup_set, ?obj_lookup_delete;
          repeat match goal with
                 | H : String.eqb _ _ = false |- _ => rewrite H
                 end);
  try reflexivity.

(** The technician among the requested changes: the trimmed text, when
    it is all digits or contains an [@]. *)
Lemma apiData_tecnico (updates : Updates) :
  obj_lookup "tecnico" (rev (apiData updates))
  = match provided (tecnico updates) with
    | Some t =>
        if (digits_only (trim t) || includes "@" (trim t))%bool
        then Some (VStr (trim t)) else None
    | None => None
    end.
Proof.
  unfold apiData.
  destruct (provided (estado updates)); destruct (provided (prioridad updates));
    destruct (provided (tecnico updates)); simpl;
    repeat match goal with
           | |- context [if ?b then _ else _] => destruct b
           end;
    reflexivity.
Qed.

(** What [drop_empty_tecnico] leaves under [tecnico]: nothing, or a
    string that is not blank. *)
Lemma drop_empty_tecnico_kept (c c' : list (string * value)) :
  drop_empty_tecnico c = Resolved c' ->
  match obj_lookup "tecnico" c' with
  | None => True
  | Some (VStr t) => trim t <> ""
  | Some _ => False
  end.
Proof.
  unfold drop_empty_tecnico. rewrite prop_obj.
  destruct (obj_lookup "tecnico" c) as [v|] eqn:Hv.
  2:{ simpl. intros [= <-]. rewrite !obj_lookup_delete. reflexivity. }
  destruct (negb (truthy v)).
  { intros [= <-]. rewrite !obj_lookup_delete. reflexivity. }
  destruct v; try discriminate.
  destruct (String.eqb (trim s) "") eqn:E; intros [= <-].
  - rewrite !obj_lookup_delete. reflexivity.
  - rewrite Hv. apply String.eqb_neq. exact E.
Qed.

(** X14. Whatever the current record and the requested changes are,
    the object built for the PUT never carries a blank technician:
    [tecnico] is either absent or a string with something other than
    white space in it. *)
Theorem payload_technician_is_never_blank (ticketId : Z) (updates : Updates)
    (completeTicketData : value) (p : list (string * value)) :
  putData ticketId updates completeTicketData = Resolved (VObj p) ->
  match obj_lookup "tecnico" p with
  | None => True
  | Some (VStr t) => trim t <> ""
  | Some _ => False
  end.
Proof.
  intros Hput.
  unfold putData, cleanedCurrentData in Hput.
  destruct (fix_asunto (fix_estado (fix_prioridad
              (own_entries completeTicketData)))) as [c|] eqn:Hasunto;
    [|discriminate].
  destruct (drop_empty_tecnico c) as [c'|] eqn:Htecnico; [|discriminate].
  injection Hput as <-.
  rewrite obj_lookup_set. cbn [String.eqb Ascii.eqb Bool.eqb].
  rewrite obj_lookup_spread, apiData_tecnico.
  assert (Hrecord :
            obj_lookup "tecnico"
              (strip (stamp_dates updates (append_notas updates c')))
            = obj_lookup "tecnico" c').
  { rewrite strip_lookup. cbn [existsb stripped_fields String.eqb Ascii.eqb
                                 Bool.eqb orb].
    rewrite stamp_dates_other, append_notas_other by reflexivity.
    reflexivity. }
  rewrite Hrecord.
  pose proof (drop_empty_tecnico_kept c c' Htecnico) as Hkept.
  destruct (provided (tecnico updates)) as [t|]; [|exact Hkept].
  destruct (digits_only (trim t) || includes "@" (trim t))%bool eqn:E;
    [|exact Hkept].
  rewrite trim_idem. intros Hblank. rewrite Hblank in E. discriminate.
Qed.

(** X15. A change of [estado] to [nuevo] or [en_progreso] sends the
    code 1 or 2 with a reason code that is never empty ([Otro],
    [Internet Intermitente]); it leaves [fecha_fin] and
    [finalizado_por] as the current record has them, so that a reopened
    ticket keeps its closure stamp; and starting a ticket keeps a
    [fecha_inicio] that the record already has, stamping one only when
    there is none. *)
Theorem reopening_keeps_the_closure_stamp (ticketId : Z) (updates : Updates)
    (e : string) (completeTicketData : value) (p : list (string * value)) :
  provided (estado updates) = Some e ->
  e = "nuevo" \/ e = "en_progreso" ->
  putData ticketId updates completeTicketData = Resolved (VObj p) ->
  let current := own_entries completeTicketData in
  obj_lookup "estado" p
  = Some (VNum (if String.eqb e "nuevo" then 1 else 2)) /\
  obj_lookup "razon_falla" p
  = Some (VStr (if String.eqb e "nuevo" then "Otro"
                else "Internet Intermitente")) /\
  obj_lookup "fecha_fin" p = obj_lookup "fecha_fin" current /\
  obj_lookup "finalizado_por" p = obj_lookup "finalizado_por" current /\
  obj_lookup "fecha_inicio" p
  = (if (String.eqb e "en_progreso"
         && negb (truthy (prop (VObj current) "fecha_inicio")))%bool
     then Some (VStr wisphubDateFormat)
     else obj_lookup "fecha_inicio" current).
Proof.
  intros He Hopen Hput current.
  unfold putData, cleanedCurrentData in Hput. fold current in Hput.
  destruct (fix_asunto (fix_estado (fix_prioridad current)))
    as [c|] eqn:Hasunto; [|discriminate].
  destruct (drop_empty_tecnico c) as [c'|] eqn:Htecnico; [|discriminate].
  injection Hput as <-.
  assert (Hcopy : forall k,
            String.eqb k "prioridad" = false ->
            String.eqb k "estado" = false ->
            String.eqb k "asuntos_default" = false ->
            String.eqb k "origen_reporte" = false ->
            String.eqb k "tecnico" = false ->
            String.eqb k "email_tecnico" = false ->
            String.eqb k "descripcion" = false ->
            obj_lookup k (append_notas updates c') = obj_lookup k current).
  { intros k H1 H2 H3 H4 H5 H6 H7.
    rewrite (append_notas_other k updates c' H7).
    rewrite (drop_empty_tecnico_other k c c' Htecnico H5 H6).
    rewrite (fix_asunto_other k _ c Hasunto H3 H4).
    rewrite (fix_estado_other k _ H2).
    exact (fix_prioridad_other k _ H1). }
  assert (Hapi : obj_lookup "estado" (rev (apiData updates))
                 = Some (VNum (if String.eqb e "nuevo" then 1 else 2)) /\
                 obj_lookup "razon_falla" (rev (apiData updates))
                 = Some (VStr (if String.eqb e "nuevo" then "Otro"
                               else "Internet Intermitente"))).
  { unfold apiData. rewrite He.
    destruct Hopen as [-> | ->]; simpl;
      destruct (provided (prioridad updates));
      destruct (provided (tecnico updates));
      repeat match goal with
             | |- context [if ?b then _ else _] => destruct b
             end;
      split; reflexivity. }
  destruct Hapi as [Hestado Hrazon].
  repeat split.
  - rewrite obj_lookup_set. cbn [String.eqb Ascii.eqb Bool.eqb].
    now rewrite obj_lookup_spread, Hestado.
  - rewrite obj_lookup_set. cbn [String.eqb Ascii.eqb Bool.eqb].
    now rewrite obj_lookup_spread, Hrazon.
  - rewrite obj_lookup_set. cbn [String.eqb Ascii.eqb Bool.eqb].
    rewrite obj_lookup_spread, apiData_other by reflexivity.
    rewrite strip_lookup. cbn [existsb stripped_fields String.eqb Ascii.eqb
                                 Bool.eqb orb].
    rewrite <- (Hcopy "fecha_fin") by reflexivity.
    unfold stamp_dates. rewrite He.
    destruct Hopen as [-> | ->]; cbn [String.eqb Ascii.eqb Bool.eqb orb];
      [reflexivity|].
    destruct (negb (truthy (prop (VObj (append_notas updates c'))
                                 "fecha_inicio"))); via_updates.
  - rewrite obj_lookup_set. cbn [String.eqb Ascii.eqb Bool.eqb].
    rewrite obj_lookup_spread, apiData_other by reflexivity.
    rewrite strip_lookup. cbn [existsb stripped_fields String.eqb Ascii.eqb
                                 Bool.eqb orb].
    rewrite <- (Hcopy "finalizado_por") by reflexivity.
    unfold stamp_dates. rewrite He.
    destruct Hopen as [-> | ->]; cbn [String.eqb Ascii.eqb Bool.eqb orb];
      [reflexivity|].
    destruct (negb (truthy (prop (VObj (append_notas updates c'))
                                 "fecha_inicio"))); via_updates.
  - rewrite obj_lookup_set. cbn [String.eqb Ascii.eqb Bool.eqb].
    rewrite obj_lookup_spread, apiData_other by reflexivity.
    rewrite strip_lookup. cbn [existsb stripped_fields String.eqb Ascii.eqb
                                 Bool.eqb orb].
    unfold stamp_dates. rewrite He.
    rewrite !prop_obj, <- (Hcopy "fecha_inicio") by reflexivity.
    destruct Hopen as [-> | ->]; cbn [String.eqb Ascii.eqb Bool.eqb orb andb];
      [reflexivity|].
    destruct (negb (truthy
                (match obj_lookup "fecha_inicio" (append_notas updates c') with
                 | Some x => x
                 | None => VUndefined
                 end))); via_updates.
Qed.

End TicketPayloads.

Section TicketUpdates.

Import TicketService DataTransformer.

Context {RT : Runtime} {S : Type} {HC : HttpClient S}.

(** X16. A current record whose [tecnico] is neither empty nor a
    string (a number, or an object naming the technician) cannot be
    updated: preparing the payload throws, so the update resolves with
    a failure after the first GET, and no PUT is made. *)
Theorem record_with_structured_technician_cannot_be_updated (ticketId : Z)
    (updates : Updates) (currentTicket : value)
    (fields : list (string * value)) (s0 s1 : S) :
  http_get ("/api/tickets/" +:+ string_of_Z ticketId +:+ "/")
    VUndefined None s0 = (Resolved currentTicket, s1) ->
  first_record VUndefined currentTicket = VObj fields ->
  truthy (prop (VObj fields) "tecnico") = true ->
  typeof_string (prop (VObj fields) "tecnico") = false ->
  exists resp : ToolResponse,
    actualizarTicket ticketId updates s0 = (Resolved resp, s1) /\
    success resp = false /\
    data resp = VUndefined.
Proof.
  intros Hget Hrecord Htruthy Hstring.
  assert (Hput : exists e, putData ticketId updates (VObj fields) = Rejected e).
  { unfold putData, cleanedCurrentData. cbn [own_entries].
    destruct (fix_asunto (fix_estado (fix_prioridad fields)))
      as [c|e] eqn:Hasunto; [|eauto].
    assert (Hc : obj_lookup "tecnico" c = obj_lookup "tecnico" fields).
    { rewrite (fix_asunto_other "tecnico" _ c Hasunto) by reflexivity.
      rewrite fix_estado_other, fix_prioridad_other by reflexivity.
      reflexivity. }
    unfold drop_empty_tecnico. rewrite !prop_obj, Hc.
    rewrite prop_obj in Htruthy, Hstring. rewrite Htruthy. cbn [negb].
    destruct (obj_lookup "tecnico" fields) as [[]|]; try discriminate; eauto. }
  destruct Hput as [e He].
  unfold actualizarTicket, try_catch. unfold bind at 1. rewrite Hget.
  rewrite Hrecord. cbn [truthy negb].
  unfold bind at 1, lift. rewrite He. unfold ret.
  eexists. split; [reflexivity|]. split; reflexivity.
Qed.

(** X17. Once the PUT is acknowledged with a ticket, the update is a
    success whatever the re-read does. When the re-read yields a
    record, the data returned is the normalization of that record and
    [verifiedTicket] is the record itself; when the re-read is rejected
    or yields nothing, the data is the normalized answer of the PUT. *)
Theorem ticket_update_returns_the_reread_ticket (ticketId : Z)
    (updates : Updates) (currentTicket payload response raw ticket : value)
    (reread : completion value) (s0 s1 s2 s3 : S) :
  let endpoint := "/api/tickets/" +:+ string_of_Z ticketId +:+ "/" in
  http_get endpoint VUndefined None s0 = (Resolved currentTicket, s1) ->
  truthy (first_record VUndefined currentTicket) = true ->
  putData ticketId updates (first_record VUndefined currentTicket)
  = Resolved payload ->
  http_put endpoint payload s1 = (Resolved response, s2) ->
  first_match response = Some raw ->
  ticketToUserFriendly raw = Resolved ticket ->
  http_get endpoint VUndefined None s2 = (reread, s3) ->
  exists resp : ToolResponse,
    actualizarTicket ticketId updates s0 = (Resolved resp, s3) /\
    success resp = true /\
    prop (debugInfo resp) "sentToAPI" = payload /\
    match reread with
    | Resolved verifyResponse =>
        let verified := first_record VNull verifyResponse in
        prop (debugInfo resp) "verifiedTicket" = verified /\
        if truthy verified
        then ticketToUserFriendly verified = Resolved (data resp)
        else data resp = ticket
    | Rejected _ =>
        prop (debugInfo resp) "verifiedTicket" = VNull /\
        data resp = ticket
    end.
Proof.
  intros endpoint Hget Hdata Hpayload Hput Hmatch Hnorm Hreread.
  assert (Hticket : ticket_of_response response = Resolved ticket).
  { unfold ticket_of_response.
    destruct response; try discriminate; now rewrite Hmatch. }
  assert (Htruthy : truthy ticket = true).
  { unfold ticketToUserFriendly in Hnorm.
    destruct raw; try discriminate; injection Hnorm as <-; reflexivity. }
  unfold actualizarTicket, try_catch. fold endpoint.
  unfold bind at 1. rewrite Hget, Hdata. cbn [negb].
  unfold bind at 1, lift. rewrite Hpayload.
  unfold bind at 1. rewrite Hput.
  unfold bind at 1. rewrite Hticket, Htruthy. cbn [negb].
  unfold bind, verify_ticket. rewrite Hreread.
  destruct reread as [verifyResponse|e].
  - destruct (truthy (first_record VNull verifyResponse)) eqn:Hv.
    + destruct (first_record VNull verifyResponse) eqn:Hrec;
        try discriminate; unfold ret;
        (eexists; split; [reflexivity|]; repeat split).
    + unfold ret. eexists. split; [reflexivity|]. repeat split.
  - unfold ret. eexists. split; [reflexivity|]. repeat split.
Qed.

End TicketUpdates.

(** X18. The subject of a ticket is classified by the first keyword of
    the table that occurs in it, so the later entries that contain an
    earlier keyword never decide: every subject that mentions
    [internet] (also within [sin internet] or [no internet]) is filed
    as [Internet Lento], and a subject that mentions [conexion] (also
    within [reconexion] or [desconexion]) is filed as [Internet Lento]
    or [No Tiene Internet], never as [Reconexion] or
    [Internet Intermitente]. *)
Theorem subject_is_filed_by_first_keyword (asunto : string) :
  let lower := toLowerCase asunto in
  let filed := TicketService.getDefaultAsunto (VStr asunto) in
  ((includes "internet" lower = true \/
    includes "sin internet" lower = true \/
    includes "no internet" lower = true) ->
   filed = Resolved "Internet Lento") /\
  ((includes "conexion" lower = true \/
    includes "reconexion" lower = true \/
    includes "desconexion" lower = true) ->
   filed = Resolved "Internet Lento" \/
   filed = Resolved "No Tiene Internet") /\
  (exists label,
     filed = Resolved label /\
     (label = "Otro Asunto" \/ In label (map snd TicketService.asuntoMap))).
Proof.
  intros lower filed. unfold filed, TicketService.getDefaultAsunto.
  fold lower. split; [|split].
  - intros H.
    assert (Hi : includes "internet" lower = true).
    { destruct H as [H | [H | H]]; [exact H| |];
        refine (includes_trans _ _ _ _ H); reflexivity. }
    unfold TicketService.asuntoMap. cbn [find fst snd].
    now rewrite Hi.
  - intros H.
    assert (Hc : includes "conexion" lower = true).
    { destruct H as [H | [H | H]]; [exact H| |];
        refine (includes_trans _ _ _ _ H); reflexivity. }
    unfold TicketService.asuntoMap. cbn [find fst snd].
    destruct (includes "internet" lower); [now left|].
    destruct (includes "lento" lower); [now left|].
    destruct (includes "velocidad" lower); [now left|].
    destruct (includes "no internet" lower); [now right|].
    destruct (includes "sin internet" lower); [now right|].
    rewrite Hc. now right.
  - eexists. split; [reflexivity|].
    destruct (find (fun kw => includes (fst kw) lower) TicketService.asuntoMap)
      as [kw|] eqn:Hf; [right|now left].
    apply find_some in Hf. apply in_map. apply Hf.
Qed.

Lemma subject_is_filed_by_first_keyword_witness :
  TicketService.getDefaultAsunto (VStr "Sin internet desde ayer")
  = Resolved "Internet Lento".
Proof.
  apply (proj1 (subject_is_filed_by_first_keyword "Sin internet desde ayer")).
  right. left. reflexivity.
Defined.

Lemma payload_technician_is_never_blank_witness :
  match obj_lookup "tecnico" Samples.assign_payload with
  | None => True
  | Some (VStr t) => trim t <> ""
  | Some _ => False
  end.
Proof.
  apply (payload_technician_is_never_blank (RT := sample_runtime) 15
           Samples.assign_technician Samples.ticket_15).
  vm_compute. reflexivity.
Defined.

Lemma reopening_keeps_the_closure_stamp_witness :
  obj_lookup "estado" Samples.reopen_payload = Some (VNum 1) /\
  obj_lookup "razon_falla" Samples.reopen_payload = Some (VStr "Otro") /\
  obj_lookup "fecha_fin" Samples.reopen_payload
  = Some (VStr "21/06/2025 18:30:00") /\
  obj_lookup "finalizado_por" Samples.reopen_payload
  = Some (VStr "admin@almacreativa") /\
  obj_lookup "fecha_inicio" Samples.reopen_payload
  = Some (VStr "20/06/2025 10:00:00").
Proof.
  apply (reopening_keeps_the_closure_stamp (RT := sample_runtime) 16
           Samples.reopen "nuevo" Samples.closed_ticket
           Samples.reopen_payload).
  - reflexivity.
  - left. reflexivity.
  - vm_compute. reflexivity.
Defined.

Lemma record_with_structured_technician_cannot_be_updated_witness :
  exists resp : ToolResponse,
    TicketService.actualizarTicket (RT := sample_runtime)
      (HC := Samples.structured_client) 17 Samples.resolve_with_note
      Samples.fresh
    = (Resolved resp, Samples.after_structured_read) /\
    success resp = false /\
    data resp = VUndefined.
Proof.
  apply (record_with_structured_technician_cannot_be_updated
           (RT := sample_runtime) (HC := Samples.structured_client)
           17 Samples.resolve_with_note Samples.ticket_with_technician
           [("id", VNum 17);
            ("asunto", VStr "Router sin luz");
            ("estado", VNum 1);
            ("tecnico", VObj [("id", VNum 3); ("nombre", VStr "Luis")])]).
  - vm_compute. reflexivity.
  - reflexivity.
  - reflexivity.
  - reflexivity.
Defined.

Lemma ticket_update_returns_the_reread_ticket_witness :
  exists resp : ToolResponse,
    TicketService.actualizarTicket (RT := sample_runtime)
      (HC := Samples.ticket_client) 15 Samples.resolve_with_note
      Samples.fresh
    = (Resolved resp, Samples.ticket_reread) /\
    success resp = true /\
    prop (debugInfo resp) "sentToAPI" = VObj Samples.resolve_payload /\
    prop (debugInfo resp) "verifiedTicket" = Samples.ticket_15 /\
    DataTransformer.ticketToUserFriendly (RT := sample_runtime)
      Samples.ticket_15 = Resolved (data resp).
Proof.
  apply (ticket_update_returns_the_reread_ticket (RT := sample_runtime)
           (HC := Samples.ticket_client) 15 Samples.resolve_with_note
           Samples.ticket_15 (VObj Samples.resolve_payload)
           Samples.ticket_15 Samples.ticket_15 Samples.ticket_15_friendly
           (Resolved Samples.ticket_15)
           Samples.fresh Samples.ticket_read Samples.ticket_put
           Samples.ticket_reread).
  - vm_compute. reflexivity.
  - reflexivity.
  - vm_compute. reflexivity.
  - vm_compute. reflexivity.
  - reflexivity.
  - reflexivity.
  - vm_compute. reflexivity.
Defined.

(* ================================================================== *)
(** * Further properties of the normalizer *)
(* ================================================================== *)

Section SaldoEdges.

Import DataTransformer.

Context {RT : Runtime}.

(** X19. An invoice whose due date cannot be read as a date, and for
    which upstream supplied no overdue days (or zero), gets [NaN]
    overdue days. Such an invoice is itself classified [muy_vencida],
    while it counts as zero days for the account: a balance all of
    whose invoices are in that case is [al_corriente] although each of
    its invoices is [muy_vencida]. *)
Theorem unreadable_due_date_is_severe_but_does_not_count (hoy : Z)
    (apiSaldo : ApiSaldo) :
  Forall (fun factura =>
            exists s,
              api_fecha_vencimiento factura = Some s /\ s <> "" /\
              Date_getTime s = None /\
              (api_dias_vencido factura = None \/
               api_dias_vencido factura = Some (Int 0) \/
               api_dias_vencido factura = Some NaN))
         (invoices_of apiSaldo) ->
  let out := saldoToUserFriendly hoy apiSaldo in
  Forall (fun f => dias_vencido f = NaN /\ estado_vencimiento f = muy_vencida)
         (facturas out) /\
  List.length (facturas out) = List.length (invoices_of apiSaldo) /\
  estado_cuenta out = al_corriente.
Proof.
  intros Hall out. unfold out, saldoToUserFriendly. cbn [facturas estado_cuenta].
  rewrite !map_map. cbn [fst snd].
  assert (Hnan : Forall (fun factura => diasVencido hoy factura = NaN)
                        (invoices_of apiSaldo)).
  { eapply List.Forall_impl; [|exact Hall]. cbv beta.
    intros factura (s & Hs & Hne & Hd & Hsup).
    unfold diasVencido. rewrite Hs.
    apply String.eqb_neq in Hne. rewrite Hne, Hd.
    destruct Hsup as [-> | [-> | ->]]; reflexivity. }
  clear Hall. split; [|split].
  - induction Hnan as [|factura l Hf Hl IH]; constructor; [|exact IH].
    cbn [dias_vencido estado_vencimiento]. rewrite Hf. split; reflexivity.
  - now rewrite length_map.
  - apply determinarEstadoCuenta_spec.
    induction Hnan as [|factura l Hf Hl IH]; constructor; [|exact IH].
    rewrite Hf. simpl. lia.
Qed.

End SaldoEdges.

Lemma unreadable_due_date_is_severe_but_does_not_count_witness :
  let out := DataTransformer.saldoToUserFriendly (RT := sample_runtime) 0
               (Samples.one_invoice "pronto") in
  Forall (fun f => DataTransformer.dias_vencido f = DataTransformer.NaN /\
                   DataTransformer.estado_vencimiento f
                   = DataTransformer.muy_vencida)
         (DataTransformer.facturas out) /\
  List.length (DataTransformer.facturas out) = 1%nat /\
  DataTransformer.estado_cuenta out = DataTransformer.al_corriente.
Proof.
  apply (unreadable_due_date_is_severe_but_does_not_count
           (RT := sample_runtime) 0 (Samples.one_invoice "pronto")).
  repeat constructor. exists "pronto".
  split; [reflexivity|]. split; [discriminate|]. split; [reflexivity|].
  left. reflexivity.
Defined.

(** [String(n)] tells the integers apart. *)
Lemma string_of_Z_inj (a b : Z) : string_of_Z a = string_of_Z b -> a = b.
Proof.
  unfold string_of_Z. intros H.
  assert (Hn : forall z, Z.to_int z <> Decimal.Pos Decimal.Nil /\
                         Z.to_int z <> Decimal.Neg Decimal.Nil).
  { intros [|q|q]; simpl; split; try discriminate; intros [= E];
      now apply DecimalPos.Unsigned.to_uint_nonnil in E. }
  apply (f_equal NilZero.int_of_string) in H.
  rewrite !NilZero.isi in H by apply Hn.
  injection H as H. apply (f_equal Z.of_int) in H.
  now rewrite !DecimalZ.of_to in H.
Qed.

Lemma string_of_Z_eqb (a b : Z) :
  String.eqb (string_of_Z a) (string_of_Z b) = (a =? b)%Z.
Proof.
  destruct (a =? b)%Z eqn:E.
  - apply Z.eqb_eq in E. subst. apply String.eqb_refl.
  - apply String.eqb_neq. intros H. apply string_of_Z_inj in H.
    apply Z.eqb_neq in E. contradiction.
Qed.

Section EnumEdges.

Import DataTransformer.

Context {RT : Runtime}.

(** X20. The normalized status of a client is always one of the three
    canonical values, and it is [cancelado] for every upstream status
    other than the five spellings of the table: the match is exact, so
    a missing status, or [activo] in lower case, reads [cancelado].
    (Names inherited from [Object.prototype] are left aside.) *)
Theorem unknown_client_status_reads_cancelado (estado : value) :
  ~ In (to_string estado) Object_prototype_names ->
  let e := estadoClienteStringToEnum estado in
  (e = VStr "activo" \/ e = VStr "suspendido" \/ e = VStr "cancelado") /\
  (~ In (to_string estado)
        ["Activo"; "Suspendido"; "Cancelado"; "Cortado"; "Inactivo"] ->
   e = VStr "cancelado") /\
  (e = VStr "activo" <-> to_string estado = "Activo") /\
  (forall raw cliente,
     prop raw "estado" = estado ->
     clienteToUserFriendly raw = Resolved cliente ->
     prop cliente "estado" = e).
Proof.
  intros _ e. unfold e, estadoClienteStringToEnum, index, ESTADO_CLIENTE_MAP.
  rewrite prop_obj. cbn [obj_lookup].
  split; [|split; [|split]].
  - repeat match goal with
           | |- context [if ?b then _ else _] => destruct b
           end; cbn; auto.
  - intros Hnot.
    repeat match goal with
           | |- context [if String.eqb ?a ?b then _ else _] =>
               destruct (String.eqb_spec a b) as [?Heq|?Hne];
               [exfalso; apply Hnot; cbn; auto 10|]
           end.
    reflexivity.
  - destruct (String.eqb_spec (to_string estado) "Activo") as [Heq|Hne].
    + cbn. tauto.
    + repeat match goal with
             | |- context [if ?b then _ else _] => destruct b
             end; cbn; split; (discriminate || contradiction).
  - intros raw cliente Hraw Hnorm. subst estado.
    unfold clienteToUserFriendly in Hnorm.
    destruct raw; try discriminate;
      match type of Hnorm with
      | context [match ?x with _ => _ end] => destruct x
      end; try discriminate; injection Hnorm as <-; reflexivity.
Qed.

(** X21. The integer codes 1 to 4 of a ticket status or priority
    survive normalization and the way back; every other code
    normalizes to the label [abierto] (status) or [media] (priority),
    which is none of the canonical values, and goes back upstream as
    code 1 (status) or 2 (priority). *)
Theorem unknown_ticket_codes_collapse (n : Z) :
  let known := ((1 <=? n) && (n <=? 4))%Z%bool in
  estadoTicketToNumber (estadoTicketToString (VNum n))
  = VNum (if known then n else 1) /\
  prioridadTicketToNumber (prioridadTicketToString (VNum n))
  = VNum (if known then n else 2) /\
  (known = false ->
   estadoTicketToString (VNum n) = VStr "abierto" /\
   prioridadTicketToString (VNum n) = VStr "media") /\
  (forall v, VStr (EstadoTicket_str v) <> VStr "abierto") /\
  (forall p, VStr (PrioridadTicket_str p) <> VStr "media").
Proof.
  intros known.
  assert (Hs : estadoTicketToString (VNum n)
               = if (n =? 1)%Z then VStr "nuevo"
                 else if (n =? 2)%Z then VStr "en_progreso"
                 else if (n =? 3)%Z then VStr "resuelto"
                 else if (n =? 4)%Z then VStr "cerrado"
                 else VStr "abierto").
  { unfold estadoTicketToString, index, ESTADO_TICKET_MAP.
    rewrite prop_obj. cbn [obj_lookup to_string].
    change "1" with (string_of_Z 1). change "2" with (string_of_Z 2).
    change "3" with (string_of_Z 3). change "4" with (string_of_Z 4).
    rewrite !string_of_Z_eqb.
    destruct (n =? 1)%Z; [reflexivity|]. destruct (n =? 2)%Z; [reflexivity|].
    destruct (n =? 3)%Z; [reflexivity|]. destruct (n =? 4)%Z; reflexivity. }
  assert (Hp : prioridadTicketToString (VNum n)
               = if (n =? 1)%Z then VStr "baja"
                 else if (n =? 2)%Z then VStr "normal"
                 else if (n =? 3)%Z then VStr "alta"
                 else if (n =? 4)%Z then VStr "muy_alta"
                 else VStr "media").
  { unfold prioridadTicketToString, index, PRIORIDAD_TICKET_MAP.
    rewrite prop_obj. cbn [obj_lookup to_string].
    change "1" with (string_of_Z 1). change "2" with (string_of_Z 2).
    change "3" with (string_of_Z 3). change "4" with (string_of_Z 4).
    rewrite !string_of_Z_eqb.
    destruct (n =? 1)%Z; [reflexivity|]. destruct (n =? 2)%Z; [reflexivity|].
    destruct (n =? 3)%Z; [reflexivity|]. destruct (n =? 4)%Z; reflexivity. }
  rewrite Hs, Hp. unfold known.
  destruct (Z.eqb_spec n 1) as [->|H1]; [repeat split; try discriminate;
    intros []; discriminate|].
  destruct (Z.eqb_spec n 2) as [->|H2]; [repeat split; try discriminate;
    intros []; discriminate|].
  destruct (Z.eqb_spec n 3) as [->|H3]; [repeat split; try discriminate;
    intros []; discriminate|].
  destruct (Z.eqb_spec n 4) as [->|H4]; [repeat split; try discriminate;
    intros []; discriminate|].
  assert (Hk : ((1 <=? n) && (n <=? 4))%Z%bool = false).
  { destruct (1 <=? n)%Z eqn:E1; [|reflexivity].
    destruct (n <=? 4)%Z eqn:E4; [|reflexivity].
    apply Z.leb_le in E1, E4. lia. }
  rewrite Hk. repeat split; try (intros []; discriminate).
Qed.

(** The three validators of the normalizer test against the
    legacy vocabulary: of the canonical ticket statuses only [cerrado]
    is accepted, of the canonical priorities only [baja] and [alta],
    while the fallback labels [abierto] and [media] are accepted; the
    canonical client statuses are all accepted. *)
Theorem validators_use_the_legacy_vocabulary :
  (forall v, isValidEstadoCliente (VStr (EstadoCliente_str v)) = true) /\
  (forall v, isValidEstadoTicket (VStr (EstadoTicket_str v)) = true
             <-> v = cerrado) /\
  (forall p, isValidPrioridadTicket (VStr (PrioridadTicket_str p)) = true
             <-> p = baja \/ p = alta) /\
  isValidEstadoTicket (estadoTicketToString VUndefined) = true /\
  isValidPrioridadTicket (prioridadTicketToString VUndefined) = true.
Proof.
  split; [intros []; reflexivity|].
  split; [intros []; cbn; split; intros H; try reflexivity; discriminate|].
  split; [|split; reflexivity].
  intros []; cbn; split; intros H; try reflexivity; try discriminate;
    try (now left); try (now right); destruct H; discriminate.
Qed.

End EnumEdges.

Lemma unknown_client_status_reads_cancelado_witness :
  DataTransformer.estadoClienteStringToEnum (VStr "activo") = VStr "cancelado".
Proof.
  refine (proj1 (proj2
    (unknown_client_status_reads_cancelado (RT := sample_runtime)
       (VStr "activo") _)) _).
  - cbn. intros H. repeat (destruct H as [H|H]; [discriminate|]). exact H.
  - cbn. intros H. repeat (destruct H as [H|H]; [discriminate|]). exact H.
Defined.

Lemma unknown_ticket_codes_collapse_witness :
  DataTransformer.estadoTicketToString (VNum 7) = VStr "abierto" /\
  DataTransformer.prioridadTicketToString (VNum 7) = VStr "media".
Proof.
  apply (proj1 (proj2 (proj2 (unknown_ticket_codes_collapse 7)))).
  reflexivity.
Defined.

(** ** Service ids as decimal strings *)

Lemma uint_string_all_digits (d : Decimal.uint) :
  all_digits (NilEmpty.string_of_uint d) = true.
Proof. induction d; simpl; auto. Qed.

(** The digits of a numeral, read from the left with an accumulator. *)
Lemma uint_string_value_acc (d : Decimal.uint) (q : positive) :
  fold_left (fun acc c => 10 * acc + Z.of_nat (nat_of_ascii c - 48))
            (list_ascii_of_string (NilEmpty.string_of_uint d)) (Z.pos q)
  = Z.pos (Pos.of_uint_acc d q).
Proof.
  revert q. induction d; intros q; cbn [NilEmpty.string_of_uint
    list_ascii_of_string fold_left Pos.of_uint_acc]; [reflexivity|..];
    match goal with
    | |- fold_left _ _ ?a = _ =>
        match goal with
        | |- _ = Z.pos (Pos.of_uint_acc _ ?b) =>
            replace a with (Z.pos b)
              by (match goal with
                  | |- context [Z.of_nat ?n] =>
                      let v := eval vm_compute in (Z.of_nat n) in
                      change (Z.of_nat n) with v
                  end; lia)
        end
    end; apply IHd.
Qed.

Lemma uint_string_value (d : Decimal.uint) :
  fold_left (fun acc c => 10 * acc + Z.of_nat (nat_of_ascii c - 48))
            (list_ascii_of_string (NilEmpty.string_of_uint d)) 0
  = Z.of_N (Pos.of_uint d).
Proof.
  induction d; cbn [NilEmpty.string_of_uint list_ascii_of_string fold_left
                      Pos.of_uint]; [reflexivity|exact IHd|..];
    match goal with
    | |- fold_left _ _ ?a = Z.of_N (N.pos (Pos.of_uint_acc _ ?b)) =>
        replace a with (Z.pos b)
          by (match goal with
              | |- context [Z.of_nat ?n] =>
                  let v := eval vm_compute in (Z.of_nat n) in
                  change (Z.of_nat n) with v
              end; lia)
    end; apply uint_string_value_acc.
Qed.

(** The decimal string of a positive integer is all digits and parses
    back to it. *)
Lemma service_id_string (id : Z) :
  (0 < id)%Z ->
  digits_only (string_of_Z id) = true /\
  parseInt_digits (string_of_Z id) = id.
Proof.
  intros Hid. destruct id as [|p|p]; try lia.
  assert (Hs : string_of_Z (Z.pos p)
               = NilEmpty.string_of_uint (Pos.to_uint p)).
  { unfold string_of_Z. cbn [Z.to_int NilZero.string_of_int].
    unfold NilZero.string_of_uint.
    pose proof (DecimalPos.Unsigned.to_uint_nonnil p) as Hn.
    destruct (Pos.to_uint p); [contradiction|reflexivity..]. }
  split.
  - unfold digits_only. rewrite Hs, uint_string_all_digits, andb_true_r.
    pose proof (DecimalPos.Unsigned.to_uint_nonnil p) as Hn.
    destruct (Pos.to_uint p); [contradiction|reflexivity..].
  - unfold parseInt_digits. rewrite Hs, uint_string_value.
    now rewrite DecimalPos.Unsigned.of_to.
Qed.

Lemma lookup_target_of_id (id : Z) :
  (0 < id)%Z ->
  ClienteService.lookup_target (string_of_Z id)
  = Resolved ("/api/clientes/" +:+ string_of_Z id +:+ "/", VObj []).
Proof.
  intros Hid. destruct (service_id_string id Hid) as [Hd Hp].
  unfold ClienteService.lookup_target. rewrite Hd, Hp.
  assert (DataTransformer.isValidServicioId id = true) as ->
    by (apply Z.ltb_lt; exact Hid).
  reflexivity.
Qed.

(** X22. The decimal string of a positive service id (a safe integer,
    which [toString] prints in full) is all digits and parses back to
    the same id, so a lookup by that string, as the service and the
    tools make it with [id.toString()], is a direct read of
    [/api/clientes/<id>/] without search parameters. *)
Theorem service_id_string_is_looked_up_by_id (id : Z) :
  (0 < id < 2 ^ 53)%Z ->
  digits_only (string_of_Z id) = true /\
  parseInt_digits (string_of_Z id) = id /\
  ClienteService.lookup_target (string_of_Z id)
  = Resolved ("/api/clientes/" +:+ string_of_Z id +:+ "/", VObj []).
Proof.
  intros [Hid _]. destruct (service_id_string id Hid) as [Hd Hp].
  split; [exact Hd|]. split; [exact Hp|].
  exact (lookup_target_of_id id Hid).
Qed.

Lemma service_id_string_is_looked_up_by_id_witness :
  ClienteService.lookup_target (string_of_Z 1042)
  = Resolved ("/api/clientes/" +:+ string_of_Z 1042 +:+ "/", VObj []).
Proof.
  refine (proj2 (proj2 (service_id_string_is_looked_up_by_id 1042 _))).
  lia.
Defined.

(* ================================================================== *)
(** * Properties of the state changes, the listings and ticket creation *)
(* ================================================================== *)

Section StateChanges.

Import ClienteService DataTransformer.

Context {RT : Runtime} {S : Type} {HC : HttpClient S} {HW : HttpWriter S}.
Variable config : WispHubClient.ServerConfig.

(** X23. A state change is refused before any request when the
    service id is not positive, and a suspension or a cancellation also
    when the reason is absent, empty or blank: the state of the client
    is untouched and the result is a failure that names the reason. An
    activation needs no reason. *)
Theorem refused_state_change_makes_no_request (params : ServicioInput.t)
    (s : S) :
  let failure (label reason : string) : completion ToolResponse * S :=
    (Resolved {| success := false; data := VUndefined;
                 error := Some (label +:+ reason);
                 debugInfo := VUndefined |}, s) in
  ((ServicioInput.id_servicio params <= 0)%Z ->
   activarServicio params s
   = failure "Error activando servicio: " "ID de servicio inválido" /\
   desactivarServicio config params s
   = failure "Error desactivando servicio: " "ID de servicio inválido" /\
   cancelarServicio params s
   = failure "Error cancelando servicio: " "ID de servicio inválido") /\
  ((0 < ServicioInput.id_servicio params)%Z ->
   match ServicioInput.motivo params with
   | Some m => trim m = ""
   | None => True
   end ->
   desactivarServicio config params s
   = failure "Error desactivando servicio: "
             "Motivo es obligatorio para desactivar servicio" /\
   cancelarServicio params s
   = failure "Error cancelando servicio: "
             "Motivo es obligatorio para cancelar servicio").
Proof.
  intros failure. unfold failure. split.
  - intros Hid.
    unfold activarServicio, desactivarServicio, cancelarServicio, try_catch.
    assert (isValidServicioId (ServicioInput.id_servicio params) = false) as ->
      by (apply Z.ltb_ge; exact Hid).
    repeat split.
  - intros Hid Hblank.
    unfold desactivarServicio, cancelarServicio, try_catch.
    assert (isValidServicioId (ServicioInput.id_servicio params) = true) as ->
      by (apply Z.ltb_lt; exact Hid).
    assert (motivo_missing params = true) as ->.
    { unfold motivo_missing, given.
      destruct (ServicioInput.motivo params) as [m|]; [|reflexivity].
      destruct (String.eqb m ""); [reflexivity|]. now rewrite Hblank. }
    repeat split.
Qed.

(** X24. A suspension with a positive service id and a reason that
    is not blank (one that [trim] does not leave empty: white space
    outside ASCII is blank too), whose PATCH is accepted, is reported
    as a success whatever the verification shows. After the PATCH the cache
    is cleared and the client is looked up again by its id;
    [statusChanged] is true exactly when that lookup succeeded with a
    record whose normalized status is [suspendido], and
    [verificationWorked] exactly when it yielded a record. *)
Theorem suspension_succeeds_whatever_the_reread_shows
    (params : ServicioInput.t) (m : string) (response : value)
    (reread : ToolResponse) (s0 s1 s2 : S) :
  (0 < ServicioInput.id_servicio params)%Z ->
  ServicioInput.motivo params = Some m ->
  trim m <> "" ->
  let endpoint :=
    "/api/clientes/" +:+ string_of_Z (ServicioInput.id_servicio params)
    +:+ "/" in
  let sent := VObj [("estado", VStr "Suspendido");
                    ("comentarios", VStr (trim m))] in
  http_patch endpoint sent s0 = (Resolved response, s1) ->
  obtenerCliente config (string_of_Z (ServicioInput.id_servicio params))
    (http_clearCache s1) = (Resolved reread, s2) ->
  exists resp : ToolResponse,
    desactivarServicio config params s0 = (Resolved resp, s2) /\
    success resp = true /\
    prop (data resp) "accion" = VStr "desactivar" /\
    prop (debugInfo resp) "sentToAPI" = sent /\
    prop (debugInfo resp) "verificationWorked"
    = VBool (success reread && truthy (data reread)) /\
    prop (debugInfo resp) "statusChanged"
    = VBool (success reread && truthy (data reread) &&
             strict_eq (prop (data reread) "estado") (VStr "suspendido")).
Proof.
  intros Hid Hm Hblank endpoint sent Hpatch Hread.
  unfold desactivarServicio, try_catch.
  assert (isValidServicioId (ServicioInput.id_servicio params) = true) as ->
    by (apply Z.ltb_lt; exact Hid).
  assert (motivo_missing params = false) as ->.
  { unfold motivo_missing, given. rewrite Hm.
    destruct (String.eqb_spec m "") as [->|_]; [now elim Hblank|].
    destruct (trim m); [now elim Hblank|reflexivity]. }
  cbn [negb]. unfold motivo_trimmed. rewrite Hm.
  fold endpoint. fold sent. cbv zeta.
  unfold bind at 1. rewrite Hpatch.
  unfold bind at 1, modify. unfold bind at 1. rewrite Hread. unfold ret.
  eexists. split; [reflexivity|].
  cbn [success data debugInfo].
  destruct (success reread); cbn [andb];
    [destruct (truthy (data reread)) eqn:Ht|]; repeat split.
Qed.

End StateChanges.

Section Listings.

Import ClienteService TicketService DataTransformer.

Context {RT : Runtime} {UC : Unicode} {S : Type}
        {HC : HttpClient S} {HW : HttpWriter S}.
Variable config : WispHubClient.ServerConfig.

(** X26. The client listing accepts a bare array and a paginated
    envelope alike: either way the result holds the normalization of
    every record, in order. An object without [results] lists nothing.
    One record that cannot be normalized fails the whole listing. The
    request always carries a [limit], 20 when none (or 0) is asked
    for. *)
Theorem client_listing_reads_both_shapes (params : ConsultarClientesInput.t)
    (response : value) (items : list value) (s0 s1 : S) :
  http_get "/api/clientes/" (VObj (apiParams params))
    (Some (WispHubClient.cache_clientes config)) s0
  = (Resolved response, s1) ->
  (response = VArr items \/
   (exists fs, response = VObj fs /\
      (obj_lookup "results" fs = Some (VArr items) \/
       (obj_lookup "results" fs = None /\ items = [])))) ->
  match map_completion clienteToUserFriendly items with
  | Resolved clientes =>
      consultarClientes config params s0
      = (Resolved {| success := true; data := VArr clientes; error := None;
                     debugInfo := VUndefined |}, s1) /\
      List.length clientes = List.length items
  | Rejected e =>
      consultarClientes config params s0
      = (Resolved {| success := false; data := VUndefined;
                     error := Some ("Error consultando clientes: "
                                    +:+ message e);
                     debugInfo := VUndefined |}, s1)
  end /\
  exists n, obj_lookup "limit" (apiParams params) = Some (VNum n) /\
            n <> 0%Z /\
            (ConsultarClientesInput.limit params = None -> n = 20%Z).
Proof.
  intros Hget Hshape.
  assert (Hl : listed response = Resolved items).
  { destruct Hshape as [-> | (fs & -> & [Hr | [Hr ->]])].
    - reflexivity.
    - unfold listed. rewrite prop_obj, Hr. reflexivity.
    - unfold listed. rewrite prop_obj, Hr. reflexivity. }
  split.
  - unfold consultarClientes, try_catch, bind, lift.
    rewrite Hget. cbv beta iota. rewrite Hl. cbv beta iota.
    destruct (map_completion clienteToUserFriendly items) as [clientes|e]
      eqn:Hmap; [|reflexivity].
    split; [reflexivity|].
    clear -Hmap. revert clientes Hmap.
    induction items as [|x items IH]; intros clientes; simpl.
    + intros [= <-]. reflexivity.
    + destruct (clienteToUserFriendly x); [|discriminate].
      destruct (map_completion clienteToUserFriendly items); [|discriminate].
      intros [= <-]. simpl. f_equal. now apply IH.
  - unfold apiParams. cbn [obj_lookup app String.eqb Ascii.eqb Bool.eqb].
    eexists. split; [reflexivity|].
    destruct (ConsultarClientesInput.limit params) as [n|].
    + destruct (Z.eqb_spec n 0); split; try discriminate; try assumption.
    + split; [discriminate|reflexivity].
Qed.

(** X27. The ticket listing reads a bare array only: for any other
    answer, a paginated envelope with [results] included, it reports a
    success with no ticket at all. *)
Theorem ticket_listing_drops_an_envelope (servicioId : Z) (response : value)
    (s0 s1 : S) :
  (0 < servicioId)%Z ->
  http_get "/api/tickets/" (VObj [("servicio", VNum servicioId)])
    (Some (WispHubClient.cache_tickets config)) s0
  = (Resolved response, s1) ->
  is_array response = false ->
  obtenerTicketsCliente config servicioId s0
  = (Resolved {| success := true; data := VArr []; error := None;
                 debugInfo := VUndefined |}, s1).
Proof.
  intros Hid Hget Harr.
  unfold obtenerTicketsCliente, try_catch.
  assert (isValidServicioId servicioId = true) as ->
    by (apply Z.ltb_lt; exact Hid).
  cbn [negb]. unfold bind at 1. rewrite Hget.
  destruct response; try discriminate; reflexivity.
Qed.

(** X28. Every new ticket goes upstream with status code 1, the fixed
    technician and origin, the subject and description trimmed, and a
    priority code that is 2 unless one of the canonical priorities is
    named. When the POST is answered with [null] or nothing, the
    service reports a failure although the request was sent; any other
    answer is normalized and returned as a success. *)
Theorem ticket_creation_payload_and_answer (params : CrearTicketInput.t) :
  (0 < CrearTicketInput.servicio params)%Z ->
  exists fields : list (string * value),
    nuevo_ticket params = Resolved (VObj fields) /\
    obj_lookup "estado" fields = Some (VNum 1) /\
    obj_lookup "tecnico" fields = Some (VStr "3288010") /\
    obj_lookup "origen_reporte" fields = Some (VStr "portal_cliente") /\
    obj_lookup "asunto" fields
    = Some (VStr (trim (CrearTicketInput.asunto params))) /\
    (provided (CrearTicketInput.prioridad params) = None ->
     obj_lookup "prioridad" fields = Some (VNum 2)) /\
    (forall p,
       CrearTicketInput.prioridad params = Some (PrioridadTicket_str p) ->
       prioridadTicketToString (prop (VObj fields) "prioridad")
       = VStr (PrioridadTicket_str p)) /\
    (forall (response : value) (s0 s1 : S),
       http_post "/api/tickets/" (VObj fields) s0 = (Resolved response, s1) ->
       exists resp : ToolResponse,
         crearTicket params s0 = (Resolved resp, s1) /\
         match response with
         | VUndefined | VNull => success resp = false
         | _ => success resp = true /\
                ticketToUserFriendly response = Resolved (data resp)
         end).
Proof.
  intros Hid. unfold nuevo_ticket. cbn [getDefaultAsunto].
  eexists. split; [reflexivity|].
  cbn [obj_lookup String.eqb Ascii.eqb Bool.eqb].
  repeat split.
  - intros Hp. now rewrite Hp.
  - intros p Hp. rewrite Hp. destruct p; reflexivity.
  - intros response s0 s1 Hpost.
    unfold crearTicket, try_catch.
    assert (isValidServicioId (CrearTicketInput.servicio params) = true) as ->
      by (apply Z.ltb_lt; exact Hid).
    cbn [negb]. unfold bind at 1, lift. unfold nuevo_ticket.
    cbn [getDefaultAsunto]. unfold bind at 1. rewrite Hpost.
    unfold bind, lift, ret.
    destruct response; cbn [ticketToUserFriendly];
      eexists; (split; [reflexivity|]); try reflexivity;
      split; reflexivity.
Qed.

End Listings.

Lemma refused_state_change_makes_no_request_witness :
  ClienteService.activarServicio (HW := Samples.reverting_writer)
    Samples.change_without_id Samples.fresh
  = (Resolved {| success := false; data := VUndefined;
                 error := Some ("Error activando servicio: "
                                +:+ "ID de servicio inválido");
                 debugInfo := VUndefined |}, Samples.fresh) /\
  ClienteService.cancelarServicio (HW := Samples.reverting_writer)
    Samples.change_without_reason Samples.fresh
  = (Resolved {| success := false; data := VUndefined;
                 error := Some ("Error cancelando servicio: "
                                +:+ "Motivo es obligatorio para cancelar servicio");
                 debugInfo := VUndefined |}, Samples.fresh).
Proof.
  split.
  - refine (proj1 (proj1
      (refused_state_change_makes_no_request (RT := sample_runtime)
         (HC := Samples.reverting_client) (HW := Samples.reverting_writer)
         WispHubClient.defaultConfig Samples.change_without_id
         Samples.fresh) _)).
    simpl. lia.
  - refine (proj2 (proj2
      (refused_state_change_makes_no_request (RT := sample_runtime)
         (HC := Samples.reverting_client) (HW := Samples.reverting_writer)
         WispHubClient.defaultConfig Samples.change_without_reason
         Samples.fresh) _ _)).
    + simpl. lia.
    + reflexivity.
Defined.

Lemma suspension_succeeds_whatever_the_reread_shows_witness :
  exists resp : ToolResponse,
    ClienteService.desactivarServicio (RT := sample_runtime)
      (HC := Samples.reverting_client) (HW := Samples.reverting_writer)
      WispHubClient.defaultConfig Samples.suspend_7 Samples.fresh
    = (Resolved resp, snd Samples.suspension_reread) /\
    success resp = true /\
    prop (data resp) "accion" = VStr "desactivar" /\
    prop (debugInfo resp) "sentToAPI"
    = VObj [("estado", VStr "Suspendido");
            ("comentarios", VStr "falta de pago")] /\
    prop (debugInfo resp) "verificationWorked" = VBool true /\
    prop (debugInfo resp) "statusChanged" = VBool false.
Proof.
  apply (suspension_succeeds_whatever_the_reread_shows (RT := sample_runtime)
           (HC := Samples.reverting_client) (HW := Samples.reverting_writer)
           WispHubClient.defaultConfig Samples.suspend_7 " falta de pago "
           (Samples.client_7 "falta de pago")
           Samples.suspension_reread_result
           Samples.fresh Samples.after_patch (snd Samples.suspension_reread)).
  - simpl. lia.
  - reflexivity.
  - discriminate.
  - vm_compute. reflexivity.
  - vm_compute. reflexivity.
Defined.

(** A reason that is one no-break space is blank: the suspension is
    refused and nothing is sent. *)
Lemma unspoken_reason_is_refused :
  ClienteService.desactivarServicio (RT := sample_runtime)
    (HC := Samples.reverting_client) (HW := Samples.reverting_writer)
    WispHubClient.defaultConfig Samples.suspend_7_unspoken Samples.fresh
  = (Resolved {| success := false; data := VUndefined;
                 error := Some ("Error desactivando servicio: "
                                +:+ "Motivo es obligatorio para desactivar servicio");
                 debugInfo := VUndefined |}, Samples.fresh).
Proof. vm_compute. reflexivity. Qed.

Lemma client_listing_reads_both_shapes_witness :
  exists clientes,
    ClienteService.consultarClientes (RT := sample_runtime)
      (UC := Samples.sample_unicode) (HC := Samples.paging_client)
      WispHubClient.defaultConfig Samples.list_all Samples.fresh
    = (Resolved {| success := true; data := VArr clientes; error := None;
                   debugInfo := VUndefined |}, Samples.after_listing) /\
    List.length clientes = 1%nat.
Proof.
  exists [Samples.client_7_old].
  refine (proj1
    (client_listing_reads_both_shapes (RT := sample_runtime)
       (UC := Samples.sample_unicode) (HC := Samples.paging_client)
       WispHubClient.defaultConfig Samples.list_all Samples.one_page
       [Samples.client_7 "old"] Samples.fresh Samples.after_listing _ _)).
  - vm_compute. reflexivity.
  - right. eexists. split; [reflexivity|]. left. reflexivity.
Defined.

Lemma ticket_listing_drops_an_envelope_witness :
  TicketService.obtenerTicketsCliente (RT := sample_runtime)
    (HC := Samples.paging_client) WispHubClient.defaultConfig 7 Samples.fresh
  = (Resolved {| success := true; data := VArr []; error := None;
                 debugInfo := VUndefined |}, Samples.after_ticket_listing).
Proof.
  apply (ticket_listing_drops_an_envelope (RT := sample_runtime)
           (HC := Samples.paging_client) WispHubClient.defaultConfig 7
           Samples.one_page Samples.fresh Samples.after_ticket_listing).
  - lia.
  - vm_compute. reflexivity.
  - reflexivity.
Defined.

Lemma ticket_creation_payload_and_answer_witness :
  exists fields : list (string * value),
    TicketService.nuevo_ticket Samples.new_ticket = Resolved (VObj fields) /\
    obj_lookup "estado" fields = Some (VNum 1) /\
    obj_lookup "tecnico" fields = Some (VStr "3288010").
Proof.
  destruct (ticket_creation_payload_and_answer (RT := sample_runtime)
              (HW := Samples.paging_writer) Samples.new_ticket)
    as (fields & Hbuilt & Hestado & Htecnico & _).
  - simpl. lia.
  - exists fields. split; [exact Hbuilt|]. split; assumption.
Defined.

(* ================================================================== *)
(** * The services over the real client: reads after writes *)
(* ================================================================== *)

Section ReadsAfterWrites.

Import ClienteService DataTransformer.

Context {RT : Runtime}.
Variable config : WispHubClient.ServerConfig.
Variable transport : nat -> WispHubClient.attempt.
Variable now : Z.

(** A PATCH through the real client leaves cache and pauses alone. *)
Lemma real_patch_keeps_cache (endpoint : string) (d : value)
    (s : WispHubClient.t * list Z) :
  let out := http_patch (HttpWriter := WispHub_writer config transport)
               endpoint d s in
  WispHubClient.cache (fst (snd out)) = WispHubClient.cache (fst s) /\
  snd (snd out) = snd s /\
  nth_error (WispHubClient.sent (fst (snd out)))
            (List.length (WispHubClient.sent (fst s)))
  = Some (WispHubClient.request "PATCH" endpoint VUndefined d).
Proof.
  cbn [http_patch WispHub_writer]. unfold WispHubClient.patch.
  pose proof (send_trace config transport
                (WispHubClient.request "PATCH" endpoint VUndefined d) (fst s))
    as [Hc Hn].
  destruct (WispHubClient.send config transport
              (WispHubClient.request "PATCH" endpoint VUndefined d) (fst s))
    as [r c]. simpl in *. auto.
Qed.

(** A lookup by id that finds its answer in the cache. *)
Lemma cached_lookup_is_answered_locally (id : Z)
    (entry : CacheManager.CacheEntry) (raw cliente : value)
    (s : WispHubClient.t * list Z) :
  (0 < id)%Z ->
  (0 < WispHubClient.cache_clientes config)%Z ->
  CacheManager.cache (WispHubClient.cache (fst s))
    !! WispHubClient.getCacheKey "GET"
         ("/api/clientes/" +:+ string_of_Z id +:+ "/") (VObj [])
  = Some entry ->
  (now <= CacheManager.expires entry)%Z ->
  first_match (CacheManager.entry_value entry) = Some raw ->
  clienteToUserFriendly raw = Resolved cliente ->
  exists (resp : ToolResponse) (s' : WispHubClient.t * list Z),
    obtenerCliente (HC := WispHub_http config transport now) config
      (string_of_Z id) s = (Resolved resp, s') /\
    success resp = true /\
    data resp = cliente /\
    WispHubClient.sent (fst s') = WispHubClient.sent (fst s) /\
    snd s' = snd s.
Proof.
  intros Hid Httl Hk Hexp Hm Hn.
  set (ep := "/api/clientes/" +:+ string_of_Z id +:+ "/") in *.
  assert (Htruthy : truthy (CacheManager.entry_value entry) = true).
  { destruct (CacheManager.entry_value entry); try discriminate; reflexivity. }
  assert (Hget :
    http_get (HttpClient := WispHub_http config transport now) ep (VObj [])
      (if (1 =? 1)%Z then Some (WispHubClient.cache_clientes config) else None)
      s
    = (Resolved (CacheManager.entry_value entry),
       (WispHubClient.with_cache
          {| CacheManager.cache :=
               CacheManager.cache (WispHubClient.cache (fst s));
             CacheManager.stats :=
               CacheManager.count_hit
                 (CacheManager.stats (WispHubClient.cache (fst s))) |}
          (fst s), snd s))).
  { cbn [http_get WispHub_http Z.eqb Pos.eqb]. unfold WispHubClient.get.
    rewrite (caching_positive _ Httl).
    rewrite (get_present_unexpired _ _ _ _ Hk Hexp), Htruthy.
    reflexivity. }
  destruct (attempt_round_found (HC := WispHub_http config transport now)
              config (string_of_Z id) 3 1 [] None ep (VObj [])
              _ raw cliente s _ (lookup_target_of_id id Hid) Hget Hm Hn)
    as (e & Hround & _).
  unfold obtenerCliente, obtenerClienteWithRetry.
  change (attempt_numbers 3) with [1%Z; 2%Z; 3%Z].
  cbn [attempt_loop]. unfold bind at 1. rewrite Hround. unfold ret.
  eexists. eexists. split; [reflexivity|]. repeat split.
Qed.

(** X25. An activation or a cancellation does not invalidate the
    cache. When the cache holds an unexpired answer for the client (as
    a lookup within the last [cache.clientes] milliseconds leaves one),
    the lookup by id that follows the PATCH is answered from the
    cache, without any request: it shows the record as it was read
    before the write. *)
Theorem state_change_leaves_the_cached_client (params : ServicioInput.t)
    (entry : CacheManager.CacheEntry) (raw cliente : value)
    (s : WispHubClient.t * list Z) :
  (0 < ServicioInput.id_servicio params)%Z ->
  (0 < WispHubClient.cache_clientes config)%Z ->
  CacheManager.cache (WispHubClient.cache (fst s))
    !! WispHubClient.getCacheKey "GET"
         ("/api/clientes/" +:+ string_of_Z (ServicioInput.id_servicio params)
          +:+ "/") (VObj [])
  = Some entry ->
  (now <= CacheManager.expires entry)%Z ->
  first_match (CacheManager.entry_value entry) = Some raw ->
  clienteToUserFriendly raw = Resolved cliente ->
  let stale (change : M (WispHubClient.t * list Z) ToolResponse) : Prop :=
    let s1 := snd (change s) in
    (List.length (WispHubClient.sent (fst s))
       < List.length (WispHubClient.sent (fst s1)))%nat /\
    exists (resp : ToolResponse) (s2 : WispHubClient.t * list Z),
      obtenerCliente (HC := WispHub_http config transport now) config
        (string_of_Z (ServicioInput.id_servicio params)) s1
      = (Resolved resp, s2) /\
      success resp = true /\
      data resp = cliente /\
      WispHubClient.sent (fst s2) = WispHubClient.sent (fst s1) in
  stale (activarServicio (HW := WispHub_writer config transport) params) /\
  (motivo_missing params = false ->
   stale (cancelarServicio (HW := WispHub_writer config transport) params)).
Proof.
  intros Hid Httl Hk Hexp Hm Hn stale.
  set (id := ServicioInput.id_servicio params) in *.
  assert (Hvalid : isValidServicioId id = true) by (apply Z.ltb_lt; exact Hid).
  assert (Hone : forall (d : value) (ok : ToolResponse) (label : string),
    stale (try_catch
             (bind (http_patch (HttpWriter := WispHub_writer config transport)
                      ("/api/clientes/" +:+ string_of_Z id +:+ "/") d)
                   (fun _ => ret ok))
             (fun e => ret (action_failed label e)))).
  { intros d ok label. unfold stale.
    set (s1 := snd (try_catch _ _ s)).
    assert (Hs1 : WispHubClient.cache (fst s1) = WispHubClient.cache (fst s) /\
                  (List.length (WispHubClient.sent (fst s))
                     < List.length (WispHubClient.sent (fst s1)))%nat).
    { unfold s1, try_catch, bind.
      pose proof (real_patch_keeps_cache
                    ("/api/clientes/" +:+ string_of_Z id +:+ "/") d s)
        as (Hc & _ & Hs).
      cbv zeta in Hc, Hs.
      destruct (http_patch (HttpWriter := WispHub_writer config transport)
                  ("/api/clientes/" +:+ string_of_Z id +:+ "/") d s)
        as [[r|e] s']; simpl in *; (split; [exact Hc|]);
        apply nth_error_Some; rewrite Hs; discriminate. }
    destruct Hs1 as [Hc Hlen]. split; [exact Hlen|].
    assert (Hk1 : CacheManager.cache (WispHubClient.cache (fst s1))
                  !! WispHubClient.getCacheKey "GET"
                       ("/api/clientes/" +:+ string_of_Z id +:+ "/") (VObj [])
                  = Some entry) by (rewrite Hc; exact Hk).
    destruct (cached_lookup_is_answered_locally id entry raw cliente s1
                Hid Httl Hk1 Hexp Hm Hn)
      as (resp & s2 & Hrun & Hok & Hdata & Hs2 & _).
    exists resp, s2. repeat split; assumption. }
  split.
  - unfold activarServicio. fold id. rewrite Hvalid. cbn [negb].
    apply Hone.
  - intros Hmotivo. unfold cancelarServicio. fold id.
    rewrite Hvalid, Hmotivo. cbn [negb].
    apply Hone.
Qed.

End ReadsAfterWrites.

Lemma state_change_leaves_the_cached_client_witness :
  exists (resp : ToolResponse) (s2 : WispHubClient.t * list Z),
    ClienteService.obtenerCliente (RT := sample_runtime)
      (HC := Samples.ignoring_client) WispHubClient.defaultConfig "7"
      (snd (ClienteService.activarServicio (HW := Samples.ignoring_writer)
              Samples.reactivate_7 Samples.after_first_read))
    = (Resolved resp, s2) /\
    data resp = Samples.client_7_old.
Proof.
  destruct (state_change_leaves_the_cached_client (RT := sample_runtime)
              WispHubClient.defaultConfig Samples.ignores_notes 0
              Samples.reactivate_7
              (CacheManager.mkEntry (Samples.client_7 "old") 300000)
              (Samples.client_7 "old") Samples.client_7_old
              Samples.after_first_read)
    as [(_ & resp & s2 & Hrun & _ & Hdata & _) _].
  - simpl. lia.
  - simpl. lia.
  - vm_compute. reflexivity.
  - simpl. lia.
  - reflexivity.
  - reflexivity.
  - exists resp, s2. split; assumption.
Defined.

Section UpstreamLabels.

Import TicketService DataTransformer.

Context {RT : Runtime}.

(** X29. The update path and the normalizer read upstream tickets
    differently. The labels [Nuevo], [En Progreso], [Resuelto],
    [Cerrado] and [Baja], [Normal], [Alta], which the update path takes
    for upstream's own spelling and turns into the codes 1 to 4 before
    sending the record back, are unknown to the normalizer: a ticket
    that carries one of them is returned with the fallback status
    [abierto] or the fallback priority [media]. *)
Theorem upstream_labels_are_read_as_fallbacks (label : string) (code : Z) :
  (In (label, code)
      [("Nuevo", 1%Z); ("En Progreso", 2%Z); ("Resuelto", 3%Z);
       ("Cerrado", 4%Z)] ->
   (forall c, obj_lookup "estado" c = Some (VStr label) ->
              obj_lookup "estado" (fix_estado c) = Some (VNum code)) /\
   (forall raw ticket,
      prop raw "estado" = VStr label ->
      ticketToUserFriendly raw = Resolved ticket ->
      prop ticket "estado" = VStr "abierto")) /\
  (In (label, code) [("Baja", 1%Z); ("Normal", 2%Z); ("Alta", 3%Z)] ->
   (forall c, obj_lookup "prioridad" c = Some (VStr label) ->
              obj_lookup "prioridad" (fix_prioridad c) = Some (VNum code)) /\
   (forall raw ticket,
      prop raw "prioridad" = VStr label ->
      ticketToUserFriendly raw = Resolved ticket ->
      prop ticket "prioridad" = VStr "media")).
Proof.
  split; intros Hin; simpl in Hin.
  - assert (Hcases : (label = "Nuevo" /\ code = 1%Z) \/
                     (label = "En Progreso" /\ code = 2%Z) \/
                     (label = "Resuelto" /\ code = 3%Z) \/
                     (label = "Cerrado" /\ code = 4%Z)).
    { destruct Hin as [[= <- <-]|[[= <- <-]|[[= <- <-]|[[= <- <-]|[]]]]]; tauto. }
    split.
    + intros c Hc. unfold fix_estado. rewrite prop_obj, Hc. cbn [typeof_string].
      rewrite obj_lookup_set. cbn [String.eqb Ascii.eqb Bool.eqb].
      destruct Hcases as [[-> ->]|[[-> ->]|[[-> ->]|[-> ->]]]]; reflexivity.
    + intros raw ticket Hraw Hnorm. unfold ticketToUserFriendly in Hnorm.
      destruct raw; try discriminate; try (cbn in Hraw; discriminate Hraw);
        injection Hnorm as <-;
        cbn [prop obj_lookup String.eqb Ascii.eqb Bool.eqb] in *;
        rewrite Hraw;
        destruct Hcases as [[-> ->]|[[-> ->]|[[-> ->]|[-> ->]]]]; reflexivity.
  - assert (Hcases : (label = "Baja" /\ code = 1%Z) \/
                     (label = "Normal" /\ code = 2%Z) \/
                     (label = "Alta" /\ code = 3%Z)).
    { destruct Hin as [[= <- <-]|[[= <- <-]|[[= <- <-]|[]]]]; tauto. }
    split.
    + intros c Hc. unfold fix_prioridad. rewrite !prop_obj, Hc.
      destruct Hcases as [[-> ->]|[[-> ->]|[-> ->]]];
        cbn [strict_eq String.eqb Ascii.eqb Bool.eqb];
        rewrite obj_lookup_set; reflexivity.
    + intros raw ticket Hraw Hnorm. unfold ticketToUserFriendly in Hnorm.
      destruct raw; try discriminate; try (cbn in Hraw; discriminate Hraw);
        injection Hnorm as <-;
        cbn [prop obj_lookup String.eqb Ascii.eqb Bool.eqb] in *;
        rewrite Hraw;
        destruct Hcases as [[-> ->]|[[-> ->]|[-> ->]]]; reflexivity.
Qed.

End UpstreamLabels.

Lemma upstream_labels_are_read_as_fallbacks_witness :
  obj_lookup "estado"
    (TicketService.fix_estado (own_entries Samples.closed_ticket))
  = Some (VNum 4) /\
  prop Samples.ticket_15_friendly "estado" = VStr "abierto".
Proof.
  destruct (proj1 (upstream_labels_are_read_as_fallbacks
                     (RT := sample_runtime) "Cerrado" 4))
    as [Hfix _].
  { simpl. auto 10. }
  destruct (proj1 (upstream_labels_are_read_as_fallbacks
                     (RT := sample_runtime) "Nuevo" 1))
    as [_ Hnorm].
  { simpl. auto 10. }
  split.
  - apply Hfix. reflexivity.
  - apply (Hnorm Samples.ticket_15); reflexivity.
Defined.

(* ================================================================== *)
(** * Properties of the error handler *)
(* ================================================================== *)

Lemma includes_cons (n : string) (c : ascii) (h : string) :
  includes n (String c h) = (String.prefix n (String c h) || includes n h)%bool.
Proof. reflexivity. Qed.

Lemma includes_append (n p t : string) :
  includes n t = true -> includes n (p +:+ t) = true.
Proof.
  rewrite !includes_iff. intros (a & b & ->).
  exists (p +:+ a), b. now rewrite append_assoc.
Qed.

Section ErrorClasses.

Import WispHubClient.

Context {RT : Runtime}.

(** Steps over the known head of a text in which a keyword is
    searched. *)
Ltac skip_head :=
  repeat match goal with
         | |- context [includes ?kw (String ?c ?h)] =>
             rewrite (includes_cons kw c h);
             replace (String.prefix kw (String c h)) with false
               by (vm_compute; reflexivity);
             rewrite orb_false_l
         end.

(** X30. The error handler classifies a failure of the access layer
    by the words of its message alone. A timeout is a [NETWORK_ERROR].
    A failure without response is [UNKNOWN_ERROR] unless the
    transport's own message has one of the words: the prefix
    [Network error: ] does not count, the test being case-sensitive.
    An API failure whose body text has none of the words is classified
    by the digits of its status: 401, 404 and 500 have a class of their
    own, 503 is [UNKNOWN_ERROR]; and a body text that mentions
    [timeout] makes any API failure a [NETWORK_ERROR]. *)
Theorem access_failures_are_classified_by_text (e : AxiosError)
    (tool : string) :
  let keywords :=
    ["ECONNREFUSED"; "network"; "timeout"; "401"; "Unauthorized";
     "404"; "Not Found"; "500"; "Internal Server Error"] in
  let class := ErrorHandler.code
                 (ErrorHandler.analyzeError (formatError e) tool) in
  (has_body e = false -> is_timeout e = true -> class = "NETWORK_ERROR") /\
  (has_body e = false -> is_timeout e = false ->
   Forall (fun kw => includes kw (error_message e) = false) keywords ->
   class = "UNKNOWN_ERROR") /\
  (forall r,
     response e = Some r -> truthy (data r) = true ->
     Forall (fun kw => includes kw (to_string (errorMessage (data r))) = false)
            keywords ->
     (status r = 401%Z -> class = "AUTH_ERROR") /\
     (status r = 404%Z -> class = "NOT_FOUND_ERROR") /\
     (status r = 500%Z -> class = "SERVER_ERROR") /\
     (status r = 503%Z -> class = "UNKNOWN_ERROR")) /\
  (forall r,
     response e = Some r -> truthy (data r) = true ->
     includes "timeout" (to_string (errorMessage (data r))) = true ->
     class = "NETWORK_ERROR").
Proof.
  intros keywords class.
  assert (Hno_body : has_body e = false ->
            formatError e
            = if is_timeout e
              then Error "Request timeout - WispHub API is not responding"
              else Error ("Network error: " +:+ error_message e)).
  { unfold has_body, formatError.
    destruct (response e) as [r|]; [|reflexivity]. now intros ->. }
  assert (Hbody : forall r, response e = Some r -> truthy (data r) = true ->
            formatError e
            = Error ("WispHub API Error (" +:+ to_string (VNum (status r))
                     +:+ "): " +:+ to_string (errorMessage (data r)))).
  { intros r Hr Hd. unfold formatError. now rewrite Hr, Hd. }
  split; [|split; [|split]].
  - intros Hb Ht. unfold class. rewrite (Hno_body Hb), Ht. reflexivity.
  - intros Hb Ht Hkw. unfold class. rewrite (Hno_body Hb), Ht.
    unfold keywords in Hkw.
    repeat match goal with
           | H : Forall _ (_ :: _) |- _ => inversion H; clear H; subst
           end.
    unfold ErrorHandler.analyzeError.
    cbn [ctor Js.message Error String.eqb Ascii.eqb Bool.eqb].
    change ("Network error: " +:+ error_message e)
      with (String "N" (String "e" (String "t" (String "w" (String "o"
           (String "r" (String "k" (String " " (String "e" (String "r"
           (String "r" (String "o" (String "r" (String ":" (String " "
           (error_message e)))))))))))))))).
    skip_head.
    repeat match goal with H : includes _ _ = false |- _ => rewrite H; clear H end.
    reflexivity.
  - intros r Hr Hd Hkw. unfold class. rewrite (Hbody r Hr Hd).
    set (text := to_string (errorMessage (data r))) in *.
    unfold keywords in Hkw.
    repeat match goal with
           | H : Forall _ (_ :: _) |- _ => inversion H; clear H; subst
           end.
    unfold ErrorHandler.analyzeError.
    cbn [ctor Js.message Error String.eqb Ascii.eqb Bool.eqb].
    repeat split; intros ->.
    + change ("WispHub API Error (" +:+ to_string (VNum 401) +:+ "): " +:+ text)
        with (String "W" (String "i" (String "s" (String "p" (String "H"
             (String "u" (String "b" (String " " (String "A" (String "P"
             (String "I" (String " " (String "E" (String "r" (String "r"
             (String "o" (String "r" (String " " (String "(" (String "4"
             (String "0" (String "1" (String ")" (String ":" (String " "
             text))))))))))))))))))))))))).
      skip_head.
      rewrite (includes_cons "401" "4").
      replace (String.prefix "401" (String "4" (String "0" (String "1"
                 (String ")" (String ":" (String " " text)))))))
        with true by (vm_compute; reflexivity).
      repeat match goal with
             | H : includes _ text = false |- _ => rewrite H; clear H
             end.
      cbn [orb]. reflexivity.
    + change ("WispHub API Error (" +:+ to_string (VNum 404) +:+ "): " +:+ text)
        with (String "W" (String "i" (String "s" (String "p" (String "H"
             (String "u" (String "b" (String " " (String "A" (String "P"
             (String "I" (String " " (String "E" (String "r" (String "r"
             (String "o" (String "r" (String " " (String "(" (String "4"
             (String "0" (String "4" (String ")" (String ":" (String " "
             text))))))))))))))))))))))))).
      skip_head.
      rewrite (includes_cons "404" "4").
      replace (String.prefix "404" (String "4" (String "0" (String "4"
                 (String ")" (String ":" (String " " text)))))))
        with true by (vm_compute; reflexivity).
      repeat match goal with
             | H : includes _ text = false |- _ => rewrite H; clear H
             end.
      cbn [orb]. reflexivity.
    + change ("WispHub API Error (" +:+ to_string (VNum 500) +:+ "): " +:+ text)
        with (String "W" (String "i" (String "s" (String "p" (String "H"
             (String "u" (String "b" (String " " (String "A" (String "P"
             (String "I" (String " " (String "E" (String "r" (String "r"
             (String "o" (String "r" (String " " (String "(" (String "5"
             (String "0" (String "0" (String ")" (String ":" (String " "
             text))))))))))))))))))))))))).
      skip_head.
      rewrite (includes_cons "500" "5").
      replace (String.prefix "500" (String "5" (String "0" (String "0"
                 (String ")" (String ":" (String " " text)))))))
        with true by (vm_compute; reflexivity).
      repeat match goal with
             | H : includes _ text = false |- _ => rewrite H; clear H
             end.
      cbn [orb]. reflexivity.
    + change ("WispHub API Error (" +:+ to_string (VNum 503) +:+ "): " +:+ text)
        with (String "W" (String "i" (String "s" (String "p" (String "H"
             (String "u" (String "b" (String " " (String "A" (String "P"
             (String "I" (String " " (String "E" (String "r" (String "r"
             (String "o" (String "r" (String " " (String "(" (String "5"
             (String "0" (String "3" (String ")" (String ":" (String " "
             text))))))))))))))))))))))))).
      skip_head.
      repeat match goal with
             | H : includes _ text = false |- _ => rewrite H; clear H
             end.
      reflexivity.
  - intros r Hr Hd Htimeout. unfold class. rewrite (Hbody r Hr Hd).
    unfold ErrorHandler.analyzeError.
    cbn [ctor Js.message Error String.eqb Ascii.eqb Bool.eqb].
    assert (includes "timeout"
              ("WispHub API Error (" +:+ to_string (VNum (status r)) +:+ "): "
               +:+ to_string (errorMessage (data r))) = true) as ->.
    { apply includes_append, includes_append, includes_append. exact Htimeout. }
    rewrite !orb_true_r. reflexivity.
Qed.

End ErrorClasses.

Lemma access_failures_are_classified_by_text_witness :
  ErrorHandler.code
    (ErrorHandler.analyzeError
       (WispHubClient.formatError (RT := sample_runtime) Samples.timed_out)
       "obtener_cliente") = "NETWORK_ERROR" /\
  ErrorHandler.code
    (ErrorHandler.analyzeError
       (WispHubClient.formatError (RT := sample_runtime) Samples.not_found)
       "obtener_cliente") = "NOT_FOUND_ERROR".
Proof.
  split.
  - apply (proj1 (access_failures_are_classified_by_text
                    (RT := sample_runtime) Samples.timed_out
                    "obtener_cliente")); reflexivity.
  - refine (proj1 (proj2
      (proj1 (proj2 (proj2 (access_failures_are_classified_by_text
                              (RT := sample_runtime) Samples.not_found
                              "obtener_cliente")))
         {| WispHubClient.status := 404;
            WispHubClient.data := VObj [("detail", VStr "Not found.")] |}
         _ _ _)) _).
    + reflexivity.
    + reflexivity.
    + repeat constructor.
    + reflexivity.
Defined.

(* ================================================================== *)
(** * The ticket update on the wire *)
(* ================================================================== *)

Section TicketWire.

Import TicketService DataTransformer WispHubClient.

Context {RT : Runtime}.
Variable config : ServerConfig.
Variable transport : nat -> attempt.
Variable now : Z.




(** What a request leaves on the wire: itself, followed by its re-issue
    at most. *)
Lemma send_sent (cfg : RequestConfig) (st : WispHubClient.t) :
  sent (snd (send config transport cfg st)) = (sent st ++ [cfg])%list \/
  sent (snd (send config transport cfg st))
  = (sent st ++ [cfg; retried cfg])%list.
Proof.
  unfold send.
  destruct (http_total config transport cfg st) as (r & st' & H). rewrite H.
  apply http_trace in H. destruct H as [_ Hs].
  destruct r; cbn [snd]; exact Hs.
Qed.

(** A ticket update puts nothing else on the wire: whatever the
    upstream answers, every PUT among the requests of the run goes to
    the ticket's endpoint and carries the object that [putData] builds
    from a record; [closing_update_payload] gives its content when the
    update closes the ticket. *)
Lemma ticket_update_sends_no_other_put (ticketId : Z) (updates : Updates)
    (s0 : WispHubClient.t * list Z) :
  let endpoint := "/api/tickets/" +:+ string_of_Z ticketId +:+ "/" in
  exists requests : list RequestConfig,
    sent (fst (snd (actualizarTicket
                      (HC := WispHub_http config transport now)
                      ticketId updates s0)))
    = (sent (fst s0) ++ requests)%list /\
    Forall (fun cfg =>
              method cfg = "PUT" ->
              url cfg = endpoint /\
              exists (record : value) (p : list (string * value)),
                body cfg = VObj p /\
                putData ticketId updates record = Resolved (VObj p))
           requests.
Proof.
  intros endpoint.
  set (get := request "GET" endpoint VUndefined VUndefined).
  assert (Hgets : forall l,
            Forall (fun cfg => method cfg = "GET") l ->
            Forall (fun cfg =>
                      method cfg = "PUT" ->
                      url cfg = endpoint /\
                      exists (record : value) (p : list (string * value)),
                        body cfg = VObj p /\
                        putData ticketId updates record = Resolved (VObj p))
                   l).
  { intros l. apply List.Forall_impl. intros cfg Hg Hp.
    rewrite Hg in Hp. discriminate. }
  assert (Hread : forall st,
            exists l, sent (snd (send config transport get st))
                      = (sent st ++ l)%list /\
                      Forall (fun cfg => method cfg = "GET") l).
  { intros st. destruct (send_sent get st) as [H|H]; rewrite H;
      eexists; (split; [reflexivity|]);
      repeat (apply List.Forall_cons; [reflexivity|]); apply List.Forall_nil. }
  unfold actualizarTicket, try_catch. fold endpoint.
  unfold bind at 1. cbn [http_get WispHub_http].
  rewrite (get_uncached config transport endpoint VUndefined None now now
             (fst s0) eq_refl). fold get.
  destruct (Hread (fst s0)) as (l0 & Hs0 & Hl0).
  destruct (send config transport get (fst s0)) as [[currentTicket|err] c0]
    eqn:Hget; cbn [snd] in Hs0.
  2:{ exists l0. split; [exact Hs0|apply Hgets; exact Hl0]. }
  destruct (truthy (first_record VUndefined currentTicket)); cbn [negb].
  2:{ exists l0. split; [exact Hs0|apply Hgets; exact Hl0]. }
  unfold bind at 1, lift.
  destruct (putData ticketId updates (first_record VUndefined currentTicket))
    as [payload|err] eqn:Hp.
  2:{ exists l0. split; [exact Hs0|apply Hgets; exact Hl0]. }
  assert (Hobj : exists p, payload = VObj p).
  { unfold putData in Hp.
    destruct (cleanedCurrentData updates
                (first_record VUndefined currentTicket)); [|discriminate].
    injection Hp as <-. eauto. }
  destruct Hobj as (p & ->).
  set (put := request "PUT" endpoint VUndefined (VObj p)).
  assert (Hputs : Forall (fun cfg =>
                      method cfg = "PUT" ->
                      url cfg = endpoint /\
                      exists (record : value) (q : list (string * value)),
                        body cfg = VObj q /\
                        putData ticketId updates record = Resolved (VObj q))
                   [put; retried put]).
  { apply List.Forall_cons; [|apply List.Forall_cons; [|apply List.Forall_nil]];
      intros _; (split; [reflexivity|]);
      exists (first_record VUndefined currentTicket), p;
      (split; [reflexivity|exact Hp]). }
  assert (Hwrite : exists l,
            sent (snd (send config transport put c0)) = (sent c0 ++ l)%list /\
            Forall (fun cfg =>
                      method cfg = "PUT" ->
                      url cfg = endpoint /\
                      exists (record : value) (q : list (string * value)),
                        body cfg = VObj q /\
                        putData ticketId updates record = Resolved (VObj q))
                   l).
  { destruct (send_sent put c0) as [H|H]; rewrite H;
      eexists; (split; [reflexivity|]).
    - inversion Hputs as [|? ? Hfirst _]; subst.
      apply List.Forall_cons; [exact Hfirst|apply List.Forall_nil].
    - exact Hputs. }
  unfold bind at 1. cbn [http_put WispHub_http fst snd].
  unfold WispHubClient.put. fold put.
  destruct Hwrite as (l1 & Hs1 & Hl1).
  assert (Hsofar : Forall (fun cfg =>
                      method cfg = "PUT" ->
                      url cfg = endpoint /\
                      exists (record : value) (q : list (string * value)),
                        body cfg = VObj q /\
                        putData ticketId updates record = Resolved (VObj q))
                     (l0 ++ l1)).
  { apply Forall_app. split; [apply Hgets; exact Hl0|exact Hl1]. }
  destruct (send config transport put c0) as [[response|err] c1] eqn:Hput;
    cbn [snd] in Hs1.
  2:{ exists (l0 ++ l1)%list. split; [|exact Hsofar].
      unfold ret, throw. cbn [fst snd].
      rewrite Hs1, Hs0, <- app_assoc. reflexivity. }
  unfold bind at 1, lift.
  destruct (ticket_of_response response) as [ticket|err].
  2:{ exists (l0 ++ l1)%list. split; [|exact Hsofar].
      unfold ret, throw. cbn [fst snd].
      rewrite Hs1, Hs0, <- app_assoc. reflexivity. }
  destruct (truthy ticket); cbn [negb].
  2:{ exists (l0 ++ l1)%list. split; [|exact Hsofar].
      unfold ret, throw. cbn [fst snd].
      rewrite Hs1, Hs0, <- app_assoc. reflexivity. }
  unfold bind, verify_ticket, ret. cbn [http_get WispHub_http fst snd].
  rewrite (get_uncached config transport endpoint VUndefined None now now c1
             eq_refl). fold get.
  destruct (Hread c1) as (l2 & Hs2 & Hl2).
  exists ((l0 ++ l1) ++ l2)%list. split.
  - destruct (send config transport get c1) as [[verifyResponse|err] c2];
      cbn [snd] in Hs2;
      [destruct (truthy (first_record VNull verifyResponse));
       [destruct (ticketToUserFriendly (first_record VNull verifyResponse))|]
      |];
      cbn [fst snd]; rewrite Hs2, Hs1, Hs0, <- !app_assoc; reflexivity.
  - apply Forall_app. split; [exact Hsofar|apply Hgets; exact Hl2].
Qed.

End TicketWire.

